(** * jobbossutils: inventory update protocol

    A shallow embedding of [update_inventory.py], [xml_generator.py] and
    [jobboss_mock.py].

    Python [str] values are modelled as [string], the sequence of the bytes
    of their UTF-8 encoding.  Lexicographic order on UTF-8 bytes coincides
    with Python's code point order, and the ASCII characters the code tests
    for (['<'], ['0'], ['#'], ['-'], ['_']) are single bytes that never
    occur inside a multi-byte sequence.  Where the code looks at characters
    one by one ([str.strip], [\s], the loop over an identifier), the model
    follows the byte sequences of the code points.  Python [int] is [Z];
    a [float] is a binary64 value with its rounding.  What the
    interpreter's tables decide outside the model (the reading of a
    [float] from a text that is not a decimal integer, [str.isalnum]
    outside ASCII) is a parameter. *)

From Stdlib Require Import String Ascii List ZArith Lia Bool Permutation Sorted.
From Stdlib Require Import DecimalString DecimalZ DecimalPos.
Import ListNotations.

Local Open Scope list_scope.
Local Open Scope string_scope.

(** ** Python strings *)

Module PyStr.

(** Line feed and double quote, which the document templates contain. *)
Definition nl : string := String "010"%char "".
Definition dq : string := String "034"%char "".

(** [s[len(p):]] when [s.startswith(p)]. *)
Fixpoint strip_prefix (p s : string) : option string :=
  match p with
  | "" => Some s
  | String a p' =>
      match s with
      | "" => None
      | String b s' => if Ascii.eqb a b then strip_prefix p' s' else None
      end
  end.

Definition startswith (s p : string) : bool :=
  match strip_prefix p s with Some _ => true | None => false end.

(** [re.search]: the pattern is tried at every start position from the
    left; [m] is the pattern anchored at the start of its argument. *)
Fixpoint re_search {A : Type} (m : string -> option A) (s : string) : option A :=
  match m s with
  | Some g => Some g
  | None =>
      match s with
      | "" => None
      | String _ s' => re_search m s'
      end
  end.

(** [needle in s]. *)
Definition contains (needle s : string) : bool :=
  match re_search (strip_prefix needle) s with Some _ => true | None => false end.

Definition is_lt (c : ascii) : bool := Ascii.eqb c "<".

(** The longest prefix matched by [[^<]*] and what follows it. *)
Fixpoint span_not_lt (s : string) : string * string :=
  match s with
  | "" => ("", "")
  | String c s' =>
      if is_lt c then ("", s)
      else let (g, rest) := span_not_lt s' in (String c g, rest)
  end.

(** No ['<'] occurs in [s]. *)
Fixpoint nolt (s : string) : bool :=
  match s with
  | "" => true
  | String c s' => negb (is_lt c) && nolt s'
  end.

Definition nonempty (s : string) : bool :=
  match s with "" => false | _ => true end.

(** White space as [str.strip] and the pattern [\s] see it: the code
    points for which [str.isspace] holds.  Within ASCII these are tab, line
    feed, vertical tab, form feed, carriage return, the four separators
    0x1c-0x1f and the space. *)
Definition is_space (c : ascii) : bool :=
  let n := nat_of_ascii c in
  ((9 <=? n) && (n <=? 13) || (28 <=? n) && (n <=? 32))%nat.

(** The white space outside ASCII, by the bytes of its UTF-8 encoding:
    U+0085 (c2 85) and U+00A0 (c2 a0) take two bytes. *)
Definition is_space2 (a b : ascii) : bool :=
  let x := nat_of_ascii a in
  let y := nat_of_ascii b in
  ((x =? 194) && ((y =? 133) || (y =? 160)))%nat.

(** U+1680 (e1 9a 80), U+2000-U+200A (e2 80 80-8a), U+2028, U+2029 and
    U+202F (e2 80 a8, a9, af), U+205F (e2 81 9f) and U+3000 (e3 80 80) take
    three. *)
Definition is_space3 (a b c : ascii) : bool :=
  let x := nat_of_ascii a in
  let y := nat_of_ascii b in
  let z := nat_of_ascii c in
  ((x =? 225) && (y =? 154) && (z =? 128)
   || (x =? 226) && (y =? 128)
      && ((128 <=? z) && (z <=? 138) || (z =? 168) || (z =? 169) || (z =? 175))
   || (x =? 226) && (y =? 129) && (z =? 159)
   || (x =? 227) && (y =? 128) && (z =? 128))%nat.

(** [s.lstrip()]: white space is removed from the left, one code point
    at a time. *)
Fixpoint lstrip (s : string) : string :=
  match s with
  | "" => ""
  | String a s1 =>
      if is_space a then lstrip s1
      else
        match s1 with
        | "" => s
        | String b s2 =>
            if is_space2 a b then lstrip s2
            else
              match s2 with
              | "" => s
              | String c s3 => if is_space3 a b c then lstrip s3 else s
              end
        end
  end.

(** [s] is one white space code point. *)
Definition is_one_space (s : string) : bool :=
  match s with
  | String a "" => is_space a
  | String a (String b "") => is_space2 a b
  | String a (String b (String c "")) => is_space3 a b c
  | _ => false
  end.

(** [s.rstrip()].  What is left of the tail after stripping ends with no
    white space, so with the head before it the result ends with white
    space only when it is one white space code point as a whole. *)
Fixpoint rstrip (s : string) : string :=
  match s with
  | "" => ""
  | String c s' =>
      let r := String c (rstrip s') in
      if is_one_space r then "" else r
  end.

Definition strip (s : string) : string := rstrip (lstrip s).

(** [open([^<]+)close], anchored.  The group cannot contain ['<'] and
    [close] starts with ['<'], so the group is the whole run of characters
    other than ['<'] after [open]: backtracking to a shorter run would need
    [close] to start with a character of the run. *)
Definition m_tag (open close : string) (s : string) : option string :=
  match strip_prefix open s with
  | None => None
  | Some body =>
      let (g, rest) := span_not_lt body in
      if nonempty g then
        match strip_prefix close rest with
        | Some _ => Some g
        | None => None
        end
      else None
  end.

(** [open] then a group made of one character other than ['0'] (it may be
    ['<']) and any number of characters other than ['<'], then [close];
    anchored.  As above the run after the first character is maximal. *)
Definition m_tag_not0 (open close : string) (s : string) : option string :=
  match strip_prefix open s with
  | Some (String c body) =>
      if Ascii.eqb c "0" then None
      else
        let (g, rest) := span_not_lt body in
        match strip_prefix close rest with
        | Some _ => Some (String c g)
        | None => None
        end
  | _ => None
  end.

(** [outer\s*open([^<]+)close], anchored.  [open] starts with ['<'], which
    is not white space and starts no white space, so [\s*] takes the whole
    run of white space. *)
Definition m_tag_in (outer open close : string) (s : string) : option string :=
  match strip_prefix outer s with
  | None => None
  | Some inner => m_tag open close (lstrip inner)
  end.

(** [str(n)] for an [int]. *)
Definition str_int (n : Z) : string := NilZero.string_of_int (Z.to_int n).

(** [int(s)] on the decimal literals [-?[0-9]+], the only texts for
    which it is defined here. *)
Definition int_of_str (s : string) : option Z :=
  option_map Z.of_int (NilZero.int_of_string s).

(** [s[:n]] and [s[n:]]. *)
Fixpoint take (n : nat) (s : string) : string :=
  match n, s with
  | S n', String c s' => String c (take n' s')
  | _, _ => ""
  end.

Fixpoint drop (n : nat) (s : string) : string :=
  match n, s with
  | S n', String _ s' => drop n' s'
  | _, _ => s
  end.

(** A byte that continues a UTF-8 sequence. *)
Definition continues (b : ascii) : bool :=
  let n := nat_of_ascii b in ((128 <=? n) && (n <? 192))%nat.

(** The number of bytes of the sequence a byte starts: one for ASCII, two
    from 0xc0, three from 0xe0, four from 0xf0. *)
Definition utf8_width (a : ascii) : nat :=
  let n := nat_of_ascii a in
  if (n <? 192)%nat then 1 else if (n <? 224)%nat then 2
  else if (n <? 240)%nat then 3 else 4.

(** The characters of a [str], as a loop over it sees them: each code
    point with the bytes of its encoding.  A byte that is not part of a
    well-formed sequence, which the encoding of a [str] never holds, stands
    alone. *)
Fixpoint chars (s : string) : list string :=
  match s with
  | "" => []
  | String a s1 =>
      match utf8_width a, s1 with
      | 2%nat, String b s2 =>
          if continues b then String a (String b "") :: chars s2
          else String a "" :: chars s1
      | 3%nat, String b (String c s3) =>
          if continues b && continues c
          then String a (String b (String c "")) :: chars s3
          else String a "" :: chars s1
      | 4%nat, String b (String c (String d s4)) =>
          if continues b && continues c && continues d
          then String a (String b (String c (String d ""))) :: chars s4
          else String a "" :: chars s1
      | _, _ => String a "" :: chars s1
      end
  end.

End PyStr.
Import PyStr.

(** ** Python values *)

Module Py.

(** The outcome of a call that may raise; an exception is kept as [str(e)]. *)
Inductive call_result (A : Type) : Type :=
| Returned (a : A)
| Raised (e : string).
Arguments Returned {A} a.
Arguments Raised {A} e.

(** A [dict] with [str] keys, in insertion order. *)
Definition dict (V : Type) : Type := list (string * V).

Fixpoint dict_get {V : Type} (d : dict V) (k : string) : option V :=
  match d with
  | [] => None
  | (k', v) :: d' => if String.eqb k' k then Some v else dict_get d' k
  end.

(** [d[k] = v]: an existing key keeps its place, a new key goes last. *)
Fixpoint dict_set {V : Type} (d : dict V) (k : string) (v : V) : dict V :=
  match d with
  | [] => [(k, v)]
  | (k', v') :: d' =>
      if String.eqb k' k then (k', v) :: d' else (k', v') :: dict_set d' k v
  end.

Definition keys {V : Type} (d : dict V) : list string := map fst d.

(** [collections.Counter(xs)]: each element adds one to its count, a new
    element starting from zero. *)
Definition tally (counts : dict Z) (x : string) : dict Z :=
  dict_set counts x (match dict_get counts x with
                     | Some n => n + 1
                     | None => 1
                     end)%Z.

Definition Counter (xs : list string) : dict Z := fold_left tally xs [].

(** Truth value of a [str] or of [None]: the value when it is truthy. *)
Definition truthy (o : option string) : option string :=
  match o with
  | Some s => if nonempty s then Some s else None
  | None => None
  end.

(** [a < b] on [(str, int)] tuples. *)
Definition item_lt (a b : string * Z) : bool :=
  match String.compare (fst a) (fst b) with
  | Lt => true
  | Eq => Z.ltb (snd a) (snd b)
  | Gt => false
  end.

(** [sorted]: stable, so an element goes after the elements it is not less
    than. *)
Fixpoint insert_item (x : string * Z) (l : list (string * Z)) : list (string * Z) :=
  match l with
  | [] => [x]
  | y :: l' => if item_lt x y then x :: l else y :: insert_item x l'
  end.

Definition sorted (l : list (string * Z)) : list (string * Z) :=
  fold_left (fun acc x => insert_item x acc) l [].

(** *** Numbers

    A [float] is an IEEE 754 binary64 value.  Every finite one is a
    multiple of [2^-1074]: [Finite n] is the value [n * 2^-1074], so
    [Finite 0] is [0.0] and [Finite (z * float_one)] the integer [z]. *)
Inductive pyfloat : Type :=
| Finite (n : Z)
| NegZero
| Infinity (negative : bool)
| NaN.

Definition float_one : Z := 2 ^ 1074.

(** The integer nearest to [a / b], for [0 < b]; of two equally near, the
    even one. *)
Definition div_nearest_even (a b : Z) : Z :=
  let q := (a / b)%Z in
  match (2 * (a mod b) ?= b)%Z with
  | Lt => q
  | Gt => (q + 1)%Z
  | Eq => if Z.even q then q else (q + 1)%Z
  end.

(** Rounding: the float nearest to [a / b] times [2^-1074], for [0 < b].
    The significand keeps 53 bits, a tie goes to the even significand, and
    a result of [2^1024] or more is an infinity. *)
Definition nearest (a b : Z) : pyfloat :=
  let k := Z.max 0 (Z.log2 (Z.abs a / b) - 52) in
  let n := (div_nearest_even a (b * 2 ^ k) * 2 ^ k)%Z in
  if (2 ^ 2098 <=? Z.abs n)%Z then Infinity (n <? 0)%Z
  else if (n =? 0)%Z && (a <? 0)%Z then NegZero
  else Finite n.

(** The conversion of an [int] that [int + float] makes. *)
Definition float_of_int (z : Z) : call_result pyfloat :=
  match nearest (z * float_one) 1 with
  | Infinity _ => Raised "int too large to convert to float"
  | x => Returned x
  end.

(** [x + y] on floats. *)
Definition fadd (x y : pyfloat) : pyfloat :=
  match x, y with
  | NaN, _ | _, NaN => NaN
  | Infinity s, Infinity t => if Bool.eqb s t then Infinity s else NaN
  | Infinity s, _ | _, Infinity s => Infinity s
  | NegZero, NegZero => NegZero
  | NegZero, Finite n | Finite n, NegZero => Finite n
  | Finite a, Finite b => nearest (a + b) 1
  end.

(** An [int] or a [float]. *)
Inductive num : Type :=
| PyInt (z : Z)
| PyFloat (x : pyfloat).

(** [a + b] for a number [a] and a float [b]: an [int] is converted
    first, which raises [OverflowError] when it is too large. *)
Definition add (a : num) (b : pyfloat) : call_result num :=
  match a with
  | PyInt z =>
      match float_of_int z with
      | Returned x => Returned (PyFloat (fadd x b))
      | Raised e => Raised e
      end
  | PyFloat x => Returned (PyFloat (fadd x b))
  end.

(** [float(s)].  On a decimal integer literal [-?[0-9]+], which is what
    the request documents of this repository carry in [Quantity], it is
    the nearest float, an infinity when the integer is too large and
    [-0.0] for a negative zero.  On any other text it is what the
    interpreter's [float] makes of it, a value or [ValueError]: the
    parameter [builtin]. *)
Definition float (builtin : string -> call_result pyfloat) (s : string)
  : call_result pyfloat :=
  match int_of_str s with
  | Some z =>
      Returned (if (z =? 0)%Z && startswith s "-" then NegZero
                else nearest (z * float_one) 1)
  | None => builtin s
  end.

Fixpoint zeros (n : nat) : string :=
  match n with O => "" | S n' => String "0" (zeros n') end.

(** The decimal [c * 10^e] with [p] digits, [p = k10 - e], that is nearest
    to the float of [n] units among those [float] reads back as that
    float, if there is one.  [k10] is the number of digits of the integer
    part, so the two candidates are the decimals just below and just
    above. *)
Definition digits_at (n k10 p : Z) : option (Z * Z) :=
  let e := (k10 - p)%Z in
  let num := (n * 10 ^ Z.max 0 (- e))%Z in
  let den := (float_one * 10 ^ Z.max 0 e)%Z in
  let lo := (num / den)%Z in
  let hi := (lo + 1)%Z in
  let reads_back c :=
    match nearest (c * 10 ^ Z.max 0 e * float_one) (10 ^ Z.max 0 (- e)) with
    | Finite m => (m =? n)%Z
    | _ => false
    end in
  match reads_back lo, reads_back hi with
  | true, true =>
      match (2 * (num mod den) ?= den)%Z with
      | Lt => Some (lo, e)
      | Gt => Some (hi, e)
      | Eq => Some (if Z.even lo then lo else hi, e)
      end
  | true, false => Some (lo, e)
  | false, true => Some (hi, e)
  | false, false => None
  end.

Fixpoint shortest_from (fuel : nat) (n k10 p : Z) : Z * Z :=
  match fuel with
  | O => (0%Z, 0%Z)
  | S fuel' =>
      match digits_at n k10 p with
      | Some d => d
      | None => shortest_from fuel' n k10 (p + 1)
      end
  end.

Fixpoint strip_zeros (fuel : nat) (c e : Z) : Z * Z :=
  match fuel with
  | O => (c, e)
  | S fuel' =>
      if (c mod 10 =? 0)%Z then strip_zeros fuel' (c / 10)%Z (e + 1)%Z else (c, e)
  end.

(** The shortest decimal [c * 10^e] that reads back as the positive float
    of [n] units, which [repr] prints; 17 digits always do. *)
Definition shortest (n : Z) : Z * Z :=
  let k10 := (Z.of_nat (String.length (str_int (n * 10 ^ 400 / float_one))) - 400)%Z in
  let (c, e) := shortest_from 17 n k10 1 in
  strip_zeros 17 c e.

Definition repr_exponent (x : Z) : string :=
  (if (x <? 0)%Z then "-" else "+")
  ++ (if (Z.abs x <? 10)%Z then "0" else "") ++ str_int (Z.abs x).

(** [repr] of a positive float: the digits with the point in its place,
    or with an exponent when the point would stand more than 16 places
    right of the first digit or more than 4 places left of it. *)
Definition repr_finite (n : Z) : string :=
  let (c, e) := shortest n in
  let digits := str_int c in
  let nd := String.length digits in
  let decpt := (Z.of_nat nd + e)%Z in
  if (16 <? decpt)%Z || (decpt <? -3)%Z then
    take 1 digits ++ (if (1 <? nd)%nat then "." ++ drop 1 digits else "")
    ++ "e" ++ repr_exponent (decpt - 1)
  else if (decpt <=? 0)%Z then "0." ++ zeros (Z.to_nat (- decpt)) ++ digits
  else if (Z.of_nat nd <=? decpt)%Z then digits ++ zeros (Z.to_nat decpt - nd) ++ ".0"
  else take (Z.to_nat decpt) digits ++ "." ++ drop (Z.to_nat decpt) digits.

Definition repr_float (x : pyfloat) : string :=
  match x with
  | NaN => "nan"
  | Infinity false => "inf"
  | Infinity true => "-inf"
  | NegZero => "-0.0"
  | Finite n =>
      if (n =? 0)%Z then "0.0"
      else (if (n <? 0)%Z then "-" else "") ++ repr_finite (Z.abs n)
  end.

(** [str] of a number, as an f-string prints it.  An [int] is printed in
    full: the limit on the digits of the conversion that newer
    interpreters set (4300 by default) is not modelled, and an [int] that
    [+=] accepts stays far below it. *)
Definition str_num (n : num) : string :=
  match n with
  | PyInt z => str_int z
  | PyFloat x => repr_float x
  end.

(** [datetime.now()] *)
Record datetime : Type := {
  year : nat; month : nat; day : nat;
  hour : nat; minute : nat; second : nat; microsecond : nat }.

Definition zfill (width : nat) (n : nat) : string :=
  let s := str_int (Z.of_nat n) in
  zeros (width - String.length s) ++ s.

(** [strftime('%Y%m%d%H%M%S')], for a year of four digits as [now()]
    gives. *)
Definition strftime_YmdHMS (t : datetime) : string :=
  zfill 4 (year t) ++ zfill 2 (month t) ++ zfill 2 (day t) ++
  zfill 2 (hour t) ++ zfill 2 (minute t) ++ zfill 2 (second t).

Definition isoformat (t : datetime) : string :=
  zfill 4 (year t) ++ "-" ++ zfill 2 (month t) ++ "-" ++ zfill 2 (day t) ++ "T" ++
  zfill 2 (hour t) ++ ":" ++ zfill 2 (minute t) ++ ":" ++ zfill 2 (second t) ++
  (if Nat.eqb (microsecond t) 0 then "" else "." ++ zfill 6 (microsecond t)).

End Py.
Import Py.

(** ** The COM object [JBRequestProcessor.RequestProcessor]

    What [run_updates] calls on the object [win32com.client.Dispatch]
    returns, over the state [S] of the external system.  A call returns a
    [str] or raises an [Exception]. *)

Module Com.

Record com_object (S : Type) : Type := {
  CreateSession : S -> string -> string -> string -> S * call_result string;
  ProcessRequest : S -> string -> S * call_result string;
  CloseSession : S -> string -> S * call_result unit }.
Arguments CreateSession {S}.
Arguments ProcessRequest {S}.
Arguments CloseSession {S}.

End Com.

(** The calls a run makes on the external channel, in order. *)
Inductive call : Type :=
| CallDispatch
| CallCreateSession (username password : string)
| CallProcessRequest (xml_request : string)
| CallCloseSession (session_id : string).

(** ** [update_inventory.py] *)

Module UpdateInventory.

Definition DEFAULT_REASON : string := "ADJUST".

(** [load_material_ids], on the lines of the input file. *)
Fixpoint load_material_ids (lines : list string) : list string :=
  match lines with
  | [] => []
  | line :: rest =>
      let line := strip line in
      if nonempty line && negb (startswith line "#")
      then line :: load_material_ids rest
      else load_material_ids rest
  end.

(** [{mat_id: -count for mat_id, count in counts.items()}] *)
Definition count_materials (material_ids : list string) : dict Z :=
  let counts := Counter material_ids in
  fold_left (fun d item => dict_set d (fst item) (- snd item)%Z) counts [].

Definition create_query_xml (session_id material_id : string) : string :=
  "<?xml version=" ++ dq ++ "1.0" ++ dq ++ " encoding=" ++ dq ++ "UTF-8" ++ dq ++ "?>" ++ nl ++
  "<JBXML>" ++ nl ++
  "    <JBXMLRequest>" ++ nl ++
  "        " ++ "<SessionID>" ++ session_id ++ "</SessionID>" ++ nl ++
  "        " ++ "<MaterialQueryRq>" ++ nl ++
  "            <MaterialQueryFilter>" ++ nl ++
  "                " ++ "<ID>" ++ material_id ++ "</ID>" ++ nl ++
  "                <IncludeMaterialLocations>false</IncludeMaterialLocations>" ++ nl ++
  "                <IncludeCustomerParts>false</IncludeCustomerParts>" ++ nl ++
  "                <IncludePriceBreaks>false</IncludePriceBreaks>" ++ nl ++
  "            </MaterialQueryFilter>" ++ nl ++
  "        </MaterialQueryRq>" ++ nl ++
  "    </JBXMLRequest>" ++ nl ++
  "</JBXML>".

Definition create_update_xml (session_id material_id last_updated : string)
    (quantity : Z) (reason_id : string) : string :=
  "<?xml version=" ++ dq ++ "1.0" ++ dq ++ " encoding=" ++ dq ++ "UTF-8" ++ dq ++ "?>" ++ nl ++
  "<JBXML>" ++ nl ++
  "    <JBXMLRequest>" ++ nl ++
  "        " ++ "<SessionID>" ++ session_id ++ "</SessionID>" ++ nl ++
  "        " ++ "<MaterialModRq>" ++ nl ++
  "            " ++ "<MaterialMod>" ++ nl ++
  "                " ++ "<ID>" ++ material_id ++ "</ID>" ++ nl ++
  "                " ++ "<LastUpdated>" ++ last_updated ++ "</LastUpdated>" ++ nl ++
  "            </MaterialMod>" ++ nl ++
  "            <AdjustOnHandQty>" ++ nl ++
  "                <ReasonRef ID=" ++ dq ++ reason_id ++ dq ++ "/>" ++ nl ++
  "                " ++ "<Quantity>" ++ str_int quantity ++ "</Quantity>" ++ nl ++
  "            </AdjustOnHandQty>" ++ nl ++
  "        </MaterialModRq>" ++ nl ++
  "    </JBXMLRequest>" ++ nl ++
  "</JBXML>".

Definition parse_last_updated (response : string) : option string :=
  re_search (m_tag "<LastUpdated>" "</LastUpdated>") response.

(** The [for pattern in [...]] loop of [parse_error]. *)
Fixpoint first_group (patterns : list (string -> option string)) (response : string)
  : option string :=
  match patterns with
  | [] => None
  | pattern :: rest =>
      match re_search pattern response with
      | Some g => Some g
      | None => first_group rest response
      end
  end.

Definition parse_error (response : string) : option string :=
  if contains "<StatusCode>0</StatusCode>" response then None
  else
    match first_group [m_tag "<StatusMessage>" "</StatusMessage>";
                       m_tag "<ErrorMessage>" "</ErrorMessage>"] response with
    | Some g => Some g
    | None =>
        match re_search (m_tag_not0 "<StatusCode>" "</StatusCode>") response with
        | Some g => Some ("Status code: " ++ g)
        | None => None
        end
    end.

(** The entries of [results["success"]] and [results["failed"]]. *)
Record success_entry : Type := { s_id : string; s_qty : Z }.
Record failed_entry : Type := { f_id : string; f_qty : Z; f_error : string }.

Record results : Type := {
  success : list success_entry;
  failed : list failed_entry;
  errors : list string }.

Definition no_results : results := {| success := []; failed := []; errors := [] |}.

Definition add_success (r : results) (id : string) (qty : Z) : results :=
  {| success := success r ++ [{| s_id := id; s_qty := qty |}];
     failed := failed r; errors := errors r |}.

Definition add_failed (r : results) (id : string) (qty : Z) (error : string) : results :=
  {| success := success r;
     failed := failed r ++ [{| f_id := id; f_qty := qty; f_error := error |}];
     errors := errors r |}.

Definition add_error (r : results) (e : string) : results :=
  {| success := success r; failed := failed r; errors := errors r ++ [e] |}.

Section Executor.

Context {S : Type} (jbobj : Com.com_object S).

(** The state of a run while the session is open: the external system, the
    calls made so far and the results. *)
Record exec : Type := { jb : S; calls : list call; res : results }.

Definition request (st : exec) (xml : string) : exec * call_result string :=
  let (jb', r) := Com.ProcessRequest jbobj (jb st) xml in
  ({| jb := jb'; calls := calls st ++ [CallProcessRequest xml]; res := res st |}, r).

Definition record_failed (st : exec) (id : string) (qty : Z) (error : string) : exec :=
  {| jb := jb st; calls := calls st; res := add_failed (res st) id qty error |}.

Definition record_success (st : exec) (id : string) (qty : Z) : exec :=
  {| jb := jb st; calls := calls st; res := add_success (res st) id qty |}.

(** The body of the [for] loop of [run_updates]; each [continue] is the end
    of a branch. *)
Definition process_item (session_id reason_id : string) (st : exec)
    (item : string * Z) : exec :=
  let (material_id, quantity) := item in
  let query_xml := create_query_xml session_id material_id in
  match request st query_xml with
  | (st, Raised e) => record_failed st material_id quantity e
  | (st, Returned response) =>
      match truthy (parse_error response) with
      | Some error => record_failed st material_id quantity error
      | None =>
          match truthy (parse_last_updated response) with
          | None => record_failed st material_id quantity "Not found"
          | Some last_updated =>
              let update_xml :=
                create_update_xml session_id material_id last_updated quantity reason_id in
              match request st update_xml with
              | (st, Raised e) => record_failed st material_id quantity e
              | (st, Returned response) =>
                  match truthy (parse_error response) with
                  | Some error => record_failed st material_id quantity error
                  | None => record_success st material_id quantity
                  end
              end
          end
      end
  end.

Definition process_items (session_id reason_id : string) (st : exec)
    (items : list (string * Z)) : exec :=
  fold_left (process_item session_id reason_id) items st.

(** The [finally] clause: the exception of [CloseSession] is dropped. *)
Definition close_session (session_id : string) (st : exec) : exec :=
  let (jb', _) := Com.CloseSession jbobj (jb st) session_id in
  {| jb := jb'; calls := calls st ++ [CallCloseSession session_id]; res := res st |}.

(** What a run leaves: the returned [results], the calls made on the
    external channel and the external system, when it was reached. *)
Record outcome : Type := {
  out_results : results;
  out_calls : list call;
  out_jb : option S }.

(** [run_updates].  [lines] is the content of the file at [input_path] and
    [dispatch] what [win32com.client.Dispatch] does when called.  Output
    on [stdout] is not modelled. *)
Definition run_updates (lines : list string) (dispatch : call_result S)
    (username password reason_id : string) (dry_run : bool) : outcome :=
  let results := no_results in
  let material_ids := load_material_ids lines in
  match material_ids with
  | [] => {| out_results := results; out_calls := []; out_jb := None |}
  | _ :: _ =>
      let quantity_changes := count_materials material_ids in
      if dry_run then {| out_results := results; out_calls := []; out_jb := None |}
      else
        match dispatch with
        | Raised e =>
            {| out_results := add_error results ("Failed to create COM object: " ++ e);
               out_calls := [CallDispatch]; out_jb := None |}
        | Returned jb0 =>
            let error_msg := "" in
            let called := [CallDispatch; CallCreateSession username password] in
            match Com.CreateSession jbobj jb0 username password error_msg with
            | (jb1, Raised e) =>
                {| out_results := add_error results ("Session failed: " ++ e);
                   out_calls := called; out_jb := Some jb1 |}
            | (jb1, Returned session_id) =>
                match truthy (Some session_id) with
                | None =>
                    {| out_results := add_error results ("Session failed: " ++ error_msg);
                       out_calls := called; out_jb := Some jb1 |}
                | Some _ =>
                    let st := {| jb := jb1; calls := called; res := results |} in
                    let st := process_items session_id reason_id st (sorted quantity_changes) in
                    let st := close_session session_id st in
                    {| out_results := res st; out_calls := calls st; out_jb := Some (jb st) |}
                end
            end
        end
  end.

(** The command line of [main] after [parse_args], with the environment
    defaults applied. *)
Record args : Type := {
  arg_input : string;
  arg_user : option string;
  arg_password : option string;
  arg_reason : string;
  arg_dry_run : bool }.

(** [main]: the status passed to [sys.exit], and the run when there was
    one.  [fs] gives the lines of the file at a path that exists. *)
Definition main (fs : string -> option (list string)) (dispatch : call_result S)
    (a : args) : Z * option outcome :=
  match truthy (arg_user a) with
  | None => (1%Z, None)
  | Some user =>
      match truthy (arg_password a) with
      | None => (1%Z, None)
      | Some password =>
          match fs (arg_input a) with
          | None => (1%Z, None)
          | Some lines =>
              let out := run_updates lines dispatch user password (arg_reason a)
                           (arg_dry_run a) in
              let r := out_results out in
              ((match failed r, errors r with
                | [], [] => 0
                | _, _ => 1
                end)%Z, Some out)
          end
      end
  end.

End Executor.

End UpdateInventory.

(** ** [xml_generator.py] *)

Module XmlGenerator.

(** [{mat_id: -count for mat_id, count in counts.items()}] *)
Definition count_materials (material_ids : list string) : dict Z :=
  let counts := Counter material_ids in
  fold_left (fun d item => dict_set d (fst item) (- snd item)%Z) counts [].

Definition create_material_query_xml (session_id_placeholder material_id : string)
  : string :=
  "<?xml version=" ++ dq ++ "1.0" ++ dq ++ " encoding=" ++ dq ++ "UTF-8" ++ dq ++ "?>" ++ nl ++
  "<JBXML>" ++ nl ++
  "    <JBXMLRequest Session=" ++ dq ++ session_id_placeholder ++ dq ++ ">" ++ nl ++
  "        " ++ "<MaterialQueryRq>" ++ nl ++
  "            <MaterialQueryFilter>" ++ nl ++
  "                " ++ "<ID>" ++ material_id ++ "</ID>" ++ nl ++
  "                <IncludeMaterialLocations>false</IncludeMaterialLocations>" ++ nl ++
  "                <IncludeCustomerParts>false</IncludeCustomerParts>" ++ nl ++
  "                <IncludePriceBreaks>false</IncludePriceBreaks>" ++ nl ++
  "            </MaterialQueryFilter>" ++ nl ++
  "        </MaterialQueryRq>" ++ nl ++
  "    </JBXMLRequest>" ++ nl ++
  "</JBXML>".

Definition create_material_mod_xml
    (session_id_placeholder material_id last_updated_placeholder : string)
    (quantity : Z) (reason_id : string) : string :=
  "<?xml version=" ++ dq ++ "1.0" ++ dq ++ " encoding=" ++ dq ++ "UTF-8" ++ dq ++ "?>" ++ nl ++
  "<JBXML>" ++ nl ++
  "    <JBXMLRequest Session=" ++ dq ++ session_id_placeholder ++ dq ++ ">" ++ nl ++
  "        " ++ "<MaterialModRq>" ++ nl ++
  "            " ++ "<MaterialMod>" ++ nl ++
  "                " ++ "<ID>" ++ material_id ++ "</ID>" ++ nl ++
  "                " ++ "<LastUpdated>" ++ last_updated_placeholder ++ "</LastUpdated>" ++ nl ++
  "            </MaterialMod>" ++ nl ++
  "            <AdjustOnHandQty>" ++ nl ++
  "                <ReasonRef ID=" ++ dq ++ reason_id ++ dq ++ "/>" ++ nl ++
  "                " ++ "<Quantity>" ++ str_int quantity ++ "</Quantity>" ++ nl ++
  "            </AdjustOnHandQty>" ++ nl ++
  "        </MaterialModRq>" ++ nl ++
  "    </JBXMLRequest>" ++ nl ++
  "</JBXML>".

(** [c.isalnum()] for a character [c].  Within ASCII these are the
    digits and the letters; for a character outside ASCII the answer is
    that of the interpreter's Unicode tables, the parameter
    [unicode_isalnum]. *)
Definition isalnum (unicode_isalnum : string -> bool) (c : string) : bool :=
  match c with
  | String a "" =>
      let n := nat_of_ascii a in
      if (n <? 128)%nat
      then ((48 <=? n) && (n <=? 57) || (65 <=? n) && (n <=? 90)
            || (97 <=? n) && (n <=? 122))%nat
      else unicode_isalnum c
  | _ => unicode_isalnum c
  end.

(** ["".join(c if c.isalnum() or c in '-_' else '_' for c in material_id)] *)
Definition safe_id (unicode_isalnum : string -> bool) (material_id : string) : string :=
  String.concat ""
    (map (fun c => if isalnum unicode_isalnum c || contains c "-_" then c else "_")
         (chars material_id)).

Record manifest_entry : Type := {
  material_id : string;
  quantity_change : Z;
  occurrences : Z;
  query_file : string;
  update_file : string }.

Record manifest : Type := {
  generated_at : string;
  reason_id : string;
  total_materials : nat;
  total_pieces : Z;
  materials : list manifest_entry;
  input_ids : list string }.

(** [sum(abs(q) for q in quantity_changes.values())] *)
Definition sum_abs (quantity_changes : dict Z) : Z :=
  fold_left (fun acc kv => (acc + Z.abs (snd kv))%Z) quantity_changes 0%Z.

(** The manifest under construction and the files written so far, as
    (name in [output_dir], content), in the order of the writes. *)
Record package : Type := {
  pkg_manifest : manifest;
  pkg_written : list (string * string) }.

(** The body of the [for] loop of [generate_update_package]. *)
Definition add_material (unicode_isalnum : string -> bool) (reason : string)
    (p : package) (item : string * Z) : package :=
  let (mat_id, quantity) := item in
  let safe := safe_id unicode_isalnum mat_id in
  let query_xml := create_material_query_xml "{{SESSION_ID}}" mat_id in
  let query_name := "query_" ++ safe ++ ".xml" in
  let update_xml :=
    create_material_mod_xml "{{SESSION_ID}}" mat_id "{{LAST_UPDATED}}" quantity reason in
  let update_name := "update_" ++ safe ++ ".xml" in
  let m := pkg_manifest p in
  {| pkg_manifest :=
       {| generated_at := generated_at m;
          reason_id := reason_id m;
          total_materials := total_materials m;
          total_pieces := total_pieces m;
          materials := materials m ++
            [{| material_id := mat_id; quantity_change := quantity;
                occurrences := Z.abs quantity;
                query_file := query_name; update_file := update_name |}];
          input_ids := input_ids m |};
     pkg_written := pkg_written p ++ [(query_name, query_xml); (update_name, update_xml)] |}.

(** [generate_update_package]; [now] is [datetime.now().isoformat()] and
    [unicode_isalnum] the interpreter's [str.isalnum] outside ASCII.  The
    text of [manifest.json] is not rendered. *)
Definition generate_update_package (unicode_isalnum : string -> bool) (now : string)
    (material_ids : list string) (reason : string) : package :=
  let quantity_changes := count_materials material_ids in
  let m := {| generated_at := now;
              reason_id := reason;
              total_materials := List.length quantity_changes;
              total_pieces := sum_abs quantity_changes;
              materials := [];
              input_ids := material_ids |} in
  fold_left (add_material unicode_isalnum reason) (sorted quantity_changes)
    {| pkg_manifest := m; pkg_written := [] |}.

(** The output directory after the writes: a later write to a name
    replaces the earlier content. *)
Definition directory (written : list (string * string)) : dict string :=
  fold_left (fun d '(name, content) => dict_set d name content) written [].

(** [load_material_ids], on the lines of the input file. *)
Fixpoint load_material_ids (lines : list string) : list string :=
  match lines with
  | [] => []
  | line :: rest =>
      let line := strip line in
      if nonempty line && negb (startswith line "#")
      then line :: load_material_ids rest
      else load_material_ids rest
  end.

(** The command line of [main] after [parse_args]. *)
Record args : Type := {
  arg_input : string;
  arg_output_dir : string;
  arg_reason : string }.

(** [main]: the exit status (0 when [main] returns) and the package when
    one was generated.  [fs] gives the lines of the file at a path that
    exists, [now] is [datetime.now().isoformat()] at generation. *)
Definition main (unicode_isalnum : string -> bool)
    (fs : string -> option (list string)) (now : string) (a : args)
  : Z * option package :=
  match fs (arg_input a) with
  | None => (1%Z, None)
  | Some lines =>
      let material_ids := load_material_ids lines in
      match material_ids with
      | [] => (1%Z, None)
      | _ :: _ =>
          (0%Z, Some (generate_update_package unicode_isalnum now material_ids
                        (arg_reason a)))
      end
  end.

End XmlGenerator.

(** ** [jobboss_mock.py] *)

Module Mock.

Record material : Type := {
  mat_id : string;
  mat_description : string;
  mat_on_hand : num;
  mat_last_updated : string }.

(** The attributes of a [MockJobBOSS] instance. *)
Record MockJobBOSS : Type := {
  session_active : bool;
  session_id : option string;
  request_log : list string;
  materials : dict material }.

(** The mock and what it takes from its interpreter: the system clock,
    [clock n] being what the [n]-th call of [datetime.now()] returns, and
    [float] on the texts that are not decimal integers. *)
Record state : Type := {
  self : MockJobBOSS;
  clock : nat -> datetime;
  ticks : nat;
  builtin_float : string -> call_result pyfloat }.

(** The database of [__init__]. *)
Definition init : MockJobBOSS :=
  {| session_active := false;
     session_id := None;
     request_log := [];
     materials :=
       [("TEST-MAT-001",
         {| mat_id := "TEST-MAT-001"; mat_description := "Test Material 1";
            mat_on_hand := PyInt 100; mat_last_updated := "2025-06-15T10:30:00" |});
        ("TEST-MAT-002",
         {| mat_id := "TEST-MAT-002"; mat_description := "Test Material 2";
            mat_on_hand := PyInt 50; mat_last_updated := "2025-08-22T14:15:30" |});
        ("TEST-MAT-003",
         {| mat_id := "TEST-MAT-003"; mat_description := "Test Material 3";
            mat_on_hand := PyInt 25; mat_last_updated := "2025-12-01T09:00:00" |})] |}.

Definition CreateSession (st : state) (username password error_msg : string)
  : state * call_result string :=
  match truthy (Some username), truthy (Some password) with
  | Some _, Some _ =>
      let sid := "MOCK-SESSION-" ++ strftime_YmdHMS (clock st (ticks st)) in
      ({| self := {| session_active := true;
                     session_id := Some sid;
                     request_log := request_log (self st);
                     materials := materials (self st) |};
          clock := clock st; ticks := Datatypes.S (ticks st);
          builtin_float := builtin_float st |},
       Returned sid)
  | _, _ => (st, Returned "")
  end.

Definition CloseSession (st : state) (sid : string) : state * call_result unit :=
  ({| self := {| session_active := false;
                 session_id := None;
                 request_log := request_log (self st);
                 materials := materials (self st) |};
      clock := clock st; ticks := ticks st; builtin_float := builtin_float st |},
   Returned tt).

Definition _error_response (message : string) : string :=
  "<?xml version=" ++ dq ++ "1.0" ++ dq ++ " encoding=" ++ dq ++ "UTF-8" ++ dq ++ "?>" ++ nl ++
  "<JBXML>" ++ nl ++
  "    <JBXMLRespond>" ++ nl ++
  "        <StatusCode>1</StatusCode>" ++ nl ++
  "        " ++ "<StatusMessage>" ++ message ++ "</StatusMessage>" ++ nl ++
  "    </JBXMLRespond>" ++ nl ++
  "</JBXML>".

Definition query_response (mat : material) : string :=
  "<?xml version=" ++ dq ++ "1.0" ++ dq ++ " encoding=" ++ dq ++ "UTF-8" ++ dq ++ "?>" ++ nl ++
  "<JBXML>" ++ nl ++
  "    <JBXMLRespond>" ++ nl ++
  "        <MaterialQueryRs>" ++ nl ++
  "            " ++ "<StatusCode>0</StatusCode>" ++ nl ++
  "            <StatusMessage>Success</StatusMessage>" ++ nl ++
  "            <Material>" ++ nl ++
  "                <ID>" ++ mat_id mat ++ "</ID>" ++ nl ++
  "                <Description>" ++ mat_description mat ++ "</Description>" ++ nl ++
  "                <OnHand>" ++ str_num (mat_on_hand mat) ++ "</OnHand>" ++ nl ++
  "                " ++ "<LastUpdated>" ++ mat_last_updated mat ++ "</LastUpdated>" ++ nl ++
  "            </Material>" ++ nl ++
  "        </MaterialQueryRs>" ++ nl ++
  "    </JBXMLRespond>" ++ nl ++
  "</JBXML>".

Definition mod_response (material_id : string) (mat : material) : string :=
  "<?xml version=" ++ dq ++ "1.0" ++ dq ++ " encoding=" ++ dq ++ "UTF-8" ++ dq ++ "?>" ++ nl ++
  "<JBXML>" ++ nl ++
  "    <JBXMLRespond>" ++ nl ++
  "        <MaterialModRs>" ++ nl ++
  "            " ++ "<StatusCode>0</StatusCode>" ++ nl ++
  "            <StatusMessage>Success</StatusMessage>" ++ nl ++
  "            <MaterialRet>" ++ nl ++
  "                <ID>" ++ material_id ++ "</ID>" ++ nl ++
  "                <OnHand>" ++ str_num (mat_on_hand mat) ++ "</OnHand>" ++ nl ++
  "                <LastUpdated>" ++ mat_last_updated mat ++ "</LastUpdated>" ++ nl ++
  "            </MaterialRet>" ++ nl ++
  "        </MaterialModRs>" ++ nl ++
  "    </JBXMLRespond>" ++ nl ++
  "</JBXML>".

Definition _handle_material_query (st : state) (xml_request : string)
  : state * call_result string :=
  match re_search (m_tag "<ID>" "</ID>") xml_request with
  | None => (st, Returned (_error_response "No material ID in query"))
  | Some material_id =>
      match dict_get (materials (self st)) material_id with
      | Some mat => (st, Returned (query_response mat))
      | None => (st, Returned (_error_response ("Material not found: " ++ material_id)))
      end
  end.

Definition mismatch_message (expected submitted : string) : string :=
  "LastUpdated mismatch. Expected: " ++ expected ++ ", Got: " ++ submitted.

Definition _handle_material_mod (st : state) (xml_request : string)
  : state * call_result string :=
  match re_search (m_tag_in "<MaterialMod>" "<ID>" "</ID>") xml_request with
  | None => (st, Returned (_error_response "No material ID in update"))
  | Some material_id =>
      match re_search (m_tag "<LastUpdated>" "</LastUpdated>") xml_request with
      | None => (st, Returned (_error_response "No LastUpdated in update"))
      | Some submitted_last_updated =>
          match re_search (m_tag "<Quantity>" "</Quantity>") xml_request with
          | None => (st, Returned (_error_response "No Quantity in update"))
          | Some q =>
              match float (builtin_float st) q with
              | Raised e => (st, Raised e)
              | Returned quantity =>
                  match dict_get (materials (self st)) material_id with
                  | None =>
                      (st, Returned (_error_response ("Material not found: " ++ material_id)))
                  | Some mat =>
                      if negb (String.eqb submitted_last_updated (mat_last_updated mat))
                      then (st, Returned (_error_response
                              (mismatch_message (mat_last_updated mat) submitted_last_updated)))
                      else
                        match add (mat_on_hand mat) quantity with
                        | Raised e => (st, Raised e)
                        | Returned on_hand =>
                            let mat' :=
                              {| mat_id := mat_id mat;
                                 mat_description := mat_description mat;
                                 mat_on_hand := on_hand;
                                 mat_last_updated := isoformat (clock st (ticks st)) |} in
                            ({| self := {| session_active := session_active (self st);
                                           session_id := session_id (self st);
                                           request_log := request_log (self st);
                                           materials :=
                                             dict_set (materials (self st)) material_id mat' |};
                                clock := clock st; ticks := Datatypes.S (ticks st);
                                builtin_float := builtin_float st |},
                             Returned (mod_response material_id mat'))
                        end
                  end
              end
          end
      end
  end.

Definition log_request (st : state) (xml_request : string) : state :=
  {| self := {| session_active := session_active (self st);
                session_id := session_id (self st);
                request_log := request_log (self st) ++ [xml_request];
                materials := materials (self st) |};
     clock := clock st; ticks := ticks st; builtin_float := builtin_float st |}.

Definition ProcessRequest (st : state) (xml_request : string)
  : state * call_result string :=
  let st := log_request st xml_request in
  if contains "<MaterialQueryRq>" xml_request then _handle_material_query st xml_request
  else if contains "<MaterialModRq>" xml_request then _handle_material_mod st xml_request
  else (st, Returned (_error_response "Unknown request type")).

(** The mock as the object [_mock_dispatch] hands to [run_updates]. *)
Definition jbobj : Com.com_object state :=
  {| Com.CreateSession := CreateSession;
     Com.ProcessRequest := ProcessRequest;
     Com.CloseSession := CloseSession |}.

End Mock.

(** ** Notions the statements and proofs use

    Scanning follows [re_search] through a document written as literal
    pieces and variable fields. *)

Module Support.

(** [s] and [p] agree as far as the shorter one goes: a match of [p] may
    start at the head of [s ++ b] for some [b]. *)
Fixpoint may_start (p s : string) : bool :=
  match p, s with
  | "", _ => true
  | _, "" => true
  | String a p', String b s' => if Ascii.eqb a b then may_start p' s' else false
  end.

(** No match of [p] starts inside [a], whatever follows [a]. *)
Fixpoint no_start (p a : string) : bool :=
  match a with
  | "" => true
  | String _ a' => negb (may_start p a) && no_start p a'
  end.

(** [s] starts with a white space code point. *)
Definition starts_with_space (s : string) : bool :=
  match s with
  | "" => false
  | String a s1 =>
      is_space a
      || match s1 with
         | "" => false
         | String b s2 =>
             is_space2 a b
             || match s2 with
                | "" => false
                | String c _ => is_space3 a b c
                end
         end
  end.

(** U+00A0, the no-break space, and U+3000, the ideographic space. *)
Definition nbsp : string := String "194"%char (String "160"%char "").
Definition wide_space : string :=
  String "227"%char (String "128"%char (String "128"%char "")).

Fixpoint all_space (s : string) : bool :=
  match s with
  | "" => true
  | String c s' => is_space c && all_space s'
  end.

(** [needle] occurs in [s]. *)
Definition infix_of (needle s : string) : Prop :=
  exists pre post, s = pre ++ needle ++ post.

(** An anchored pattern that can only match where [p] is a prefix. *)
Definition anchored {A : Type} (p : string) (m : string -> option A) : Prop :=
  forall s, strip_prefix p s = None -> m s = None.

(** The count a [Counter] holds for [x], zero for a missing key. *)
Definition count_in (d : dict Z) (x : string) : Z :=
  match dict_get d x with Some n => n | None => 0%Z end.

(** Every count held is positive. *)
Definition positive_counts (d : dict Z) : Prop :=
  forall x n, dict_get d x = Some n -> (0 < n)%Z.

(** The sum of the values of a dictionary. *)
Definition total (d : dict Z) : Z := fold_right (fun kv acc => (snd kv + acc)%Z) 0%Z d.

(** How often [x] occurs in [l]. *)
Definition count_of (l : list string) (x : string) : nat :=
  count_occ string_dec l x.

(** The identifiers of the recorded outcomes, successes first. *)
Definition outcome_ids (r : UpdateInventory.results) : list string :=
  (map UpdateInventory.s_id (UpdateInventory.success r)
   ++ map UpdateInventory.f_id (UpdateInventory.failed r))%list.

Definition is_close (c : call) : bool :=
  match c with CallCloseSession _ => true | _ => false end.

Definition is_request (c : call) : bool :=
  match c with CallProcessRequest _ => true | _ => false end.

(** How many calls of a kind a run made. *)
Definition count_calls (kind : call -> bool) (cs : list call) : nat :=
  List.length (filter kind cs).

(** A document without any of the three status tags [parse_error] looks
    for. *)
Definition no_status_field (response : string) : bool :=
  negb (contains "<StatusCode>" response)
  && negb (contains "<StatusMessage>" response)
  && negb (contains "<ErrorMessage>" response).

(** The element [<name>text</name>]. *)
Definition field (name text : string) : string :=
  "<" ++ name ++ ">" ++ text ++ "</" ++ name ++ ">".

(** What [_handle_material_mod] finds in an update document: the text of
    the identifier and the text of the quantity. *)
Definition read_update (doc : string) : option (string * string) :=
  match re_search (m_tag_in "<MaterialMod>" "<ID>" "</ID>") doc,
        re_search (m_tag "<Quantity>" "</Quantity>") doc with
  | Some id, Some q => Some (id, q)
  | _, _ => None
  end.

(** An external system that answers every request with the same
    document; a clock for the mock; and for the examples, which hold ASCII
    identifiers and decimal integers only, tables that are not consulted:
    no alphanumeric character outside ASCII, and a [float] that refuses
    what is not a decimal integer. *)
Definition canned (response : string) : Com.com_object unit :=
  {| Com.CreateSession := fun s _ _ _ => (s, Returned "SESSION");
     Com.ProcessRequest := fun s _ => (s, Returned response);
     Com.CloseSession := fun s _ => (s, Returned tt) |}.

Definition noon (n : nat) : datetime :=
  {| year := 2026; month := 1; day := 2; hour := 12; minute := 0;
     second := n; microsecond := 0 |}.

Definition ascii_only (c : string) : bool := false.

Definition integers_only (s : string) : call_result pyfloat :=
  Raised ("could not convert string to float: '" ++ s ++ "'").

Definition fresh_mock (db : dict Mock.material) : Mock.state :=
  {| Mock.self := {| Mock.session_active := false; Mock.session_id := None;
                     Mock.request_log := []; Mock.materials := db |};
     Mock.clock := noon; Mock.ticks := 0; Mock.builtin_float := integers_only |}.

(** Another writer stamps the record of [id] with [token]. *)
Definition set_last_updated (id token : string) (m : Mock.state) : Mock.state :=
  match dict_get (Mock.materials (Mock.self m)) id with
  | None => m
  | Some mat =>
      {| Mock.self :=
           {| Mock.session_active := Mock.session_active (Mock.self m);
              Mock.session_id := Mock.session_id (Mock.self m);
              Mock.request_log := Mock.request_log (Mock.self m);
              Mock.materials :=
                dict_set (Mock.materials (Mock.self m)) id
                  {| Mock.mat_id := Mock.mat_id mat;
                     Mock.mat_description := Mock.mat_description mat;
                     Mock.mat_on_hand := Mock.mat_on_hand mat;
                     Mock.mat_last_updated := token |} |};
         Mock.clock := Mock.clock m; Mock.ticks := Mock.ticks m;
         Mock.builtin_float := Mock.builtin_float m |}
  end.

(** The mock beside a second writer: [touch] changes the store just
    before the request number [at_request] (from 0) reaches it. *)
Definition with_writer (at_request : nat) (touch : Mock.state -> Mock.state)
  : Com.com_object (Mock.state * nat) :=
  {| Com.CreateSession := fun s username password error_msg =>
       let (m, r) := Mock.CreateSession (fst s) username password error_msg in
       ((m, snd s), r);
     Com.ProcessRequest := fun s xml_request =>
       let m := if Nat.eqb (snd s) at_request then touch (fst s) else fst s in
       let (m', r) := Mock.ProcessRequest m xml_request in
       ((m', Datatypes.S (snd s)), r);
     Com.CloseSession := fun s sid =>
       let (m, r) := Mock.CloseSession (fst s) sid in
       ((m, snd s), r) |}.

(** A loop that starts on the external system [jb0] with nothing
    recorded yet. *)
Definition blank {S : Type} (jb0 : S) : @UpdateInventory.exec S :=
  {| UpdateInventory.jb := jb0;
     UpdateInventory.calls := [];
     UpdateInventory.res := UpdateInventory.no_results |}.

(** The calls and records of [more] put behind those of [st], on the
    external system as [more] left it. *)
Definition behind {S : Type} (st more : @UpdateInventory.exec S) : @UpdateInventory.exec S :=
  {| UpdateInventory.jb := UpdateInventory.jb more;
     UpdateInventory.calls := (UpdateInventory.calls st ++ UpdateInventory.calls more)%list;
     UpdateInventory.res :=
       {| UpdateInventory.success :=
            (UpdateInventory.success (UpdateInventory.res st)
             ++ UpdateInventory.success (UpdateInventory.res more))%list;
          UpdateInventory.failed :=
            (UpdateInventory.failed (UpdateInventory.res st)
             ++ UpdateInventory.failed (UpdateInventory.res more))%list;
          UpdateInventory.errors :=
            (UpdateInventory.errors (UpdateInventory.res st)
             ++ UpdateInventory.errors (UpdateInventory.res more))%list |} |}.

(** Two states of the mock that differ in the request log at most. *)
Definition same_store (a b : Mock.state) : Prop :=
  Mock.materials (Mock.self a) = Mock.materials (Mock.self b)
  /\ Mock.session_active (Mock.self a) = Mock.session_active (Mock.self b)
  /\ Mock.session_id (Mock.self a) = Mock.session_id (Mock.self b)
  /\ Mock.clock a = Mock.clock b
  /\ Mock.ticks a = Mock.ticks b
  /\ Mock.builtin_float a = Mock.builtin_float b.

(** A record whose text fields hold no ['<'] and whose token is not
    empty: the documents built from it are read back as they were meant. *)
Definition plain_record (mat : Mock.material) : bool :=
  nolt (Mock.mat_id mat) && nolt (Mock.mat_description mat)
  && nolt (Mock.mat_last_updated mat) && nonempty (Mock.mat_last_updated mat).

(** Every record of the database is plain. *)
Definition plain_store (db : dict Mock.material) : Prop :=
  forall k mat, In (k, mat) db -> plain_record mat = true.

(** The order of [sorted] on items with different identifiers. *)
Definition key_lt (a b : string * Z) : Prop :=
  String.compare (fst a) (fst b) = Lt.

(** The success record of an item. *)
Definition success_of (item : string * Z) : UpdateInventory.success_entry :=
  {| UpdateInventory.s_id := fst item; UpdateInventory.s_qty := snd item |}.

(** [sum(r['qty'] for r in results['success'])] of [main]. *)
Definition total_adjusted (r : UpdateInventory.results) : Z :=
  fold_left (fun acc e => (acc + UpdateInventory.s_qty e)%Z) (UpdateInventory.success r) 0%Z.

(** An ASCII letter or digit, ['-'] or ['_']. *)
Definition is_safe_char (c : ascii) : bool :=
  let n := nat_of_ascii c in
  ((48 <=? n) && (n <=? 57) || (65 <=? n) && (n <=? 90)
   || (97 <=? n) && (n <=? 122) || (n =? 45) || (n =? 95))%nat.

Fixpoint all_chars (p : ascii -> bool) (s : string) : bool :=
  match s with
  | "" => true
  | String c s' => p c && all_chars p s'
  end.

(** The two files the loop of [generate_update_package] writes for an
    item. *)
Definition files_of (unicode_isalnum : string -> bool) (reason : string)
    (item : string * Z) : list (string * string) :=
  [("query_" ++ XmlGenerator.safe_id unicode_isalnum (fst item) ++ ".xml",
    XmlGenerator.create_material_query_xml "{{SESSION_ID}}" (fst item));
   ("update_" ++ XmlGenerator.safe_id unicode_isalnum (fst item) ++ ".xml",
    XmlGenerator.create_material_mod_xml "{{SESSION_ID}}" (fst item) "{{LAST_UPDATED}}"
      (snd item) reason)].

(** Among the ASCII characters of [s] there are only letters, digits,
    ['-'] and ['_']. *)
Definition ascii_safe (s : string) : bool :=
  all_chars (fun c => (128 <=? nat_of_ascii c)%nat || is_safe_char c) s.

(** The float that is the integer [z], for [z] within [2^53] of zero. *)
Definition float_of_Z (z : Z) : pyfloat := Finite (z * float_one).

(** The number [n] is the integer [z], as an [int] or as a [float]. *)
Definition is_integer (n : num) (z : Z) : Prop :=
  n = PyInt z \/ n = PyFloat (float_of_Z z).

(** A number [+=] adds a float to without raising: a [float], or an [int]
    within the range of the floats. *)
Definition adds (n : num) : bool :=
  match n with
  | PyInt z => match float_of_int z with Returned _ => true | Raised _ => false end
  | PyFloat _ => true
  end.

(** The requests the loop makes for one item: the query, and after it at
    most one update, of the same identifier and quantity. *)
Definition item_requests (sid reason : string) (item : string * Z) (cs : list call)
  : Prop :=
  cs = [CallProcessRequest (UpdateInventory.create_query_xml sid (fst item))]
  \/ exists token,
       cs = [CallProcessRequest (UpdateInventory.create_query_xml sid (fst item));
             CallProcessRequest
               (UpdateInventory.create_update_xml sid (fst item) token (snd item) reason)].

(** The records a list of items leaves, given for each item its verdict:
    [None] for a success, the reason for a failure. *)
Definition successes_of (items : list (string * Z)) (verdicts : list (option string))
  : list UpdateInventory.success_entry :=
  flat_map (fun iv => match snd iv with
                      | None => [success_of (fst iv)]
                      | Some _ => []
                      end) (combine items verdicts).

Definition failures_of (items : list (string * Z)) (verdicts : list (option string))
  : list UpdateInventory.failed_entry :=
  flat_map (fun iv => match snd iv with
                      | None => []
                      | Some e => [{| UpdateInventory.f_id := fst (fst iv);
                                      UpdateInventory.f_qty := snd (fst iv);
                                      UpdateInventory.f_error := e |}]
                      end) (combine items verdicts).

End Support.
Import Support.


(** * Properties *)

Local Arguments Ascii.eqb : simpl nomatch.

(** ** Strings *)

Lemma append_assoc (a b c : string) : (a ++ b) ++ c = a ++ b ++ c.
Proof. induction a as [|x a IH]; simpl; [reflexivity | now rewrite IH]. Qed.

Lemma append_nil_r (a : string) : a ++ "" = a.
Proof. induction a as [|x a IH]; simpl; [reflexivity | now rewrite IH]. Qed.

Lemma strip_prefix_app (p s : string) : strip_prefix p (p ++ s) = Some s.
Proof.
  induction p as [|a p IH]; simpl; [reflexivity|].
  now rewrite Ascii.eqb_refl.
Qed.

Lemma strip_prefix_sound (p s r : string) : strip_prefix p s = Some r -> s = p ++ r.
Proof.
  revert s; induction p as [|a p IH]; simpl; intros s H.
  - now inversion H.
  - destruct s as [|b s]; [discriminate|].
    destruct (Ascii.eqb_spec a b) as [->|]; [|discriminate].
    now rewrite (IH _ H).
Qed.

Lemma may_start_false (p s b : string) :
  may_start p s = false -> strip_prefix p (s ++ b) = None.
Proof.
  revert s; induction p as [|a p IH]; intros [|c s]; simpl; try discriminate.
  destruct (Ascii.eqb a c); [apply IH | reflexivity].
Qed.

Lemma re_search_skip {A : Type} (p : string) (m : string -> option A) (a b : string) :
  anchored p m -> no_start p a = true -> re_search m (a ++ b) = re_search m b.
Proof.
  intros Hm; induction a as [|c a IH]; [reflexivity|].
  intros H. change (no_start p (String c a))
    with (negb (may_start p (String c a)) && no_start p a) in H.
  apply andb_true_iff in H as [H1 H2].
  apply negb_true_iff in H1.
  change (String c a ++ b) with (String c (a ++ b)).
  cbn [re_search].
  rewrite (Hm (String c (a ++ b)) (may_start_false p (String c a) b H1)).
  now apply IH.
Qed.

Lemma re_search_none {A : Type} (p : string) (m : string -> option A) (a : string) :
  anchored p m -> nonempty p = true -> no_start p a = true -> re_search m a = None.
Proof.
  intros Hm Hp Ha.
  rewrite <- (append_nil_r a), (re_search_skip p m a "" Hm Ha).
  simpl. rewrite Hm; [reflexivity|]. now destruct p.
Qed.

Lemma re_search_here {A : Type} (m : string -> option A) (s : string) (g : A) :
  m s = Some g -> re_search m s = Some g.
Proof. intros H. destruct s; simpl; now rewrite H. Qed.

Lemma nolt_app (a b : string) : nolt (a ++ b) = nolt a && nolt b.
Proof.
  induction a as [|c a IH]; simpl; [reflexivity|].
  now rewrite IH, andb_assoc.
Qed.

Lemma no_start_nolt (p a : string) :
  startswith p "<" = true -> nolt a = true -> no_start p a = true.
Proof.
  destruct p as [|x p]; [discriminate|].
  unfold startswith; simpl.
  destruct (Ascii.eqb_spec "<"%char x) as [<-|]; [intros _|discriminate].
  induction a as [|c a IH]; [reflexivity|].
  simpl. unfold is_lt. rewrite (Ascii.eqb_sym "<" c).
  destruct (Ascii.eqb c "<"); simpl; [discriminate|exact IH].
Qed.

Lemma span_not_lt_app (g rest : string) :
  nolt g = true -> startswith rest "<" = true \/ rest = "" ->
  span_not_lt (g ++ rest) = (g, rest).
Proof.
  intros Hg Hr. induction g as [|c g IH]; simpl.
  - destruct Hr as [Hr| ->]; [|reflexivity].
    destruct rest as [|x rest]; [discriminate|].
    unfold startswith in Hr; simpl in Hr. simpl. unfold is_lt.
    rewrite (Ascii.eqb_sym x "<"). revert Hr.
    destruct (Ascii.eqb "<" x); [reflexivity|discriminate].
  - simpl in Hg. apply andb_true_iff in Hg as [Hc Hg].
    apply negb_true_iff in Hc. rewrite Hc, (IH Hg). reflexivity.
Qed.

Lemma span_not_lt_nolt (s g rest : string) :
  span_not_lt s = (g, rest) -> nolt g = true.
Proof.
  revert g rest; induction s as [|c s IH]; simpl; intros g rest H.
  - now inversion H.
  - destruct (is_lt c) eqn:Hc; [now inversion H|].
    destruct (span_not_lt s) as [g' r'] eqn:E. inversion H; subst.
    simpl. rewrite Hc. simpl. exact (IH _ _ eq_refl).
Qed.

Lemma anchored_strip_prefix (p : string) : anchored p (strip_prefix p).
Proof. intros s H. exact H. Qed.

Lemma anchored_m_tag (open close : string) : anchored open (m_tag open close).
Proof. intros s H. unfold m_tag. now rewrite H. Qed.

Lemma anchored_m_tag_not0 (open close : string) :
  anchored open (m_tag_not0 open close).
Proof. intros s H. unfold m_tag_not0. now rewrite H. Qed.

Lemma anchored_m_tag_in (outer open close : string) :
  anchored outer (m_tag_in outer open close).
Proof. intros s H. unfold m_tag_in. now rewrite H. Qed.

Lemma contains_skip (needle a b : string) :
  no_start needle a = true -> contains needle (a ++ b) = contains needle b.
Proof.
  intros H. unfold contains.
  now rewrite (re_search_skip needle _ a b (anchored_strip_prefix needle) H).
Qed.

Lemma contains_here (needle b : string) : contains needle (needle ++ b) = true.
Proof.
  unfold contains.
  now rewrite (re_search_here _ _ b (strip_prefix_app needle b)).
Qed.

Lemma contains_none (needle a : string) :
  nonempty needle = true -> no_start needle a = true -> contains needle a = false.
Proof.
  intros Hn H. unfold contains.
  now rewrite (re_search_none needle _ a (anchored_strip_prefix needle) Hn H).
Qed.

Lemma search_tag_skip (open close a b : string) :
  no_start open a = true ->
  re_search (m_tag open close) (a ++ b) = re_search (m_tag open close) b.
Proof. apply re_search_skip, anchored_m_tag. Qed.

Lemma startswith_lt_app (a b : string) :
  startswith a "<" = true -> startswith (a ++ b) "<" = true.
Proof.
  destruct a as [|x a]; [discriminate|]. unfold startswith; simpl.
  now destruct (Ascii.eqb "<" x).
Qed.

Lemma m_tag_here (open close body post : string) :
  startswith close "<" = true -> nolt body = true -> nonempty body = true ->
  m_tag open close (open ++ body ++ close ++ post) = Some body.
Proof.
  intros Hc Hb Hn. unfold m_tag. rewrite strip_prefix_app.
  assert (Hs := startswith_lt_app close post Hc).
  rewrite (span_not_lt_app body (close ++ post) Hb (or_introl Hs)).
  now rewrite Hn, strip_prefix_app.
Qed.

Lemma search_tag_here (open close body post : string) :
  startswith close "<" = true -> nolt body = true -> nonempty body = true ->
  re_search (m_tag open close) (open ++ body ++ close ++ post) = Some body.
Proof. intros. now apply re_search_here, m_tag_here. Qed.

Lemma search_tag_none (open close a : string) :
  nonempty open = true -> no_start open a = true ->
  re_search (m_tag open close) a = None.
Proof. intros Hn H. exact (re_search_none open _ a (anchored_m_tag open close) Hn H). Qed.

Lemma lstrip_skip (w s : string) : all_space w = true -> lstrip (w ++ s) = lstrip s.
Proof.
  induction w as [|c w IH]; simpl; [reflexivity|].
  intros H. apply andb_true_iff in H as [-> H]. now apply IH.
Qed.

Lemma lstrip_lt (s : string) : startswith s "<" = true -> lstrip s = s.
Proof.
  destruct s as [|c s]; [reflexivity|]. unfold startswith; simpl strip_prefix.
  destruct (Ascii.eqb_spec "<"%char c) as [<-|]; [intros _|discriminate].
  destruct s as [|b [|d s]]; reflexivity.
Qed.

Lemma search_tag_in_skip (outer open close a b : string) :
  no_start outer a = true ->
  re_search (m_tag_in outer open close) (a ++ b)
  = re_search (m_tag_in outer open close) b.
Proof. apply re_search_skip, anchored_m_tag_in. Qed.

Lemma search_tag_in_here (outer open close w body post : string) :
  all_space w = true -> startswith open "<" = true -> startswith close "<" = true ->
  nolt body = true -> nonempty body = true ->
  re_search (m_tag_in outer open close) (outer ++ w ++ open ++ body ++ close ++ post)
  = Some body.
Proof.
  intros Hw Ho Hc Hb Hn. apply re_search_here. unfold m_tag_in.
  rewrite strip_prefix_app, (lstrip_skip w _ Hw), lstrip_lt.
  - now apply m_tag_here.
  - now apply startswith_lt_app.
Qed.

(** A group captured by [[^<]+] is not empty and holds no ['<']. *)
Lemma m_tag_group (open close s g : string) :
  m_tag open close s = Some g -> nolt g = true /\ nonempty g = true.
Proof.
  unfold m_tag. destruct (strip_prefix open s) as [body|]; [|discriminate].
  destruct (span_not_lt body) as [g' rest] eqn:E.
  destruct (nonempty g') eqn:Hn; [|discriminate].
  destruct (strip_prefix close rest); [|discriminate].
  intros H; inversion H; subst. split; [|exact Hn].
  exact (span_not_lt_nolt _ _ _ E).
Qed.

Lemma span_not_lt_sound (s g rest : string) : span_not_lt s = (g, rest) -> s = g ++ rest.
Proof.
  revert g rest; induction s as [|c s IH]; simpl; intros g rest H.
  - now inversion H.
  - destruct (is_lt c); [now inversion H|].
    destruct (span_not_lt s) as [g' r'] eqn:E. inversion H; subst.
    simpl. now rewrite (IH _ _ eq_refl).
Qed.

(** What [m_tag] returns is a match of the pattern; with [m_tag_here],
    which says that every match at this position is the one returned, the
    function is the pattern's match at the start of [s]. *)
Lemma m_tag_sound (open close s g : string) :
  m_tag open close s = Some g ->
  exists rest, s = open ++ g ++ close ++ rest /\ nolt g = true /\ nonempty g = true.
Proof.
  intros H. destruct (m_tag_group _ _ _ _ H) as [Hg Hn]. revert H. unfold m_tag.
  destruct (strip_prefix open s) as [body|] eqn:Eo; [|discriminate].
  destruct (span_not_lt body) as [g' r] eqn:Es.
  destruct (nonempty g'); [|discriminate].
  destruct (strip_prefix close r) as [rest|] eqn:Ec; [|discriminate].
  intros E; inversion E; subst. exists rest.
  rewrite (strip_prefix_sound _ _ _ Eo), (span_not_lt_sound _ _ _ Es),
    (strip_prefix_sound _ _ _ Ec). auto.
Qed.

Lemma re_search_some {A : Type} (m : string -> option A) (s : string) (g : A) :
  re_search m s = Some g -> exists pre t, s = pre ++ t /\ m t = Some g.
Proof.
  induction s as [|c s IH]; simpl.
  - destruct (m "") eqn:E; [|discriminate]. intros H; inversion H; subst.
    now exists "", "".
  - destruct (m (String c s)) eqn:E.
    + intros H; inversion H; subst. now exists "", (String c s).
    + intros H. destruct (IH H) as (pre & t & -> & Ht).
      now exists (String c pre), t.
Qed.

Lemma search_tag_group (open close s g : string) :
  re_search (m_tag open close) s = Some g -> nolt g = true /\ nonempty g = true.
Proof.
  intros H. destruct (re_search_some _ _ _ H) as (pre & t & _ & Ht).
  exact (m_tag_group _ _ _ _ Ht).
Qed.

Lemma truthy_nonempty (s : string) : nonempty s = true -> truthy (Some s) = Some s.
Proof. intros H. simpl. now rewrite H. Qed.

(** Decimal digits hold no ['<']. *)
Lemma nolt_string_of_uint (d : Decimal.uint) :
  nolt (NilEmpty.string_of_uint d) = true.
Proof. induction d; simpl; auto. Qed.

Lemma nolt_str_int (z : Z) : nolt (str_int z) = true.
Proof.
  unfold str_int. destruct (Z.to_int z) as [d|d]; simpl.
  - destruct d; try apply nolt_string_of_uint. reflexivity.
  - destruct d; try apply nolt_string_of_uint; reflexivity.
Qed.

Lemma nonempty_str_int (z : Z) : nonempty (str_int z) = true.
Proof.
  unfold str_int. destruct (Z.to_int z) as [d|d]; simpl; [|reflexivity].
  destruct d; reflexivity.
Qed.

Lemma nolt_zeros (n : nat) : nolt (zeros n) = true.
Proof. induction n; simpl; auto. Qed.

Lemma nolt_zfill (w n : nat) : nolt (zfill w n) = true.
Proof. unfold zfill. now rewrite nolt_app, nolt_zeros, nolt_str_int. Qed.

Lemma nolt_strftime (t : datetime) : nolt (strftime_YmdHMS t) = true.
Proof. unfold strftime_YmdHMS. now rewrite !nolt_app, !nolt_zfill. Qed.

Lemma nolt_take (n : nat) (s : string) : nolt s = true -> nolt (take n s) = true.
Proof.
  revert s; induction n as [|n IH]; intros [|c s]; simpl; auto.
  intros H. apply andb_true_iff in H as [-> H]. now apply IH.
Qed.

Lemma nolt_drop (n : nat) (s : string) : nolt s = true -> nolt (drop n s) = true.
Proof.
  revert s; induction n as [|n IH]; intros [|c s]; simpl; auto.
  intros H. apply andb_true_iff in H as [_ H]. now apply IH.
Qed.

Lemma nolt_repr_exponent (x : Z) : nolt (repr_exponent x) = true.
Proof.
  unfold repr_exponent. rewrite !nolt_app, nolt_str_int.
  now destruct (x <? 0)%Z, (Z.abs x <? 10)%Z.
Qed.

(** What [repr] prints of a float holds digits, a point, a sign, an
    exponent mark or the letters of [inf] and [nan]: no ['<']. *)
Lemma nolt_repr_finite (n : Z) : nolt (repr_finite n) = true.
Proof.
  unfold repr_finite. destruct (shortest n) as [c e].
  pose proof (nolt_str_int c) as Hd.
  destruct (_ || _); [|destruct (_ <=? 0)%Z; [|destruct (_ <=? _)%Z]].
  - destruct (_ <? _)%nat;
      now rewrite !nolt_app, ?nolt_repr_exponent, ?nolt_take, ?nolt_drop by exact Hd.
  - now rewrite !nolt_app, nolt_zeros, Hd.
  - now rewrite !nolt_app, nolt_zeros, Hd.
  - now rewrite !nolt_app, ?nolt_take, ?nolt_drop by exact Hd.
Qed.

Lemma nolt_repr_float (x : pyfloat) : nolt (repr_float x) = true.
Proof.
  destruct x as [n| |[|]|]; try reflexivity.
  unfold repr_float. destruct (n =? 0)%Z; [reflexivity|].
  rewrite nolt_app, nolt_repr_finite. now destruct (n <? 0)%Z.
Qed.

Lemma nolt_str_num (n : num) : nolt (str_num n) = true.
Proof. destruct n; [apply nolt_str_int | apply nolt_repr_float]. Qed.

(** [float] reads back what [str] printed. *)
Lemma int_of_str_str_int (z : Z) : int_of_str (str_int z) = Some z.
Proof.
  unfold int_of_str, str_int.
  destruct z as [|p|p]; simpl Z.to_int.
  - reflexivity.
  - rewrite NilZero.isi.
    + simpl. f_equal. exact (DecimalZ.of_to (Z.pos p)).
    + intros H; inversion H. now apply (DecimalPos.Unsigned.to_uint_nonnil p).
    + discriminate.
  - rewrite NilZero.isi.
    + simpl. f_equal. exact (DecimalZ.of_to (Z.neg p)).
    + discriminate.
    + intros H; inversion H. now apply (DecimalPos.Unsigned.to_uint_nonnil p).
Qed.

Lemma float_str_int (builtin : string -> call_result pyfloat) (z : Z) :
  float builtin (str_int z) = Returned (nearest (z * float_one) 1).
Proof.
  unfold float. rewrite int_of_str_str_int.
  destruct z as [|p|p]; reflexivity.
Qed.

(** ** Floats *)

Lemma div_nearest_even_exact (q m : Z) : (0 < m)%Z -> div_nearest_even (q * m) m = q.
Proof.
  intros Hm. unfold div_nearest_even.
  rewrite Z.div_mul, Z.mod_mul by lia.
  now destruct (Z.compare_spec (2 * 0) m); try lia.
Qed.

(** An integer within [2^53] of zero is a float. *)
Lemma nearest_exact (z : Z) :
  (Z.abs z <= 2 ^ 53)%Z -> nearest (z * float_one) 1 = Finite (z * float_one).
Proof.
  intros Hz. destruct (Z.eq_dec z 0) as [->|Hnz]; [vm_compute; reflexivity|].
  unfold nearest. rewrite Z.div_1_r.
  assert (Hone : (0 < float_one)%Z) by (unfold float_one; now apply Z.pow_pos_nonneg).
  assert (Habs : Z.abs (z * float_one) = (Z.abs z * 2 ^ 1074)%Z).
  { rewrite Z.abs_mul. reflexivity. }
  assert (Hlog : Z.log2 (Z.abs (z * float_one)) = (1074 + Z.log2 (Z.abs z))%Z).
  { rewrite Habs. apply Z.log2_mul_pow2; lia. }
  assert (Hj : (0 <= Z.log2 (Z.abs z) <= 53)%Z).
  { split; [apply Z.log2_nonneg|].
    rewrite <- (Z.log2_pow2 53) by lia. now apply Z.log2_le_mono. }
  rewrite Hlog.
  replace (Z.max 0 (1074 + Z.log2 (Z.abs z) - 52)) with (Z.log2 (Z.abs z) + 1022)%Z by lia.
  set (k := (Z.log2 (Z.abs z) + 1022)%Z).
  assert (Hk : (0 < 1 * 2 ^ k)%Z) by (rewrite Z.mul_1_l; apply Z.pow_pos_nonneg; lia).
  assert (Hdiv : exists q, (z * float_one = q * (1 * 2 ^ k))%Z).
  { destruct (Z.eq_dec (Z.log2 (Z.abs z)) 53) as [E|NE].
    - assert (Hz' : Z.abs z = (2 ^ 53)%Z).
      { pose proof (Z.log2_spec (Z.abs z) ltac:(lia)) as [Hlo _]. rewrite E in Hlo. lia. }
      unfold k. rewrite E.
      assert (Ez : z = (2 ^ 53)%Z \/ z = (- 2 ^ 53)%Z) by lia.
      destruct Ez as [Ez|Ez]; rewrite Ez.
      + exists (2 ^ 52)%Z. vm_compute. reflexivity.
      + exists (- 2 ^ 52)%Z. vm_compute. reflexivity.
    - exists (z * 2 ^ (52 - Z.log2 (Z.abs z)))%Z.
      rewrite Z.mul_1_l, <- Z.mul_assoc, <- Z.pow_add_r by lia.
      unfold float_one, k. do 2 f_equal. lia. }
  destruct Hdiv as [q Hq].
  assert (Hn : (div_nearest_even (z * float_one) (1 * 2 ^ k) * 2 ^ k
                = z * float_one)%Z).
  { rewrite Hq at 1. rewrite (div_nearest_even_exact q _ Hk), Hq. now rewrite Z.mul_1_l. }
  cbv zeta. rewrite Hn.
  assert (Hbound : (Z.abs (z * float_one) < 2 ^ 2098)%Z).
  { rewrite Habs. apply Z.le_lt_trans with (2 ^ 53 * 2 ^ 1074)%Z.
    - apply Z.mul_le_mono_nonneg_r; lia.
    - rewrite <- Z.pow_add_r by lia. apply Z.pow_lt_mono_r; lia. }
  destruct (Z.leb_spec (2 ^ 2098) (Z.abs (z * float_one))); [lia|].
  destruct (Z.eqb_spec (z * float_one) 0); [nia|reflexivity].
Qed.

Lemma float_of_int_exact (z : Z) :
  (Z.abs z <= 2 ^ 53)%Z -> float_of_int z = Returned (float_of_Z z).
Proof. intros H. unfold float_of_int. now rewrite nearest_exact. Qed.

(** Adding two floats that are integers is exact when the sum is within
    [2^53] of zero. *)
Lemma fadd_exact (a b : Z) :
  (Z.abs (a + b) <= 2 ^ 53)%Z ->
  fadd (float_of_Z a) (float_of_Z b) = float_of_Z (a + b).
Proof.
  intros H. unfold float_of_Z. cbn [fadd].
  rewrite <- Z.mul_add_distr_r. now apply nearest_exact.
Qed.


(** A number that [adds]: [+=] gives a float. *)
Lemma add_adds (n : num) (q : pyfloat) :
  adds n = true -> exists x, add n q = Returned (PyFloat x).
Proof.
  destruct n as [z|x]; cbn [adds add].
  - destruct (float_of_int z); [eauto|discriminate].
  - eauto.
Qed.

(** ** Following a search through a document *)

Create HintDb xml.
#[local] Hint Resolve nolt_str_int nolt_str_num nolt_strftime nolt_zfill : xml.

Ltac piece_ok :=
  first [ reflexivity
        | apply no_start_nolt; [reflexivity | solve [auto with xml] ] ].

(** Skip the pieces of the document in which the pattern cannot start. *)
Ltac skip_pieces :=
  repeat first
    [ rewrite search_tag_skip by piece_ok
    | rewrite search_tag_in_skip by piece_ok
    | rewrite contains_skip by piece_ok ].

(** ** The mock's documents *)

Section MockDocuments.

Import UpdateInventory.

Lemma parse_error_query_response (mat : Mock.material) :
  parse_error (Mock.query_response mat) = None.
Proof.
  unfold parse_error, Mock.query_response.
  skip_pieces. now rewrite contains_here.
Qed.

Lemma parse_error_mod_response (id : string) (mat : Mock.material) :
  parse_error (Mock.mod_response id mat) = None.
Proof.
  unfold parse_error, Mock.mod_response.
  skip_pieces. now rewrite contains_here.
Qed.

Lemma parse_last_updated_query_response (mat : Mock.material) :
  nolt (Mock.mat_id mat) = true -> nolt (Mock.mat_description mat) = true ->
  nolt (Mock.mat_last_updated mat) = true ->
  nonempty (Mock.mat_last_updated mat) = true ->
  parse_last_updated (Mock.query_response mat) = Some (Mock.mat_last_updated mat).
Proof.
  intros Hi Hd Ht Hn. unfold parse_last_updated, Mock.query_response.
  skip_pieces. now rewrite search_tag_here.
Qed.

Lemma parse_error_error_response (message : string) :
  nolt message = true -> nonempty message = true ->
  parse_error (Mock._error_response message) = Some message.
Proof.
  intros Hm Hn. unfold parse_error, Mock._error_response.
  skip_pieces. rewrite contains_none by reflexivity.
  unfold first_group. skip_pieces. now rewrite search_tag_here.
Qed.

End MockDocuments.

(** ** The mock's handlers on the documents [run_updates] sends *)

Section MockRequests.

Import UpdateInventory.

Variables (st : Mock.state) (sid id : string).
Hypothesis Hsid : nolt sid = true.
Hypothesis Hid : nolt id = true.
Hypothesis Hid' : nonempty id = true.

Lemma mock_query_known (mat : Mock.material) :
  dict_get (Mock.materials (Mock.self st)) id = Some mat ->
  Mock.ProcessRequest st (create_query_xml sid id)
  = (Mock.log_request st (create_query_xml sid id), Returned (Mock.query_response mat)).
Proof.
  intros Hk. unfold Mock.ProcessRequest.
  replace (contains "<MaterialQueryRq>" (create_query_xml sid id)) with true
    by (unfold create_query_xml; skip_pieces; now rewrite contains_here).
  unfold Mock._handle_material_query.
  replace (re_search (m_tag "<ID>" "</ID>") (create_query_xml sid id)) with (Some id)
    by (unfold create_query_xml; skip_pieces; now rewrite search_tag_here).
  cbn [Mock.log_request Mock.self Mock.materials]. now rewrite Hk.
Qed.

Lemma mock_query_unknown :
  dict_get (Mock.materials (Mock.self st)) id = None ->
  Mock.ProcessRequest st (create_query_xml sid id)
  = (Mock.log_request st (create_query_xml sid id),
     Returned (Mock._error_response ("Material not found: " ++ id))).
Proof.
  intros Hk. unfold Mock.ProcessRequest.
  replace (contains "<MaterialQueryRq>" (create_query_xml sid id)) with true
    by (unfold create_query_xml; skip_pieces; now rewrite contains_here).
  unfold Mock._handle_material_query.
  replace (re_search (m_tag "<ID>" "</ID>") (create_query_xml sid id)) with (Some id)
    by (unfold create_query_xml; skip_pieces; now rewrite search_tag_here).
  cbn [Mock.log_request Mock.self Mock.materials]. now rewrite Hk.
Qed.

Variables (token reason : string) (quantity : Z).
Hypothesis Htoken : nolt token = true.
Hypothesis Htoken' : nonempty token = true.
Hypothesis Hreason : nolt reason = true.

Lemma update_is_not_query :
  contains "<MaterialQueryRq>" (create_update_xml sid id token quantity reason) = false.
Proof.
  unfold create_update_xml. skip_pieces.
  now rewrite contains_none.
Qed.

Lemma update_is_mod :
  contains "<MaterialModRq>" (create_update_xml sid id token quantity reason) = true.
Proof.
  unfold create_update_xml. skip_pieces. now rewrite contains_here.
Qed.

Lemma update_id :
  re_search (m_tag_in "<MaterialMod>" "<ID>" "</ID>")
    (create_update_xml sid id token quantity reason) = Some id.
Proof.
  unfold create_update_xml. skip_pieces.
  rewrite <- (append_assoc nl "                ").
  now rewrite search_tag_in_here.
Qed.

Lemma update_last_updated :
  re_search (m_tag "<LastUpdated>" "</LastUpdated>")
    (create_update_xml sid id token quantity reason) = Some token.
Proof.
  unfold create_update_xml. skip_pieces. now rewrite search_tag_here.
Qed.

Lemma update_quantity :
  re_search (m_tag "<Quantity>" "</Quantity>")
    (create_update_xml sid id token quantity reason) = Some (str_int quantity).
Proof.
  unfold create_update_xml. skip_pieces.
  rewrite search_tag_here; auto using nolt_str_int, nonempty_str_int.
Qed.

(** A stale token: the update is refused and the database is as it was. *)
Lemma mock_update_mismatch (mat : Mock.material) :
  dict_get (Mock.materials (Mock.self st)) id = Some mat ->
  token <> Mock.mat_last_updated mat ->
  Mock.ProcessRequest st (create_update_xml sid id token quantity reason)
  = (Mock.log_request st (create_update_xml sid id token quantity reason),
     Returned (Mock._error_response
                 (Mock.mismatch_message (Mock.mat_last_updated mat) token))).
Proof.
  intros Hk Hne. unfold Mock.ProcessRequest.
  rewrite update_is_not_query, update_is_mod.
  unfold Mock._handle_material_mod.
  rewrite update_id, update_last_updated, update_quantity, float_str_int.
  cbn [Mock.log_request Mock.self Mock.materials]. rewrite Hk.
  apply String.eqb_neq in Hne. now rewrite Hne.
Qed.

(** The token of the query: the update is applied, unless an [int] on
    hand is too large for [+=]. *)
Lemma mock_update_applied (mat : Mock.material) (on_hand : num) :
  dict_get (Mock.materials (Mock.self st)) id = Some mat ->
  token = Mock.mat_last_updated mat ->
  add (Mock.mat_on_hand mat) (nearest (quantity * float_one) 1) = Returned on_hand ->
  exists st' mat',
    Mock.ProcessRequest st (create_update_xml sid id token quantity reason)
    = (st', Returned (Mock.mod_response id mat'))
    /\ Mock.materials (Mock.self st')
       = dict_set (Mock.materials (Mock.self st)) id mat'
    /\ mat' = {| Mock.mat_id := Mock.mat_id mat;
                 Mock.mat_description := Mock.mat_description mat;
                 Mock.mat_on_hand := on_hand;
                 Mock.mat_last_updated := isoformat (Mock.clock st (Mock.ticks st)) |}
    /\ Mock.clock st' = Mock.clock st
    /\ Mock.ticks st' = Datatypes.S (Mock.ticks st)
    /\ Mock.builtin_float st' = Mock.builtin_float st.
Proof.
  intros Hk He Hadd. unfold Mock.ProcessRequest.
  rewrite update_is_not_query, update_is_mod.
  unfold Mock._handle_material_mod.
  rewrite update_id, update_last_updated, update_quantity, float_str_int.
  cbn [Mock.log_request Mock.self Mock.materials]. rewrite Hk.
  rewrite He, String.eqb_refl. cbn [negb]. rewrite Hadd.
  eexists _, _. split; [reflexivity|]. cbn. auto.
Qed.

(** An [int] on hand that is too large: the update raises, and the
    database is as it was. *)
Lemma mock_update_overflow (mat : Mock.material) (e : string) :
  dict_get (Mock.materials (Mock.self st)) id = Some mat ->
  token = Mock.mat_last_updated mat ->
  add (Mock.mat_on_hand mat) (nearest (quantity * float_one) 1) = Raised e ->
  Mock.ProcessRequest st (create_update_xml sid id token quantity reason)
  = (Mock.log_request st (create_update_xml sid id token quantity reason), Raised e).
Proof.
  intros Hk He Hadd. unfold Mock.ProcessRequest.
  rewrite update_is_not_query, update_is_mod.
  unfold Mock._handle_material_mod.
  rewrite update_id, update_last_updated, update_quantity, float_str_int.
  cbn [Mock.log_request Mock.self Mock.materials]. rewrite Hk.
  rewrite He, String.eqb_refl. cbn [negb]. now rewrite Hadd.
Qed.

End MockRequests.

(** ** Dictionaries *)

Section Dict.

Context {V : Type}.
Implicit Types (d : dict V) (k : string) (v : V).

Lemma dict_get_set_same d k v : dict_get (dict_set d k v) k = Some v.
Proof.
  induction d as [|[k' v'] d IH]; simpl.
  - now rewrite String.eqb_refl.
  - destruct (String.eqb_spec k' k) as [->|Hne]; simpl.
    + now rewrite String.eqb_refl.
    + apply String.eqb_neq in Hne. now rewrite Hne.
Qed.

Lemma dict_get_set_other d k k' v :
  k <> k' -> dict_get (dict_set d k v) k' = dict_get d k'.
Proof.
  intros Hne. induction d as [|[k0 v0] d IH]; simpl.
  - apply String.eqb_neq in Hne. now rewrite Hne.
  - destruct (String.eqb_spec k0 k) as [->|H0]; simpl.
    + apply String.eqb_neq in Hne. now rewrite Hne.
    + now rewrite IH.
Qed.

Lemma dict_get_None d k : dict_get d k = None <-> ~ In k (keys d).
Proof.
  induction d as [|[k0 v0] d IH]; simpl; [tauto|].
  destruct (String.eqb_spec k0 k) as [->|H0].
  - split; [discriminate|]. intros H; exfalso; apply H; now left.
  - rewrite IH. split; [intros H [E|E]; auto | tauto].
Qed.

Lemma dict_set_fresh d k v : ~ In k (keys d) -> dict_set d k v = (d ++ [(k, v)])%list.
Proof.
  induction d as [|[k0 v0] d IH]; simpl; [reflexivity|].
  intros H. destruct (String.eqb_spec k0 k) as [->|H0]; [tauto|].
  rewrite IH; tauto.
Qed.

Lemma keys_dict_set_known d k v :
  In k (keys d) -> keys (dict_set d k v) = keys d.
Proof.
  induction d as [|[k0 v0] d IH]; simpl; [tauto|].
  intros H. destruct (String.eqb_spec k0 k) as [->|H0]; simpl; [reflexivity|].
  f_equal. apply IH. destruct H; [contradiction|assumption].
Qed.

Lemma NoDup_keys_dict_set d k v : NoDup (keys d) -> NoDup (keys (dict_set d k v)).
Proof.
  intros H. destruct (in_dec string_dec k (keys d)) as [Hin|Hout].
  - now rewrite keys_dict_set_known.
  - rewrite dict_set_fresh by assumption. unfold keys. rewrite map_app. simpl.
    apply NoDup_app; auto.
    + repeat constructor. simpl; tauto.
    + intros x Hx [<-|[]]. contradiction.
Qed.

End Dict.

(** ** Aggregation *)

Section Aggregation.

Import UpdateInventory.

Lemma count_in_tally (d : dict Z) (x y : string) :
  count_in (tally d y) x
  = (count_in d x + (if string_dec y x then 1 else 0))%Z.
Proof.
  unfold count_in, tally. destruct (string_dec y x) as [->|Hne].
  - rewrite dict_get_set_same. destruct (dict_get d x); lia.
  - rewrite dict_get_set_other by assumption. lia.
Qed.

Lemma positive_counts_tally (d : dict Z) (y : string) :
  positive_counts d -> positive_counts (tally d y).
Proof.
  intros H x n. unfold tally. destruct (string_dec y x) as [->|Hne].
  - rewrite dict_get_set_same. intros E; inversion E; subst.
    destruct (dict_get d x) as [m|] eqn:Em; [|lia].
    specialize (H x m Em). lia.
  - rewrite dict_get_set_other by assumption. apply H.
Qed.

Lemma total_app (d1 d2 : dict Z) : total (d1 ++ d2)%list = (total d1 + total d2)%Z.
Proof. unfold total. induction d1 as [|kv d1 IH]; simpl; [reflexivity|]. rewrite IH. lia. Qed.

Lemma total_dict_set (d : dict Z) (k : string) (v : Z) :
  total (dict_set d k v) = (total d - count_in d k + v)%Z.
Proof.
  unfold count_in. induction d as [|[k0 v0] d IH]; simpl.
  - unfold total; simpl. lia.
  - destruct (String.eqb_spec k0 k) as [->|Hne].
    + unfold total; simpl. lia.
    + unfold total in *; simpl. rewrite IH. lia.
Qed.

Lemma total_tally (d : dict Z) (y : string) : total (tally d y) = (total d + 1)%Z.
Proof.
  unfold tally. rewrite total_dict_set. unfold count_in.
  destruct (dict_get d y); lia.
Qed.

(** What [Counter] builds from any starting dictionary. *)
Lemma tally_fold (l : list string) (acc : dict Z) :
  NoDup (keys acc) -> positive_counts acc ->
  let d := fold_left tally l acc in
  NoDup (keys d) /\ positive_counts d
  /\ (forall x, count_in d x = (count_in acc x + Z.of_nat (count_of l x))%Z)
  /\ total d = (total acc + Z.of_nat (List.length l))%Z.
Proof.
  revert acc; induction l as [|y l IH]; intros acc Hnd Hpos; cbn zeta.
  - simpl. repeat split; auto; intros; lia.
  - cbn [fold_left].
    destruct (IH (tally acc y) (NoDup_keys_dict_set _ _ _ Hnd)
                 (positive_counts_tally _ _ Hpos)) as (H1 & H2 & H3 & H4).
    repeat split; auto.
    + intros x. rewrite H3, count_in_tally. unfold count_of. simpl.
      destruct (string_dec y x); lia.
    + rewrite H4, total_tally. cbn [List.length]. lia.
Qed.

Lemma Counter_spec (l : list string) :
  NoDup (keys (Counter l)) /\ positive_counts (Counter l)
  /\ (forall x, count_in (Counter l) x = Z.of_nat (count_of l x))
  /\ total (Counter l) = Z.of_nat (List.length l).
Proof.
  destruct (tally_fold l [] (NoDup_nil _)) as (H1 & H2 & H3 & H4).
  - intros x n H; discriminate.
  - repeat split; auto.
Qed.

Lemma dict_get_Counter (l : list string) (x : string) :
  dict_get (Counter l) x
  = match count_of l x with
    | O => None
    | S n => Some (Z.of_nat (S n))
    end.
Proof.
  destruct (Counter_spec l) as (_ & Hpos & Hc & _).
  specialize (Hc x). unfold count_in in Hc.
  destruct (dict_get (Counter l) x) as [n|] eqn:E.
  - specialize (Hpos x n E). destruct (count_of l x); [lia|]. now rewrite Hc.
  - destruct (count_of l x); [reflexivity|lia].
Qed.

(** The comprehension over a dictionary with distinct keys keeps the keys
    in place and negates each count. *)
Lemma negate_fold (d acc : dict Z) :
  NoDup (keys acc ++ keys d) ->
  fold_left (fun d' item => dict_set d' (fst item) (- snd item)%Z) d acc
  = (acc ++ map (fun item => (fst item, (- snd item)%Z)) d)%list.
Proof.
  revert acc; induction d as [|[k c] d IH]; intros acc H; simpl.
  - now rewrite app_nil_r.
  - assert (Hk : ~ In k (keys acc)).
    { intros Hin. apply NoDup_remove_2 in H. apply H, in_or_app. now left. }
    rewrite dict_set_fresh by assumption. rewrite IH.
    + now rewrite <- app_assoc.
    + unfold keys in *. rewrite map_app. simpl. rewrite <- app_assoc. simpl.
      apply NoDup_remove_1 in H as H'. apply NoDup_remove_2 in H.
      apply Permutation_NoDup with (l := (k :: map fst acc ++ map fst d)%list).
      * apply Permutation_middle.
      * constructor; assumption.
Qed.

Lemma count_materials_map (l : list string) :
  count_materials l = map (fun item => (fst item, (- snd item)%Z)) (Counter l).
Proof.
  unfold count_materials. destruct (Counter_spec l) as (Hnd & _).
  now rewrite negate_fold.
Qed.

Lemma keys_count_materials (l : list string) :
  keys (count_materials l) = keys (Counter l).
Proof.
  rewrite count_materials_map. unfold keys. rewrite map_map. reflexivity.
Qed.

Lemma NoDup_keys_count_materials (l : list string) : NoDup (keys (count_materials l)).
Proof. rewrite keys_count_materials. apply Counter_spec. Qed.

Lemma dict_get_map_negate (d : dict Z) (x : string) :
  dict_get (map (fun item => (fst item, (- snd item)%Z)) d) x
  = option_map Z.opp (dict_get d x).
Proof.
  induction d as [|[k c] d IH]; simpl; [reflexivity|].
  destruct (String.eqb k x); [reflexivity|exact IH].
Qed.

Lemma dict_get_count_materials (l : list string) (x : string) :
  dict_get (count_materials l) x
  = match count_of l x with
    | O => None
    | S n => Some (- Z.of_nat (S n))%Z
    end.
Proof.
  rewrite count_materials_map, dict_get_map_negate, dict_get_Counter.
  now destruct (count_of l x).
Qed.

Lemma dict_get_In {V : Type} (d : dict V) (k : string) (v : V) :
  NoDup (keys d) -> In (k, v) d -> dict_get d k = Some v.
Proof.
  induction d as [|[k0 v0] d IH]; simpl; [tauto|].
  intros Hnd [E|Hin].
  - inversion E; subst. now rewrite String.eqb_refl.
  - inversion Hnd as [|? ? Hout Hnd']; subst.
    destruct (String.eqb_spec k0 k) as [->|Hne]; [|now apply IH].
    exfalso. apply Hout. change k with (fst (k, v)). now apply in_map.
Qed.

Lemma sum_abs_negated (d : dict Z) (a : Z) :
  (forall k v, In (k, v) d -> (0 < v)%Z) ->
  fold_left (fun acc kv => (acc + Z.abs (snd kv))%Z)
    (map (fun item => (fst item, (- snd item)%Z)) d) a = (a + total d)%Z.
Proof.
  revert a; induction d as [|[k c] d IH]; intros a H; simpl.
  - unfold total; simpl. lia.
  - rewrite IH by (intros k' v' Hin; apply (H k' v'); now right).
    assert (0 < c)%Z by (apply (H k c); now left).
    unfold total; simpl. lia.
Qed.

Lemma sum_abs_count_materials (l : list string) :
  XmlGenerator.sum_abs (count_materials l) = Z.of_nat (List.length l).
Proof.
  unfold XmlGenerator.sum_abs. rewrite count_materials_map.
  destruct (Counter_spec l) as (Hnd & Hpos & _ & Ht).
  rewrite sum_abs_negated.
  - rewrite Ht. lia.
  - intros k v Hin. apply (Hpos k v). now apply dict_get_In.
Qed.

End Aggregation.

(** ** Sorting *)

Lemma insert_item_perm (x : string * Z) (l : list (string * Z)) :
  Permutation (insert_item x l) (x :: l).
Proof.
  induction l as [|y l IH]; simpl; [reflexivity|].
  destruct (item_lt x y); [reflexivity|].
  rewrite IH. apply perm_swap.
Qed.

Lemma sorted_fold_perm (l acc : list (string * Z)) :
  Permutation (fold_left (fun acc x => insert_item x acc) l acc) (l ++ acc).
Proof.
  revert acc; induction l as [|x l IH]; intros acc; simpl; [reflexivity|].
  rewrite IH, insert_item_perm. symmetry. apply Permutation_middle.
Qed.

Lemma sorted_perm (l : list (string * Z)) : Permutation (sorted l) l.
Proof. unfold sorted. rewrite sorted_fold_perm. now rewrite app_nil_r. Qed.

(** ** The executor against any external system *)

Local Arguments UpdateInventory.create_query_xml : simpl never.
Local Arguments UpdateInventory.create_update_xml : simpl never.

Section ExecutorFacts.

Import UpdateInventory.

Context {S : Type} (jbobj : Com.com_object S).
Variables (sid reason : string).


(** An item leaves exactly one record: a success or a failure. *)
Lemma process_item_records (st : exec) (id : string) (q : Z) :
  let st' := process_item jbobj sid reason st (id, q) in
  errors (res st') = errors (res st)
  /\ ((success (res st') = (success (res st) ++ [{| s_id := id; s_qty := q |}])%list
       /\ failed (res st') = failed (res st))
      \/ (exists e,
           failed (res st')
           = (failed (res st) ++ [{| f_id := id; f_qty := q; f_error := e |}])%list
           /\ success (res st') = success (res st))).
Proof.
  cbn zeta. unfold process_item, request.
  destruct (Com.ProcessRequest jbobj (jb st) _) as [jb1 [r1|e1]]; cbn.
  2: { split; [reflexivity|]. right. now exists e1. }
  destruct (truthy (parse_error r1)) as [e|]; cbn.
  { split; [reflexivity|]. right. now exists e. }
  destruct (truthy (parse_last_updated r1)) as [t|]; cbn.
  2: { split; [reflexivity|]. right. now exists "Not found". }
  destruct (Com.ProcessRequest jbobj jb1 _) as [jb2 [r2|e2]]; cbn.
  2: { split; [reflexivity|]. right. now exists e2. }
  destruct (truthy (parse_error r2)) as [e|]; cbn.
  { split; [reflexivity|]. right. now exists e. }
  split; [reflexivity|]. now left.
Qed.

Lemma process_item_ids (st : exec) (id : string) (q : Z) :
  Permutation (outcome_ids (res (process_item jbobj sid reason st (id, q))))
              (id :: outcome_ids (res st)).
Proof.
  destruct (process_item_records st id q) as (_ & [[Hs Hf]|(e & Hf & Hs)]);
    unfold outcome_ids; rewrite Hs, Hf, map_app; simpl.
  - rewrite <- app_assoc. simpl. symmetry. apply Permutation_middle.
  - rewrite app_assoc. symmetry. apply Permutation_cons_append.
Qed.

Lemma process_items_ids (items : list (string * Z)) (st : exec) :
  Permutation (outcome_ids (res (process_items jbobj sid reason st items)))
              (map fst items ++ outcome_ids (res st)).
Proof.
  unfold process_items.
  revert st; induction items as [|[id q] items IH]; intros st;
    cbn [fold_left map fst app].
  - reflexivity.
  - rewrite IH, process_item_ids. symmetry. apply Permutation_middle.
Qed.

Lemma process_items_errors (items : list (string * Z)) (st : exec) :
  errors (res (process_items jbobj sid reason st items)) = errors (res st).
Proof.
  unfold process_items.
  revert st; induction items as [|[id q] items IH]; intros st;
    cbn [fold_left]; [reflexivity|].
  rewrite IH. apply (process_item_records st id q).
Qed.

(** An item makes one or two requests and no other call. *)
Lemma process_item_calls (st : exec) (item : string * Z) :
  exists new,
    calls (process_item jbobj sid reason st item) = (calls st ++ new)%list
    /\ forallb is_request new = true
    /\ (1 <= List.length new <= 2)%nat.
Proof.
  destruct item as [id q]. unfold process_item, request.
  destruct (Com.ProcessRequest jbobj (jb st) _) as [jb1 [r1|e1]]; cbn.
  2: { eexists [_]; cbn; repeat split; lia. }
  destruct (truthy (parse_error r1)) as [e|]; cbn.
  { eexists [_]; cbn; repeat split; lia. }
  destruct (truthy (parse_last_updated r1)) as [t|]; cbn.
  2: { eexists [_]; cbn; repeat split; lia. }
  destruct (Com.ProcessRequest jbobj jb1 _) as [jb2 [r2|e2]]; cbn.
  2: { eexists [_; _]; cbn; rewrite <- app_assoc; repeat split; lia. }
  destruct (truthy (parse_error r2)) as [e|]; cbn.
  { eexists [_; _]; cbn; rewrite <- app_assoc; repeat split; lia. }
  eexists [_; _]; cbn; rewrite <- app_assoc; repeat split; lia.
Qed.

Lemma process_items_calls (items : list (string * Z)) (st : exec) :
  exists new,
    calls (process_items jbobj sid reason st items) = (calls st ++ new)%list
    /\ forallb is_request new = true.
Proof.
  unfold process_items.
  revert st; induction items as [|item items IH]; intros st; cbn [fold_left].
  - exists []. now rewrite app_nil_r.
  - destruct (process_item_calls st item) as (n1 & E1 & F1 & _).
    destruct (IH (process_item jbobj sid reason st item)) as (n2 & E2 & F2).
    exists (n1 ++ n2)%list. rewrite E2, E1, <- app_assoc. split; [reflexivity|].
    rewrite forallb_app, F1, F2. reflexivity.
Qed.

Lemma count_close_requests (cs : list call) :
  forallb is_request cs = true -> count_calls is_close cs = 0%nat.
Proof.
  unfold count_calls. induction cs as [|c cs IH]; simpl; [reflexivity|].
  intros H. apply andb_true_iff in H as [Hc H].
  destruct c; try discriminate. simpl. now apply IH.
Qed.

End ExecutorFacts.

(** * The claims *)

(** ** Aggregation (C1) *)

(** C1.  For every token list, [count_materials] (the same function in
    both workflow variants) maps each identifier that occurs to the
    negative of its number of occurrences and holds no other key, each key
    once; the absolute values of the deltas sum to the length of the list;
    a reordering of the list gives the same delta for every identifier; and
    [A, A, A, B, B, C] yields [{A: -3, B: -2, C: -1}]. *)
Theorem count_materials_negative_counts (material_ids : list string) (x : string) :
  dict_get (UpdateInventory.count_materials material_ids) x
  = match count_of material_ids x with
    | O => None
    | S n => Some (- Z.of_nat (S n))%Z
    end
  /\ XmlGenerator.count_materials material_ids
     = UpdateInventory.count_materials material_ids
  /\ NoDup (keys (UpdateInventory.count_materials material_ids))
  /\ XmlGenerator.sum_abs (UpdateInventory.count_materials material_ids)
     = Z.of_nat (List.length material_ids)
  /\ (forall reordered, Permutation material_ids reordered ->
        dict_get (UpdateInventory.count_materials reordered) x
        = dict_get (UpdateInventory.count_materials material_ids) x)
  /\ UpdateInventory.count_materials ["A"; "A"; "A"; "B"; "B"; "C"]
     = [("A", -3); ("B", -2); ("C", -1)]%Z.
Proof.
  repeat split.
  - apply dict_get_count_materials.
  - apply NoDup_keys_count_materials.
  - apply sum_abs_count_materials.
  - intros reordered Hp. rewrite !dict_get_count_materials.
    unfold count_of. now rewrite (Permutation_count_occ string_dec) in Hp; rewrite Hp.
Qed.

Lemma count_materials_negative_counts_witness :
  dict_get (UpdateInventory.count_materials ["B"; "A"; "A"]) "A"
  = dict_get (UpdateInventory.count_materials ["A"; "B"; "A"]) "A".
Proof.
  apply (count_materials_negative_counts ["A"; "B"; "A"] "A").
  apply perm_swap.
Defined.

(** ** The response parser (C5, C7) *)

Lemma contains_cons_false (p : string) (c : ascii) (s : string) :
  contains p (String c s) = false ->
  strip_prefix p (String c s) = None /\ contains p s = false.
Proof.
  unfold contains. cbn [re_search].
  destruct (strip_prefix p (String c s)); [discriminate|]. now split.
Qed.

(** A pattern anchored at [p] finds nothing in a document without [p]. *)
Lemma re_search_absent {A : Type} (p : string) (m : string -> option A) (s : string) :
  anchored p m -> contains p s = false -> re_search m s = None.
Proof.
  intros Hm. induction s as [|c s IH]; intros H.
  - unfold contains in H. simpl in H. simpl.
    destruct (strip_prefix p "") eqn:E; [discriminate|]. now rewrite (Hm _ E).
  - apply contains_cons_false in H as [H1 H2].
    cbn [re_search]. rewrite (Hm _ H1). now apply IH.
Qed.

Lemma parse_error_no_status_field (response : string) :
  no_status_field response = true -> UpdateInventory.parse_error response = None.
Proof.
  unfold no_status_field. intros H.
  apply andb_true_iff in H as [H H3]. apply andb_true_iff in H as [H1 H2].
  apply negb_true_iff in H1, H2, H3.
  unfold UpdateInventory.parse_error, UpdateInventory.first_group.
  rewrite (re_search_absent _ _ _ (anchored_m_tag _ _) H2).
  rewrite (re_search_absent _ _ _ (anchored_m_tag _ _) H3).
  rewrite (re_search_absent _ _ _ (anchored_m_tag_not0 _ _) H1).
  now destruct (contains "<StatusCode>0</StatusCode>" response).
Qed.


(** C5, as the code has it.  A response without a [StatusCode],
    [StatusMessage] or [ErrorMessage] tag makes [parse_error] report no
    error, as a response with status 0 does.  The executor then goes on as
    after a successful answer: such an answer to the query, carrying no
    [LastUpdated] either, records the failure ["Not found"]; such an answer
    to the update records a success. *)
Theorem unrecognized_response_reports_no_error
    {S : Type} (jbobj : Com.com_object S) (sid reason : string)
    (st : UpdateInventory.exec) (id : string) (q : Z) (response : string)
    (Hnone : no_status_field response = true) :
  UpdateInventory.parse_error response = None
  /\ (forall jb1,
        Com.ProcessRequest jbobj (UpdateInventory.jb st)
          (UpdateInventory.create_query_xml sid id) = (jb1, Returned response) ->
        UpdateInventory.parse_last_updated response = None ->
        UpdateInventory.res (UpdateInventory.process_item jbobj sid reason st (id, q))
        = UpdateInventory.add_failed (UpdateInventory.res st) id q "Not found")
  /\ (forall jb1 jb2 answer token,
        Com.ProcessRequest jbobj (UpdateInventory.jb st)
          (UpdateInventory.create_query_xml sid id) = (jb1, Returned answer) ->
        UpdateInventory.parse_error answer = None ->
        UpdateInventory.parse_last_updated answer = Some token ->
        Com.ProcessRequest jbobj jb1
          (UpdateInventory.create_update_xml sid id token q reason)
        = (jb2, Returned response) ->
        UpdateInventory.res (UpdateInventory.process_item jbobj sid reason st (id, q))
        = UpdateInventory.add_success (UpdateInventory.res st) id q).
Proof.
  pose proof (parse_error_no_status_field response Hnone) as Hpe.
  split; [exact Hpe|]. split.
  - intros jb1 Hq Hlu. unfold UpdateInventory.process_item, UpdateInventory.request.
    rewrite Hq. cbn. rewrite Hpe, Hlu. reflexivity.
  - intros jb1 jb2 answer token Hq Hpa Hlu Hu.
    unfold UpdateInventory.process_item, UpdateInventory.request.
    rewrite Hq. cbn. rewrite Hpa, Hlu. cbn.
    destruct (search_tag_group _ _ _ _ Hlu) as [_ Hn]. rewrite Hn.
    cbn. rewrite Hu. cbn. rewrite Hpe. reflexivity.
Qed.

Lemma unrecognized_response_reports_no_error_witness :
  UpdateInventory.parse_error "<LastUpdated>2025-01-01T00:00:00</LastUpdated>" = None.
Proof.
  apply (unrecognized_response_reports_no_error
           (canned "<LastUpdated>2025-01-01T00:00:00</LastUpdated>") "SESSION" "ADJUST"
           {| UpdateInventory.jb := tt; UpdateInventory.calls := [];
              UpdateInventory.res := UpdateInventory.no_results |}
           "MAT-001" (-1)).
  reflexivity.
Defined.

(** C5 as stated fails: a document with no status field at all is not
    reported as an error, and as the answer to an update it records a
    success. *)
Lemma unrecognized_response_counted_as_success :
  no_status_field "<LastUpdated>2025-01-01T00:00:00</LastUpdated>" = true
  /\ UpdateInventory.parse_error "<LastUpdated>2025-01-01T00:00:00</LastUpdated>" = None
  /\ UpdateInventory.res
       (UpdateInventory.process_item
          (canned "<LastUpdated>2025-01-01T00:00:00</LastUpdated>") "SESSION" "ADJUST"
          {| UpdateInventory.jb := tt; UpdateInventory.calls := [];
             UpdateInventory.res := UpdateInventory.no_results |}
          ("MAT-001", (-1)%Z))
     = {| UpdateInventory.success :=
            [{| UpdateInventory.s_id := "MAT-001"; UpdateInventory.s_qty := -1 |}];
          UpdateInventory.failed := [];
          UpdateInventory.errors := [] |}.
Proof. repeat split; vm_compute; reflexivity. Qed.

(** A tag cannot start in [s] and end in a continuation that starts with
    ['<']: the tag holds no ['<'] after its first character. *)
Lemma strip_prefix_no_straddle (t s rest : string) :
  nolt t = true -> startswith rest "<" = true ->
  strip_prefix t s = None -> strip_prefix t (s ++ rest) = None.
Proof.
  intros Ht Hr. revert s; induction t as [|a t IH]; intros s; simpl.
  - discriminate.
  - simpl in Ht. apply andb_true_iff in Ht as [Ha Ht]. apply negb_true_iff in Ha.
    destruct s as [|b s]; simpl.
    + intros _. destruct rest as [|x rest]; [reflexivity|].
      unfold startswith in Hr; simpl in Hr.
      destruct (Ascii.eqb_spec "<"%char x) as [<-|]; [|discriminate].
      unfold is_lt in Ha. now rewrite Ha.
    + destruct (Ascii.eqb a b); [now apply IH|reflexivity].
Qed.

(** A search goes past a prefix that does not contain the opening tag. *)
Lemma re_search_before {A : Type} (t : string) (m : string -> option A)
    (pre rest : string) :
  anchored (String "<" t) m -> nolt t = true -> startswith rest "<" = true ->
  contains (String "<" t) pre = false ->
  re_search m (pre ++ rest) = re_search m rest.
Proof.
  intros Hm Ht Hr. induction pre as [|c pre IH]; intros H; [reflexivity|].
  apply contains_cons_false in H as [H1 H2].
  change (String c pre ++ rest) with (String c (pre ++ rest)).
  cbn [re_search]. rewrite Hm; [now apply IH|].
  simpl in *. destruct (Ascii.eqb "<" c); [|reflexivity].
  now apply strip_prefix_no_straddle.
Qed.

Lemma m_tag_not0_here (open close code post : string) (c : ascii) :
  startswith close "<" = true -> nolt code = true -> Ascii.eqb c "0" = false ->
  m_tag_not0 open close (open ++ String c code ++ close ++ post) = Some (String c code).
Proof.
  intros Hc Hco H0. unfold m_tag_not0.
  change (String c code ++ close ++ post) with (String c (code ++ close ++ post)).
  rewrite strip_prefix_app. cbv beta iota. rewrite H0.
  rewrite (span_not_lt_app code (close ++ post) Hco
             (or_introl (startswith_lt_app close post Hc))).
  now rewrite strip_prefix_app.
Qed.

(** C7, as the code has it.  When the first [StatusCode] element of a
    response holds a code that is not empty and does not start with ['0'],
    and the response holds no zero status element and no [StatusMessage]
    or [ErrorMessage] tag, [parse_error] reports ["Status code: "] followed
    by the raw code; a response that contains [<StatusCode>0</StatusCode>]
    reports no error. *)
Theorem parse_error_falls_back_to_status_code
    (pre code post : string)
    (Hfirst : contains "<StatusCode>" pre = false)
    (Hcode : nolt code = true)
    (Hnonempty : nonempty code = true)
    (Hnot0 : startswith code "0" = false)
    (Hnozero : contains "<StatusCode>0</StatusCode>"
                 (pre ++ field "StatusCode" code ++ post) = false)
    (Hnomsg : contains "<StatusMessage>" (pre ++ field "StatusCode" code ++ post) = false)
    (Hnoerr : contains "<ErrorMessage>" (pre ++ field "StatusCode" code ++ post) = false) :
  UpdateInventory.parse_error (pre ++ field "StatusCode" code ++ post)
  = Some ("Status code: " ++ code)
  /\ (forall response,
        contains "<StatusCode>0</StatusCode>" response = true ->
        UpdateInventory.parse_error response = None).
Proof.
  split.
  - unfold UpdateInventory.parse_error, UpdateInventory.first_group.
    rewrite Hnozero.
    rewrite (re_search_absent _ _ _ (anchored_m_tag _ _) Hnomsg).
    rewrite (re_search_absent _ _ _ (anchored_m_tag _ _) Hnoerr).
    destruct code as [|c code]; [discriminate|].
    assert (Hc : Ascii.eqb c "0" = false).
    { unfold startswith in Hnot0. simpl in Hnot0.
      rewrite Ascii.eqb_sym. now destruct (Ascii.eqb "0" c). }
    assert (Hcode' : nolt code = true).
    { simpl in Hcode. now apply andb_true_iff in Hcode as [_ Hcode]. }
    replace (field "StatusCode" (String c code) ++ post)
      with ("<StatusCode>" ++ String c code ++ "</StatusCode>" ++ post)
      by (unfold field; cbn; f_equal; now rewrite !append_assoc).
    rewrite (re_search_before "StatusCode>" _ pre
               ("<StatusCode>" ++ String c code ++ "</StatusCode>" ++ post)
               (anchored_m_tag_not0 "<StatusCode>" "</StatusCode>")
               eq_refl eq_refl Hfirst).
    rewrite (re_search_here _ _ _
               (m_tag_not0_here "<StatusCode>" "</StatusCode>" code post c
                  eq_refl Hcode' Hc)).
    reflexivity.
  - intros response H. unfold UpdateInventory.parse_error. now rewrite H.
Qed.

Lemma parse_error_falls_back_to_status_code_witness :
  UpdateInventory.parse_error ("<JBXML>" ++ field "StatusCode" "17" ++ "</JBXML>")
  = Some "Status code: 17".
Proof.
  apply (parse_error_falls_back_to_status_code "<JBXML>" "17" "</JBXML>");
    reflexivity.
Defined.

(** C7 as stated fails: the message is not the raw status code itself. *)
Lemma parse_error_status_code_is_prefixed :
  UpdateInventory.parse_error "<StatusCode>1</StatusCode>" = Some "Status code: 1"
  /\ UpdateInventory.parse_error "<StatusCode>1</StatusCode>" <> Some "1".
Proof. split; [reflexivity|discriminate]. Qed.

(** ** Dry run and exit status (C9, C4) *)

(** C9.  With an input that holds at least one identifier, a dry run
    makes no call on the external channel (no [Dispatch], no session, no
    request) and returns no success, no failure and no error. *)
Theorem dry_run_makes_no_call
    {S : Type} (jbobj : Com.com_object S) (lines : list string)
    (dispatch : call_result S) (username password reason : string)
    (Hinput : UpdateInventory.load_material_ids lines <> []) :
  UpdateInventory.run_updates jbobj lines dispatch username password reason true
  = {| UpdateInventory.out_results :=
         {| UpdateInventory.success := [];
            UpdateInventory.failed := [];
            UpdateInventory.errors := [] |};
       UpdateInventory.out_calls := [];
       UpdateInventory.out_jb := None |}.
Proof.
  unfold UpdateInventory.run_updates.
  destruct (UpdateInventory.load_material_ids lines); [contradiction|reflexivity].
Qed.

Lemma dry_run_makes_no_call_witness :
  UpdateInventory.out_calls
    (UpdateInventory.run_updates Mock.jbobj
       ["TEST-MAT-001" ++ nl; "TEST-MAT-001" ++ nl; "TEST-MAT-002" ++ nl]
       (Returned (fresh_mock (Mock.materials Mock.init))) "user" "secret" "ADJUST" true)
  = [].
Proof.
  rewrite (dry_run_makes_no_call Mock.jbobj
             ["TEST-MAT-001" ++ nl; "TEST-MAT-001" ++ nl; "TEST-MAT-002" ++ nl]).
  - reflexivity.
  - vm_compute. discriminate.
Defined.

(** C4 at an input file that holds no identifier: [run_updates] prints
    its error and returns no failure and no error, and [main] exits with
    status 0. *)
Theorem empty_input_exits_zero :
  UpdateInventory.main Mock.jbobj
    (fun path => if String.eqb path "ids.txt"
                 then Some ["# nothing used today" ++ nl; nl]
                 else None)
    (Returned (fresh_mock (Mock.materials Mock.init)))
    {| UpdateInventory.arg_input := "ids.txt";
       UpdateInventory.arg_user := Some "user";
       UpdateInventory.arg_password := Some "secret";
       UpdateInventory.arg_reason := UpdateInventory.DEFAULT_REASON;
       UpdateInventory.arg_dry_run := false |}
  = (0%Z, Some {| UpdateInventory.out_results := UpdateInventory.no_results;
                  UpdateInventory.out_calls := [];
                  UpdateInventory.out_jb := None |}).
Proof. vm_compute. reflexivity. Qed.

(** Apart from an input without identifiers, [main] reports through its
    exit status what [run_updates] recorded, and a session that cannot be
    opened is recorded as an error. *)
Lemma main_exit_status {S : Type} (jbobj : Com.com_object S)
    (fs : string -> option (list string)) (dispatch : call_result S)
    (a : UpdateInventory.args) (user password : string) (lines : list string) :
  truthy (UpdateInventory.arg_user a) = Some user ->
  truthy (UpdateInventory.arg_password a) = Some password ->
  fs (UpdateInventory.arg_input a) = Some lines ->
  let r := UpdateInventory.out_results
             (UpdateInventory.run_updates jbobj lines dispatch user password
                (UpdateInventory.arg_reason a) (UpdateInventory.arg_dry_run a)) in
  fst (UpdateInventory.main jbobj fs dispatch a) = 0%Z
  <-> UpdateInventory.failed r = [] /\ UpdateInventory.errors r = [].
Proof.
  intros Hu Hp Hf. cbv zeta. unfold UpdateInventory.main. rewrite Hu, Hp, Hf.
  cbn [fst].
  destruct (UpdateInventory.failed _) as [|f fl], (UpdateInventory.errors _) as [|e el];
    split; try tauto; try discriminate; intros [? ?]; discriminate.
Qed.

Lemma session_failure_is_an_error {S : Type} (jbobj : Com.com_object S)
    (lines : list string) (dispatch : call_result S) (username password reason : string) :
  UpdateInventory.load_material_ids lines <> [] ->
  (match dispatch with
   | Raised _ => True
   | Returned jb0 =>
       match snd (Com.CreateSession jbobj jb0 username password "") with
       | Raised _ => True
       | Returned sid => nonempty sid = false
       end
   end) ->
  let out := UpdateInventory.run_updates jbobj lines dispatch username password reason
               false in
  UpdateInventory.errors (UpdateInventory.out_results out) <> []
  /\ count_calls is_request (UpdateInventory.out_calls out) = 0%nat.
Proof.
  intros Hin Hfail. cbv zeta. unfold UpdateInventory.run_updates.
  destruct (UpdateInventory.load_material_ids lines); [contradiction|].
  destruct dispatch as [jb0|e]; [|split; [discriminate|reflexivity]].
  destruct (Com.CreateSession jbobj jb0 username password "") as [jb1 [sid|e]];
    [|split; [discriminate|reflexivity]].
  cbn [snd] in Hfail. cbn [truthy]. rewrite Hfail.
  split; [discriminate|reflexivity].
Qed.

(** ** Request documents (C6, C8) *)

Lemma infix_of_intro (needle pre post s : string) :
  s = pre ++ needle ++ post -> infix_of needle s.
Proof. intros ->. now exists pre, post. Qed.

(** Show that a template is [pre ++ needle ++ post] for the given [pre]. *)
Ltac find_after pre :=
  eapply (infix_of_intro _ pre);
  unfold field; rewrite ?append_assoc; cbn [append]; rewrite ?append_assoc;
  reflexivity.

(** C6, as the code has it.  The one-command variant sends the session in
    a [SessionID] element, the two-phase variant in the [Session]
    attribute of [JBXMLRequest].  In both, the query carries a
    [MaterialQueryFilter] that starts with the [ID] element, and the
    update carries a [MaterialMod] body with [ID] and [LastUpdated] and an
    [AdjustOnHandQty] body with a [ReasonRef] of attribute [ID] and the
    signed [Quantity]. *)
Theorem request_documents_field_names
    (session_id material_id last_updated reason_id : string) (quantity : Z) :
  let query := UpdateInventory.create_query_xml session_id material_id in
  let update :=
    UpdateInventory.create_update_xml session_id material_id last_updated quantity reason_id in
  let query2 := XmlGenerator.create_material_query_xml session_id material_id in
  let update2 :=
    XmlGenerator.create_material_mod_xml session_id material_id last_updated quantity
      reason_id in
  let filter_body :=
    "<MaterialQueryFilter>" ++ nl ++ "                " ++ field "ID" material_id in
  let mod_body :=
    "<MaterialMod>" ++ nl ++
    "                " ++ field "ID" material_id ++ nl ++
    "                " ++ field "LastUpdated" last_updated ++ nl ++
    "            </MaterialMod>" in
  let adjust_body :=
    "<AdjustOnHandQty>" ++ nl ++
    "                <ReasonRef ID=" ++ dq ++ reason_id ++ dq ++ "/>" ++ nl ++
    "                " ++ field "Quantity" (str_int quantity) ++ nl ++
    "            </AdjustOnHandQty>" in
  let session_attribute := "<JBXMLRequest Session=" ++ dq ++ session_id ++ dq ++ ">" in
  (infix_of (field "SessionID" session_id) query /\ infix_of filter_body query)
  /\ (infix_of (field "SessionID" session_id) update
      /\ infix_of mod_body update /\ infix_of adjust_body update)
  /\ (infix_of session_attribute query2 /\ infix_of filter_body query2)
  /\ (infix_of session_attribute update2
      /\ infix_of mod_body update2 /\ infix_of adjust_body update2).
Proof.
  cbv zeta.
  unfold UpdateInventory.create_query_xml, UpdateInventory.create_update_xml,
    XmlGenerator.create_material_query_xml, XmlGenerator.create_material_mod_xml.
  pose (head := "<?xml version=" ++ dq ++ "1.0" ++ dq ++ " encoding=" ++ dq ++ "UTF-8"
                ++ dq ++ "?>" ++ nl ++ "<JBXML>" ++ nl).
  repeat split.
  - find_after (head ++ "    <JBXMLRequest>" ++ nl ++ "        ").
  - find_after (head ++ "    <JBXMLRequest>" ++ nl ++ "        " ++ field "SessionID" session_id
                ++ nl ++ "        <MaterialQueryRq>" ++ nl ++ "            ").
  - find_after (head ++ "    <JBXMLRequest>" ++ nl ++ "        ").
  - find_after (head ++ "    <JBXMLRequest>" ++ nl ++ "        " ++ field "SessionID" session_id
                ++ nl ++ "        <MaterialModRq>" ++ nl ++ "            ").
  - find_after (head ++ "    <JBXMLRequest>" ++ nl ++ "        " ++ field "SessionID" session_id
                ++ nl ++ "        <MaterialModRq>" ++ nl ++ "            "
                ++ "<MaterialMod>" ++ nl ++
                "                " ++ field "ID" material_id ++ nl ++
                "                " ++ field "LastUpdated" last_updated ++ nl ++
                "            </MaterialMod>" ++ nl ++ "            ").
  - find_after (head ++ "    ").
  - find_after (head ++ "    <JBXMLRequest Session=" ++ dq ++ session_id ++ dq ++ ">" ++ nl
                ++ "        <MaterialQueryRq>" ++ nl ++ "            ").
  - find_after (head ++ "    ").
  - find_after (head ++ "    <JBXMLRequest Session=" ++ dq ++ session_id ++ dq ++ ">" ++ nl
                ++ "        <MaterialModRq>" ++ nl ++ "            ").
  - find_after (head ++ "    <JBXMLRequest Session=" ++ dq ++ session_id ++ dq ++ ">" ++ nl
                ++ "        <MaterialModRq>" ++ nl ++ "            "
                ++ "<MaterialMod>" ++ nl ++
                "                " ++ field "ID" material_id ++ nl ++
                "                " ++ field "LastUpdated" last_updated ++ nl ++
                "            </MaterialMod>" ++ nl ++ "            ").
Qed.

(** [contains] decides occurrence. *)
Lemma contains_infix_of (needle s : string) :
  contains needle s = true <-> infix_of needle s.
Proof.
  split.
  - unfold contains. destruct (re_search (strip_prefix needle) s) as [r|] eqn:E;
      [intros _|discriminate].
    destruct (re_search_some _ _ _ E) as (pre & t & -> & Ht).
    exists pre, r. now rewrite (strip_prefix_sound _ _ _ Ht).
  - intros (pre & post & ->). unfold contains.
    induction pre as [|c pre IH].
    + change ("" ++ needle ++ post) with (needle ++ post).
      now rewrite (re_search_here _ _ _ (strip_prefix_app needle post)).
    + change (String c pre ++ needle ++ post) with (String c (pre ++ needle ++ post)).
      cbn [re_search]. now destruct (strip_prefix needle _).
Qed.

(** C6 as stated fails: the documents of the two-phase variant hold no
    [SessionID] at all. *)
Lemma two_phase_documents_have_no_SessionID :
  ~ infix_of "SessionID"
      (XmlGenerator.create_material_query_xml "{{SESSION_ID}}" "MAT-001")
  /\ ~ infix_of "SessionID"
        (XmlGenerator.create_material_mod_xml "{{SESSION_ID}}" "MAT-001" "{{LAST_UPDATED}}"
           (-3) "ADJUST").
Proof.
  split; intros H; apply contains_infix_of in H; vm_compute in H; discriminate.
Qed.

(** ** One outcome per identifier (C10) *)

Section EstablishedRun.

Import UpdateInventory.

Context {S : Type} (jbobj : Com.com_object S).

Lemma res_close_session (sid : string) (st : exec) :
  res (close_session jbobj sid st) = res st.
Proof. unfold close_session. now destruct (Com.CloseSession jbobj (jb st) sid). Qed.

Lemma calls_close_session (sid : string) (st : exec) :
  calls (close_session jbobj sid st) = (calls st ++ [CallCloseSession sid])%list.
Proof. unfold close_session. now destruct (Com.CloseSession jbobj (jb st) sid). Qed.

(** The run once the session is open: the loop over the sorted items,
    then the [finally] clause. *)
Lemma run_updates_established (lines : list string) (jb0 jb1 : S)
    (username password reason sid : string) :
  load_material_ids lines <> [] ->
  Com.CreateSession jbobj jb0 username password "" = (jb1, Returned sid) ->
  nonempty sid = true ->
  run_updates jbobj lines (Returned jb0) username password reason false
  = let st0 := {| jb := jb1;
                  calls := [CallDispatch; CallCreateSession username password];
                  res := no_results |} in
    let st := close_session jbobj sid
                (process_items jbobj sid reason st0
                   (sorted (count_materials (load_material_ids lines)))) in
    {| out_results := res st; out_calls := calls st; out_jb := Some (jb st) |}.
Proof.
  intros Hin Hs Hn. unfold run_updates.
  destruct (load_material_ids lines) as [|x l]; [contradiction|].
  rewrite Hs, (truthy_nonempty _ Hn). reflexivity.
Qed.

End EstablishedRun.

(** C10.  In a run that is not a dry run and in which the session is
    established, the identifiers of the recorded successes and failures
    are, in some order, the distinct identifiers of the aggregation, each
    exactly once: no identifier is in both lists or twice in one, and the
    two lists together are as long as the aggregation. *)
Theorem one_outcome_per_identifier
    {S : Type} (jbobj : Com.com_object S) (lines : list string)
    (jb0 jb1 : S) (username password reason session_id : string)
    (Hinput : UpdateInventory.load_material_ids lines <> [])
    (Hsession : Com.CreateSession jbobj jb0 username password ""
                = (jb1, Returned session_id))
    (Hestablished : nonempty session_id = true) :
  let r := UpdateInventory.out_results
             (UpdateInventory.run_updates jbobj lines (Returned jb0)
                username password reason false) in
  let quantity_changes :=
    UpdateInventory.count_materials (UpdateInventory.load_material_ids lines) in
  Permutation (outcome_ids r) (keys quantity_changes)
  /\ NoDup (outcome_ids r)
  /\ (List.length (UpdateInventory.success r) + List.length (UpdateInventory.failed r)
      = List.length quantity_changes)%nat
  /\ UpdateInventory.errors r = [].
Proof.
  cbv zeta.
  rewrite (run_updates_established jbobj lines jb0 jb1 username password reason
             session_id Hinput Hsession Hestablished).
  cbv zeta. cbn [UpdateInventory.out_results]. rewrite res_close_session.
  set (items := sorted (UpdateInventory.count_materials
                          (UpdateInventory.load_material_ids lines))).
  set (st0 := {| UpdateInventory.jb := jb1;
                 UpdateInventory.calls :=
                   [CallDispatch; CallCreateSession username password];
                 UpdateInventory.res := UpdateInventory.no_results |}).
  pose proof (process_items_ids jbobj session_id reason items st0) as Hids.
  pose proof (process_items_errors jbobj session_id reason items st0) as Herr.
  change (outcome_ids (UpdateInventory.res st0)) with (@nil string) in Hids.
  rewrite app_nil_r in Hids.
  assert (Hperm : Permutation
                    (outcome_ids (UpdateInventory.res
                       (UpdateInventory.process_items jbobj session_id reason st0 items)))
                    (keys (UpdateInventory.count_materials
                             (UpdateInventory.load_material_ids lines)))).
  { rewrite Hids. unfold keys, items. apply Permutation_map, sorted_perm. }
  repeat split.
  - exact Hperm.
  - apply (Permutation_NoDup (Permutation_sym Hperm)), NoDup_keys_count_materials.
  - apply Permutation_length in Hperm. unfold outcome_ids, keys in Hperm.
    now rewrite length_app, !length_map in Hperm.
  - exact Herr.
Qed.

Lemma one_outcome_per_identifier_witness :
  let r := UpdateInventory.out_results
             (UpdateInventory.run_updates Mock.jbobj
                ["EXISTING-001" ++ nl; "NONEXISTENT-999" ++ nl; "EXISTING-001" ++ nl]
                (Returned (fresh_mock (Mock.materials Mock.init)))
                "user" "secret" "ADJUST" false) in
  (List.length (UpdateInventory.success r) + List.length (UpdateInventory.failed r)
   = 2)%nat.
Proof.
  cbv zeta.
  refine (proj1 (proj2 (proj2
    (one_outcome_per_identifier Mock.jbobj
       ["EXISTING-001" ++ nl; "NONEXISTENT-999" ++ nl; "EXISTING-001" ++ nl]
       (fresh_mock (Mock.materials Mock.init))
       (fst (Mock.CreateSession (fresh_mock (Mock.materials Mock.init)) "user" "secret" ""))
       "user" "secret" "ADJUST" "MOCK-SESSION-20260102120000" _ _ _)))).
  - vm_compute. discriminate.
  - vm_compute. reflexivity.
  - reflexivity.
Defined.

(** ** The audit package (C8) *)

Lemma append_inj_l (a b c : string) : a ++ b = a ++ c -> b = c.
Proof. induction a as [|x a IH]; simpl; [auto|]. intros H. inversion H. auto. Qed.



Lemma dict_get_Some_In {V : Type} (d : dict V) (k : string) (v : V) :
  dict_get d k = Some v -> In (k, v) d.
Proof.
  induction d as [|[k0 v0] d IH]; simpl; [discriminate|].
  destruct (String.eqb_spec k0 k) as [->|Hne].
  - intros E; inversion E; subst. now left.
  - intros H. right. now apply IH.
Qed.


Section Package.

Import XmlGenerator.

Variable unicode_isalnum : string -> bool.
Variable reason : string.

Lemma written_files (items : list (string * Z)) (p : package) :
  pkg_written (fold_left (add_material unicode_isalnum reason) items p)
  = (pkg_written p ++ flat_map (files_of unicode_isalnum reason) items)%list.
Proof.
  revert p; induction items as [|[id q] items IH]; intros p; cbn [fold_left flat_map].
  - now rewrite app_nil_r.
  - rewrite IH. unfold add_material. cbn [pkg_written].
    rewrite <- app_assoc. reflexivity.
Qed.




End Package.





(** It fails as well for two identifiers with the same file name part:
    they share one file name, and the directory holds the document of the
    later one, so that the entry of the first leads to the identifier of
    the second. *)
Remark same_file_name_for_two_identifiers :
  let pkg := XmlGenerator.generate_update_package ascii_only "2026-01-02T12:00:00"
               ["A/B"; "A?B"] "ADJUST" in
  map (fun e => (XmlGenerator.material_id e, XmlGenerator.update_file e))
      (XmlGenerator.materials (XmlGenerator.pkg_manifest pkg))
  = [("A/B", "update_A_B.xml"); ("A?B", "update_A_B.xml")]
  /\ option_map read_update
       (dict_get (XmlGenerator.directory (XmlGenerator.pkg_written pkg)) "update_A_B.xml")
     = Some (Some ("A?B", "-1")).
Proof. cbv zeta. split; vm_compute; reflexivity. Qed.

Local Arguments UpdateInventory.parse_error : simpl never.
Local Arguments UpdateInventory.parse_last_updated : simpl never.
Local Arguments Mock._error_response : simpl never.
Local Arguments Mock.query_response : simpl never.
Local Arguments Mock.mod_response : simpl never.
Local Arguments Mock.mismatch_message : simpl never.

(** ** A refused update (C3) *)

Lemma nolt_mismatch_message (expected submitted : string) :
  nolt expected = true -> nolt submitted = true ->
  nolt (Mock.mismatch_message expected submitted) = true.
Proof.
  intros He Hs. unfold Mock.mismatch_message.
  now rewrite !nolt_app, He, Hs.
Qed.

Lemma process_items_app {S : Type} (jbobj : Com.com_object S) (sid reason : string)
    (st : UpdateInventory.exec) (before after : list (string * Z)) :
  UpdateInventory.process_items jbobj sid reason st (before ++ after)%list
  = UpdateInventory.process_items jbobj sid reason
      (UpdateInventory.process_items jbobj sid reason st before) after.
Proof. unfold UpdateInventory.process_items. apply fold_left_app. Qed.

Section Frame.

Import UpdateInventory.

Context {S : Type} (jbobj : Com.com_object S).
Variables (sid reason : string).

Lemma behind_blank (st : @exec S) : behind st (blank (jb st)) = st.
Proof.
  destruct st as [j c [s f e]]. unfold behind, blank. cbn.
  now rewrite !app_nil_r.
Qed.

Lemma behind_assoc (a b c : @exec S) : behind (behind a b) c = behind a (behind b c).
Proof. unfold behind. cbn. now rewrite !app_assoc. Qed.

(** The loop reads nothing of what it has recorded: an item adds to the
    calls and records what it adds to empty ones. *)
Lemma process_item_frame (st : exec) (item : string * Z) :
  process_item jbobj sid reason st item
  = behind st (process_item jbobj sid reason (blank (jb st)) item).
Proof.
  destruct st as [j c [s f e]]. destruct item as [id q].
  unfold process_item, request, blank. cbn [jb calls res].
  destruct (Com.ProcessRequest jbobj j _) as [jb1 [r1|e1]].
  2: { unfold behind, record_failed, add_failed. cbn. now rewrite !app_nil_r. }
  destruct (truthy (parse_error r1)) as [e'|].
  { unfold behind, record_failed, add_failed. cbn. now rewrite !app_nil_r. }
  destruct (truthy (parse_last_updated r1)) as [t|].
  2: { unfold behind, record_failed, add_failed. cbn. now rewrite !app_nil_r. }
  cbn [jb calls res].
  destruct (Com.ProcessRequest jbobj jb1 _) as [jb2 [r2|e2]].
  2: { unfold behind, record_failed, add_failed. cbn.
       now rewrite !app_nil_r, <- !app_assoc. }
  destruct (truthy (parse_error r2)) as [e'|].
  { unfold behind, record_failed, add_failed. cbn.
    now rewrite !app_nil_r, <- !app_assoc. }
  unfold behind, record_success, add_success. cbn.
  now rewrite !app_nil_r, <- !app_assoc.
Qed.

Lemma jb_behind (a b : @exec S) : jb (behind a b) = jb b.
Proof. reflexivity. Qed.

Lemma process_items_frame (items : list (string * Z)) (st : exec) :
  process_items jbobj sid reason st items
  = behind st (process_items jbobj sid reason (blank (jb st)) items).
Proof.
  unfold process_items. revert st.
  induction items as [|item items IH]; intros st; cbn [fold_left].
  - symmetry. apply behind_blank.
  - rewrite (IH (process_item jbobj sid reason st item)).
    rewrite (IH (process_item jbobj sid reason (blank (jb st)) item)).
    rewrite (process_item_frame st item) at 1.
    rewrite behind_assoc. do 3 f_equal.
    now rewrite (process_item_frame st item).
Qed.

End Frame.

(** The mock does not read its request log: two states that differ in the
    log only answer a request alike and differ in the log only
    afterwards. *)
Lemma same_store_request (a b : Mock.state) (xml : string) :
  same_store a b ->
  snd (Mock.ProcessRequest a xml) = snd (Mock.ProcessRequest b xml)
  /\ same_store (fst (Mock.ProcessRequest a xml)) (fst (Mock.ProcessRequest b xml)).
Proof.
  intros (Hm & Ha & Hi & Hc & Ht & Hf).
  unfold Mock.ProcessRequest, Mock._handle_material_query, Mock._handle_material_mod,
    Mock.log_request.
  cbn [Mock.self Mock.materials Mock.clock Mock.ticks Mock.builtin_float
       Mock.session_active Mock.session_id Mock.request_log].
  rewrite Hm, Ha, Hi, Hc, Ht, Hf.
  repeat match goal with
         | |- context [match ?x with _ => _ end] => destruct x
         | |- context [if ?x then _ else _] => destruct x
         end;
    (split; [reflexivity|]); unfold same_store; cbn; auto 10.
Qed.

Section SameStore.

Import UpdateInventory.

Variables (sid reason : string).

Lemma same_store_item (st1 st2 : @exec Mock.state) (item : string * Z) :
  same_store (jb st1) (jb st2) -> calls st1 = calls st2 -> res st1 = res st2 ->
  same_store (jb (process_item Mock.jbobj sid reason st1 item))
             (jb (process_item Mock.jbobj sid reason st2 item))
  /\ calls (process_item Mock.jbobj sid reason st1 item)
     = calls (process_item Mock.jbobj sid reason st2 item)
  /\ res (process_item Mock.jbobj sid reason st1 item)
     = res (process_item Mock.jbobj sid reason st2 item).
Proof.
  intros Hs Hc Hr. destruct item as [id q].
  unfold process_item, request. cbn [Com.ProcessRequest Mock.jbobj].
  destruct (same_store_request _ _ (create_query_xml sid id) Hs) as [Er Hs1].
  destruct (Mock.ProcessRequest (jb st1) _) as [a1 r1].
  destruct (Mock.ProcessRequest (jb st2) _) as [b1 r1'].
  cbn [fst snd] in Er, Hs1. subst r1'. rewrite Hc, Hr.
  destruct r1 as [r1|e1]; [|now cbn].
  destruct (truthy (parse_error r1)); [now cbn|].
  destruct (truthy (parse_last_updated r1)) as [t|]; [|now cbn].
  cbn [jb calls res].
  destruct (same_store_request _ _ (create_update_xml sid id t q reason) Hs1)
    as [Er Hs2].
  destruct (Mock.ProcessRequest a1 _) as [a2 r2].
  destruct (Mock.ProcessRequest b1 _) as [b2 r2'].
  cbn [fst snd] in Er, Hs2. subst r2'.
  destruct r2 as [r2|e2]; [|now cbn].
  destruct (truthy (parse_error r2)); now cbn.
Qed.

Lemma same_store_items (items : list (string * Z)) (st1 st2 : @exec Mock.state) :
  same_store (jb st1) (jb st2) -> calls st1 = calls st2 -> res st1 = res st2 ->
  same_store (jb (process_items Mock.jbobj sid reason st1 items))
             (jb (process_items Mock.jbobj sid reason st2 items))
  /\ calls (process_items Mock.jbobj sid reason st1 items)
     = calls (process_items Mock.jbobj sid reason st2 items)
  /\ res (process_items Mock.jbobj sid reason st1 items)
     = res (process_items Mock.jbobj sid reason st2 items).
Proof.
  unfold process_items. revert st1 st2.
  induction items as [|item items IH]; intros st1 st2 Hs Hc Hr; cbn [fold_left];
    [auto|].
  destruct (same_store_item st1 st2 item Hs Hc Hr) as (A & B & C).
  now apply IH.
Qed.

End SameStore.

(** C3, as the code has it.  When the store answers the update of an item
    with its refusal, the message that names the token it holds and the
    token submitted, and the token it holds has no ['<'], the executor
    records one failure for the item whose reason is that message, having
    sent one query and one update for it and no second update.  The
    calls and records of the items before stay, and behind them and the
    failure come the calls and records of the items after, which are those
    of a loop over these items alone on the external system as the refused
    update left it.  The mock, for its part, refuses an update whose token
    is not the one it holds for the item and changes nothing but its
    request log, which it never reads: a loop over any items does the same
    with and without the refused update in the log. *)
Theorem conflict_is_recorded_and_isolated
    {S : Type} (jbobj : Com.com_object S) (sid reason : string)
    (st0 : UpdateInventory.exec) (before after : list (string * Z))
    (id : string) (q : Z) (jb1 jb2 : S) (answer token expected : string)
    (Hquery : Com.ProcessRequest jbobj
                (UpdateInventory.jb (UpdateInventory.process_items jbobj sid reason st0 before))
                (UpdateInventory.create_query_xml sid id) = (jb1, Returned answer))
    (Hverified : UpdateInventory.parse_error answer = None)
    (Htoken : UpdateInventory.parse_last_updated answer = Some token)
    (Hrefused : Com.ProcessRequest jbobj jb1
                  (UpdateInventory.create_update_xml sid id token q reason)
                = (jb2, Returned (Mock._error_response
                                    (Mock.mismatch_message expected token))))
    (Hexpected : nolt expected = true) :
  let st := UpdateInventory.process_items jbobj sid reason st0 before in
  let why := Mock.mismatch_message expected token in
  let update := UpdateInventory.create_update_xml sid id token q reason in
  let st' :=
    {| UpdateInventory.jb := jb2;
       UpdateInventory.calls :=
         (UpdateInventory.calls st
          ++ [CallProcessRequest (UpdateInventory.create_query_xml sid id);
              CallProcessRequest update])%list;
       UpdateInventory.res :=
         {| UpdateInventory.success := UpdateInventory.success (UpdateInventory.res st);
            UpdateInventory.failed :=
              (UpdateInventory.failed (UpdateInventory.res st)
               ++ [{| UpdateInventory.f_id := id; UpdateInventory.f_qty := q;
                      UpdateInventory.f_error := why |}])%list;
            UpdateInventory.errors := UpdateInventory.errors (UpdateInventory.res st) |} |} in
  UpdateInventory.process_item jbobj sid reason st (id, q) = st'
  /\ infix_of expected why /\ infix_of token why
  /\ UpdateInventory.process_items jbobj sid reason st0 (before ++ (id, q) :: after)%list
     = behind st' (UpdateInventory.process_items jbobj sid reason (blank jb2) after)
  /\ (forall (m : Mock.state) (mat : Mock.material),
        nolt sid = true -> nolt id = true -> nonempty id = true -> nolt reason = true ->
        dict_get (Mock.materials (Mock.self m)) id = Some mat ->
        token <> Mock.mat_last_updated mat ->
        Mock.ProcessRequest m update
        = (Mock.log_request m update,
           Returned (Mock._error_response
                       (Mock.mismatch_message (Mock.mat_last_updated mat) token)))
        /\ same_store (Mock.log_request m update) m
        /\ forall items,
             let with_it := UpdateInventory.process_items Mock.jbobj sid reason
                              (blank (Mock.log_request m update)) items in
             let without := UpdateInventory.process_items Mock.jbobj sid reason
                              (blank m) items in
             UpdateInventory.res with_it = UpdateInventory.res without
             /\ UpdateInventory.calls with_it = UpdateInventory.calls without
             /\ same_store (UpdateInventory.jb with_it) (UpdateInventory.jb without)).
Proof.
  cbv zeta.
  destruct (search_tag_group _ _ _ _ Htoken) as [Htok Htok'].
  assert (Hitem :
    UpdateInventory.process_item jbobj sid reason
      (UpdateInventory.process_items jbobj sid reason st0 before) (id, q)
    = {| UpdateInventory.jb := jb2;
         UpdateInventory.calls :=
           (UpdateInventory.calls (UpdateInventory.process_items jbobj sid reason st0 before)
            ++ [CallProcessRequest (UpdateInventory.create_query_xml sid id);
                CallProcessRequest
                  (UpdateInventory.create_update_xml sid id token q reason)])%list;
         UpdateInventory.res :=
           UpdateInventory.add_failed
             (UpdateInventory.res (UpdateInventory.process_items jbobj sid reason st0 before))
             id q (Mock.mismatch_message expected token) |}).
  { unfold UpdateInventory.process_item, UpdateInventory.request.
    rewrite Hquery. cbn. rewrite Hverified, Htoken. cbn. rewrite Htok'. cbn.
    rewrite Hrefused. cbn.
    rewrite parse_error_error_response
      by (auto using nolt_mismatch_message).
    cbn. rewrite <- app_assoc. reflexivity. }
  split; [exact Hitem|]. split; [|split; [|split]].
  - exists "LastUpdated mismatch. Expected: ", (", Got: " ++ token). reflexivity.
  - exists ("LastUpdated mismatch. Expected: " ++ expected ++ ", Got: "), "".
    unfold Mock.mismatch_message. now rewrite append_nil_r, !append_assoc.
  - rewrite process_items_app.
    unfold UpdateInventory.process_items at 1. cbn [fold_left].
    rewrite Hitem. fold (UpdateInventory.process_items jbobj sid reason).
    apply process_items_frame.
  - intros m mat Hs Hi Hi' Hr Hm Hne.
    split; [now apply mock_update_mismatch|].
    assert (Hsame : same_store
                      (Mock.log_request m
                         (UpdateInventory.create_update_xml sid id token q reason)) m)
      by (unfold same_store; cbn; auto 10).
    split; [exact Hsame|].
    intros items. cbv zeta.
    destruct (same_store_items sid reason items
                (blank (Mock.log_request m
                          (UpdateInventory.create_update_xml sid id token q reason)))
                (blank m) Hsame eq_refl eq_refl) as (A & B & C).
    auto.
Qed.

Lemma conflict_is_recorded_and_isolated_witness :
  let store := with_writer 1 (set_last_updated "TEST-MAT-001" "2026-01-02T11:59:59") in
  let st0 := {| UpdateInventory.jb := (fresh_mock (Mock.materials Mock.init), 0%nat);
                UpdateInventory.calls := [];
                UpdateInventory.res := UpdateInventory.no_results |} in
  UpdateInventory.res
    (UpdateInventory.process_items store "MOCK-SESSION-20260102120000" "ADJUST" st0
       [("TEST-MAT-001", (-3)%Z); ("TEST-MAT-002", (-2)%Z)])
  = {| UpdateInventory.success :=
         [{| UpdateInventory.s_id := "TEST-MAT-002"; UpdateInventory.s_qty := -2 |}];
       UpdateInventory.failed :=
         [{| UpdateInventory.f_id := "TEST-MAT-001"; UpdateInventory.f_qty := -3;
             UpdateInventory.f_error :=
               "LastUpdated mismatch. Expected: 2026-01-02T11:59:59, Got: 2025-06-15T10:30:00" |}];
       UpdateInventory.errors := [] |}.
Proof.
  cbv zeta.
  set (store := with_writer 1 (set_last_updated "TEST-MAT-001" "2026-01-02T11:59:59")).
  set (st0 := {| UpdateInventory.jb := (fresh_mock (Mock.materials Mock.init), 0%nat);
                 UpdateInventory.calls := [];
                 UpdateInventory.res := UpdateInventory.no_results |}).
  pose (sid := "MOCK-SESSION-20260102120000").
  pose (query := UpdateInventory.create_query_xml sid "TEST-MAT-001").
  pose (update := UpdateInventory.create_update_xml sid "TEST-MAT-001"
                    "2025-06-15T10:30:00" (-3) "ADJUST").
  pose (jb1 := fst (Com.ProcessRequest store (UpdateInventory.jb st0) query)).
  pose (jb2 := fst (Com.ProcessRequest store jb1 update)).
  pose (answer := Mock.query_response
                     {| Mock.mat_id := "TEST-MAT-001";
                        Mock.mat_description := "Test Material 1";
                        Mock.mat_on_hand := PyInt 100;
                        Mock.mat_last_updated := "2025-06-15T10:30:00" |}).
  assert (Hquery : Com.ProcessRequest store
                     (UpdateInventory.jb
                        (UpdateInventory.process_items store sid "ADJUST" st0 []))
                     (UpdateInventory.create_query_xml sid "TEST-MAT-001")
                   = (jb1, Returned answer)) by (vm_compute; reflexivity).
  assert (Hverified : UpdateInventory.parse_error answer = None)
    by (vm_compute; reflexivity).
  assert (Htoken : UpdateInventory.parse_last_updated answer = Some "2025-06-15T10:30:00")
    by (vm_compute; reflexivity).
  assert (Hrefused : Com.ProcessRequest store jb1
                       (UpdateInventory.create_update_xml sid "TEST-MAT-001"
                          "2025-06-15T10:30:00" (-3) "ADJUST")
                     = (jb2, Returned (Mock._error_response
                                         (Mock.mismatch_message "2026-01-02T11:59:59"
                                            "2025-06-15T10:30:00"))))
    by (vm_compute; reflexivity).
  destruct (conflict_is_recorded_and_isolated store sid "ADJUST" st0 []
              [("TEST-MAT-002", (-2)%Z)] "TEST-MAT-001" (-3) jb1 jb2 answer
              "2025-06-15T10:30:00" "2026-01-02T11:59:59"
              Hquery Hverified Htoken Hrefused eq_refl) as (_ & _ & _ & H & _).
  change ([("TEST-MAT-001", (-3)%Z); ("TEST-MAT-002", (-2)%Z)])
    with (([] : list (string * Z)) ++ ("TEST-MAT-001", (-3)%Z) :: [("TEST-MAT-002", (-2)%Z)])%list.
  fold sid. rewrite H. vm_compute. reflexivity.
Defined.

(** C3 as stated fails: a token of the store that holds ['<'] breaks the
    message element of the refusal, and the reason recorded is the status
    code, which names neither token. *)
Lemma conflict_reason_without_the_tokens :
  let store := with_writer 1 (set_last_updated "TEST-MAT-001" "2026<01") in
  let st0 := {| UpdateInventory.jb := (fresh_mock (Mock.materials Mock.init), 0%nat);
                UpdateInventory.calls := [];
                UpdateInventory.res := UpdateInventory.no_results |} in
  let st := UpdateInventory.process_items store "MOCK-SESSION-20260102120000" "ADJUST" st0
              [("TEST-MAT-001", (-3)%Z)] in
  UpdateInventory.calls st
  = [CallProcessRequest
       (UpdateInventory.create_query_xml "MOCK-SESSION-20260102120000" "TEST-MAT-001");
     CallProcessRequest
       (UpdateInventory.create_update_xml "MOCK-SESSION-20260102120000" "TEST-MAT-001"
          "2025-06-15T10:30:00" (-3) "ADJUST")]
  /\ Mock.request_log (Mock.self (fst (UpdateInventory.jb st)))
     = [UpdateInventory.create_query_xml "MOCK-SESSION-20260102120000" "TEST-MAT-001";
        UpdateInventory.create_update_xml "MOCK-SESSION-20260102120000" "TEST-MAT-001"
          "2025-06-15T10:30:00" (-3) "ADJUST"]
  /\ option_map Mock.mat_last_updated
       (dict_get (Mock.materials (Mock.self (fst (UpdateInventory.jb st)))) "TEST-MAT-001")
     = Some "2026<01"
  /\ UpdateInventory.failed (UpdateInventory.res st)
     = [{| UpdateInventory.f_id := "TEST-MAT-001"; UpdateInventory.f_qty := -3;
           UpdateInventory.f_error := "Status code: 1" |}]
  /\ contains "2026<01" "Status code: 1" = false
  /\ contains "2025-06-15T10:30:00" "Status code: 1" = false.
Proof. cbv zeta. repeat split; vm_compute; reflexivity. Qed.

(** ** A run against the mock (C2) *)

Lemma load_material_ids_nonempty (lines : list string) (x : string) :
  In x (UpdateInventory.load_material_ids lines) -> nonempty x = true.
Proof.
  induction lines as [|line lines IH]; simpl; [tauto|].
  destruct (nonempty (strip line)) eqn:Hn; simpl; [|exact IH].
  destruct (negb (startswith (strip line) "#")); [|exact IH].
  intros [<-|H]; [exact Hn|now apply IH].
Qed.

Lemma mock_create_session (m : Mock.state) (username password : string) :
  nonempty username = true -> nonempty password = true ->
  exists m1 sid,
    Mock.CreateSession m username password "" = (m1, Returned sid)
    /\ nolt sid = true /\ nonempty sid = true
    /\ Mock.materials (Mock.self m1) = Mock.materials (Mock.self m).
Proof.
  intros Hu Hp. unfold Mock.CreateSession.
  rewrite (truthy_nonempty _ Hu), (truthy_nonempty _ Hp).
  eexists _, _. split; [reflexivity|]. repeat split.
  rewrite nolt_app, nolt_strftime. reflexivity.
Qed.

Section MockItems.

Import UpdateInventory.

Variables (sid reason : string).
Hypothesis Hsid : nolt sid = true.
Hypothesis Hreason : nolt reason = true.

Variables (st : @exec Mock.state) (id : string) (q : Z).
Hypothesis Hid : nolt id = true.
Hypothesis Hid' : nonempty id = true.

(** An identifier the store does not know: one query, and the failure
    carries the store's message. *)
Lemma mock_item_unknown :
  dict_get (Mock.materials (Mock.self (jb st))) id = None ->
  process_item Mock.jbobj sid reason st (id, q)
  = {| jb := Mock.log_request (jb st) (create_query_xml sid id);
       calls := (calls st ++ [CallProcessRequest (create_query_xml sid id)])%list;
       res := add_failed (res st) id q ("Material not found: " ++ id) |}.
Proof.
  intros Hk. unfold process_item, request.
  cbn [Com.ProcessRequest Mock.jbobj].
  rewrite (mock_query_unknown (jb st) sid id Hsid Hid Hid' Hk).
  rewrite parse_error_error_response.
  - reflexivity.
  - rewrite nolt_app. now rewrite Hid.
  - reflexivity.
Qed.

(** An identifier the store knows, with a record that is plain text and
    a quantity on hand that [+=] adds to: the query gives the token, the
    update is applied, and the records of the other identifiers stay as
    they are. *)
Lemma mock_item_known (mat : Mock.material) :
  dict_get (Mock.materials (Mock.self (jb st))) id = Some mat ->
  nolt (Mock.mat_id mat) = true -> nolt (Mock.mat_description mat) = true ->
  nolt (Mock.mat_last_updated mat) = true ->
  nonempty (Mock.mat_last_updated mat) = true ->
  adds (Mock.mat_on_hand mat) = true ->
  let st' := process_item Mock.jbobj sid reason st (id, q) in
  res st' = add_success (res st) id q
  /\ (forall x, x <> id ->
        dict_get (Mock.materials (Mock.self (jb st'))) x
        = dict_get (Mock.materials (Mock.self (jb st))) x).
Proof.
  intros Hk H1 H2 H3 H4 H5. cbv zeta. unfold process_item, request.
  cbn [Com.ProcessRequest Mock.jbobj].
  rewrite (mock_query_known (jb st) sid id Hsid Hid Hid' mat Hk).
  cbn [jb calls res]. rewrite parse_error_query_response. cbn [truthy].
  rewrite (parse_last_updated_query_response mat H1 H2 H3 H4), (truthy_nonempty _ H4).
  destruct (add_adds _ (nearest (q * float_one) 1) H5) as [x Hadd].
  destruct (mock_update_applied (Mock.log_request (jb st) (create_query_xml sid id))
              sid id Hsid Hid Hid' (Mock.mat_last_updated mat) reason q H3 H4 Hreason
              mat (PyFloat x) Hk eq_refl Hadd) as (m' & mat' & Hu & Hm & _).
  rewrite Hu. rewrite parse_error_mod_response. cbn [truthy].
  cbn [res jb record_success]. split; [reflexivity|].
  intros y Hy. rewrite Hm. cbn [Mock.log_request Mock.self Mock.materials].
  apply dict_get_set_other. congruence.
Qed.

End MockItems.

(** A list without repetition that holds [x] and [y] and nothing else. *)
Lemma two_element_list {A : Type} (l : list A) (x y : A) :
  NoDup l -> x <> y -> In x l -> In y l -> (forall z, In z l -> z = x \/ z = y) ->
  l = [x; y] \/ l = [y; x].
Proof.
  intros Hnd Hxy Hx Hy Hall.
  destruct l as [|a [|b [|c l]]].
  - destruct Hx.
  - destruct Hx as [<-|[]]. destruct Hy as [<-|[]]. contradiction.
  - inversion Hnd as [|? ? Hab _]; subst.
    assert (a <> b) by (intros ->; apply Hab; now left).
    destruct (Hall a (or_introl eq_refl)) as [->| ->];
      destruct (Hall b (or_intror (or_introl eq_refl))) as [->| ->];
      try contradiction; auto.
  - exfalso. inversion Hnd as [|? ? Ha Hnd']; subst.
    inversion Hnd' as [|? ? Hb Hnd'']; subst.
    destruct (Hall a (or_introl eq_refl)) as [->| ->];
      destruct (Hall b (or_intror (or_introl eq_refl))) as [->| ->];
      destruct (Hall c (or_intror (or_intror (or_introl eq_refl)))) as [->| ->];
      solve [ apply Ha; simpl; auto | apply Hb; simpl; auto ].
Qed.

Lemma dict_get_count_materials_In (l : list string) (x : string) :
  In x l ->
  dict_get (UpdateInventory.count_materials l) x = Some (- Z.of_nat (count_of l x))%Z.
Proof.
  intros H. rewrite dict_get_count_materials.
  apply (count_occ_In string_dec) in H. unfold count_of.
  destruct (count_occ string_dec l x); [lia|reflexivity].
Qed.

Lemma dict_get_count_materials_Some (l : list string) (x : string) (v : Z) :
  dict_get (UpdateInventory.count_materials l) x = Some v ->
  In x l /\ v = (- Z.of_nat (count_of l x))%Z.
Proof.
  rewrite dict_get_count_materials. unfold count_of.
  destruct (count_occ string_dec l x) eqn:E; [discriminate|].
  intros H; inversion H; subst. split; [|reflexivity].
  apply (count_occ_In string_dec). lia.
Qed.

Lemma count_calls_app (kind : call -> bool) (a b : list call) :
  count_calls kind (a ++ b) = (count_calls kind a + count_calls kind b)%nat.
Proof. unfold count_calls. now rewrite filter_app, length_app. Qed.

(** The aggregation of a batch with the two identifiers [x] and [y], in
    the order of the loop. *)
Lemma sorted_two_identifiers (ids : list string) (x y : string) :
  x <> y -> In x ids -> In y ids -> (forall z, In z ids -> z = x \/ z = y) ->
  let a := (- Z.of_nat (count_of ids x))%Z in
  let b := (- Z.of_nat (count_of ids y))%Z in
  sorted (UpdateInventory.count_materials ids) = [(x, a); (y, b)]
  \/ sorted (UpdateInventory.count_materials ids) = [(y, b); (x, a)].
Proof.
  intros Hxy Hx Hy Hall. cbv zeta.
  set (d := UpdateInventory.count_materials ids).
  assert (Hp : Permutation (sorted d) d) by apply sorted_perm.
  assert (Hnd : NoDup (keys d)) by apply NoDup_keys_count_materials.
  apply two_element_list.
  - apply (NoDup_map_inv fst).
    apply (Permutation_NoDup (Permutation_map fst (Permutation_sym Hp))). exact Hnd.
  - congruence.
  - apply (Permutation_in _ (Permutation_sym Hp)), dict_get_Some_In.
    now apply dict_get_count_materials_In.
  - apply (Permutation_in _ (Permutation_sym Hp)), dict_get_Some_In.
    now apply dict_get_count_materials_In.
  - intros [k v] Hz. apply (Permutation_in _ Hp) in Hz.
    apply (dict_get_In d k v Hnd) in Hz.
    apply dict_get_count_materials_Some in Hz as [Hin ->].
    destruct (Hall k Hin) as [->| ->]; auto.
Qed.

(** C2, as the code has it.  For a batch that holds one identifier the
    mock knows and one it does not know, any number of times each, the
    identifiers and the cause code without ['<'], the record of the known
    identifier with text fields without ['<'], a token that is not empty
    and a quantity on hand that is a [float] or an [int] within the range
    of the floats, a run with a user name and a password records one
    success, for the known identifier, and one failure, for the unknown
    identifier, whose reason is the message of the store,
    ["Material not found: "] followed by the identifier; it records no
    error, and it calls [CloseSession] once, as its last call. *)
Theorem known_succeeds_unknown_fails
    (lines : list string) (m : Mock.state) (username password reason : string)
    (known unknown : string) (mat : Mock.material)
    (Hknown_in : In known (UpdateInventory.load_material_ids lines))
    (Hunknown_in : In unknown (UpdateInventory.load_material_ids lines))
    (Honly : forall x, In x (UpdateInventory.load_material_ids lines) ->
                       x = known \/ x = unknown)
    (Hknown : dict_get (Mock.materials (Mock.self m)) known = Some mat)
    (Hunknown : dict_get (Mock.materials (Mock.self m)) unknown = None)
    (Huser : nonempty username = true) (Hpassword : nonempty password = true)
    (Hreason : nolt reason = true)
    (Hknown_text : nolt known = true) (Hunknown_text : nolt unknown = true)
    (Hmat_id : nolt (Mock.mat_id mat) = true)
    (Hmat_description : nolt (Mock.mat_description mat) = true)
    (Hmat_token : nolt (Mock.mat_last_updated mat) = true)
    (Hmat_token' : nonempty (Mock.mat_last_updated mat) = true)
    (Hmat_on_hand : adds (Mock.mat_on_hand mat) = true) :
  let ids := UpdateInventory.load_material_ids lines in
  let out := UpdateInventory.run_updates Mock.jbobj lines (Returned m)
               username password reason false in
  UpdateInventory.success (UpdateInventory.out_results out)
  = [{| UpdateInventory.s_id := known;
        UpdateInventory.s_qty := (- Z.of_nat (count_of ids known))%Z |}]
  /\ UpdateInventory.failed (UpdateInventory.out_results out)
     = [{| UpdateInventory.f_id := unknown;
           UpdateInventory.f_qty := (- Z.of_nat (count_of ids unknown))%Z;
           UpdateInventory.f_error := "Material not found: " ++ unknown |}]
  /\ UpdateInventory.errors (UpdateInventory.out_results out) = []
  /\ count_calls is_close (UpdateInventory.out_calls out) = 1%nat
  /\ exists before sid,
       UpdateInventory.out_calls out = (before ++ [CallCloseSession sid])%list.
Proof.
  cbv zeta.
  assert (Hne : known <> unknown) by (intros ->; congruence).
  assert (Hinput : UpdateInventory.load_material_ids lines <> []).
  { intros E. rewrite E in Hknown_in. destruct Hknown_in. }
  pose proof (load_material_ids_nonempty _ _ Hknown_in) as Hk'.
  pose proof (load_material_ids_nonempty _ _ Hunknown_in) as Hu'.
  destruct (mock_create_session m username password Huser Hpassword)
    as (m1 & sid & Hs & Hsid & Hsid' & Hm1).
  rewrite (run_updates_established Mock.jbobj lines m m1 username password reason sid
             Hinput Hs Hsid').
  cbv zeta. cbn [UpdateInventory.out_results UpdateInventory.out_calls].
  rewrite res_close_session, calls_close_session.
  set (st0 := {| UpdateInventory.jb := m1;
                 UpdateInventory.calls :=
                   [CallDispatch; CallCreateSession username password];
                 UpdateInventory.res := UpdateInventory.no_results |}).
  set (items := sorted (UpdateInventory.count_materials
                          (UpdateInventory.load_material_ids lines))).
  destruct (process_items_calls Mock.jbobj sid reason items st0) as (new & Hcalls & Hnew).
  assert (Hres :
    UpdateInventory.res (UpdateInventory.process_items Mock.jbobj sid reason st0 items)
    = {| UpdateInventory.success :=
           [{| UpdateInventory.s_id := known;
               UpdateInventory.s_qty :=
                 (- Z.of_nat (count_of (UpdateInventory.load_material_ids lines) known))%Z |}];
         UpdateInventory.failed :=
           [{| UpdateInventory.f_id := unknown;
               UpdateInventory.f_qty :=
                 (- Z.of_nat (count_of (UpdateInventory.load_material_ids lines) unknown))%Z;
               UpdateInventory.f_error := "Material not found: " ++ unknown |}];
         UpdateInventory.errors := [] |}).
  { assert (Hk0 : dict_get (Mock.materials (Mock.self (UpdateInventory.jb st0))) known
                  = Some mat) by (cbn [UpdateInventory.jb st0]; now rewrite Hm1).
    assert (Hu0 : dict_get (Mock.materials (Mock.self (UpdateInventory.jb st0))) unknown
                  = None) by (cbn [UpdateInventory.jb st0]; now rewrite Hm1).
    unfold UpdateInventory.process_items, items.
    destruct (sorted_two_identifiers _ known unknown Hne Hknown_in Hunknown_in Honly)
      as [-> | ->]; cbn [fold_left].
    - destruct (mock_item_known sid reason Hsid Hreason st0 known
                  (- Z.of_nat (count_of (UpdateInventory.load_material_ids lines) known))
                  Hknown_text Hk' mat Hk0 Hmat_id Hmat_description Hmat_token Hmat_token'
                  Hmat_on_hand)
        as [Hr Hother].
      rewrite mock_item_unknown; auto.
      + cbn [UpdateInventory.res]. rewrite Hr. reflexivity.
      + rewrite Hother by congruence. exact Hu0.
    - rewrite (mock_item_unknown sid reason Hsid st0 unknown _ Hunknown_text Hu' Hu0).
      match goal with
      | |- UpdateInventory.res (UpdateInventory.process_item _ _ _ ?st1 _) = _ =>
          destruct (mock_item_known sid reason Hsid Hreason st1 known
                      (- Z.of_nat (count_of (UpdateInventory.load_material_ids lines) known))
                      Hknown_text Hk' mat Hk0 Hmat_id Hmat_description Hmat_token
                      Hmat_token' Hmat_on_hand) as [Hr _]
      end.
      rewrite Hr. reflexivity. }
  rewrite Hres, Hcalls. cbn [UpdateInventory.success UpdateInventory.failed
                              UpdateInventory.errors].
  repeat split.
  - rewrite !count_calls_app, (count_close_requests _ Hnew). reflexivity.
  - eexists _, _. reflexivity.
Qed.

Lemma known_succeeds_unknown_fails_witness :
  UpdateInventory.failed
    (UpdateInventory.out_results
       (UpdateInventory.run_updates Mock.jbobj
          ["EXISTING-001" ++ nl; "NONEXISTENT-999" ++ nl]
          (Returned (fresh_mock
             [("EXISTING-001",
               {| Mock.mat_id := "EXISTING-001"; Mock.mat_description := "Exists";
                  Mock.mat_on_hand := PyInt 10;
                  Mock.mat_last_updated := "2025-01-01T00:00:00" |})]))
          "test" "test" "TEST" false))
  = [{| UpdateInventory.f_id := "NONEXISTENT-999";
        UpdateInventory.f_qty := -1;
        UpdateInventory.f_error := "Material not found: NONEXISTENT-999" |}].
Proof.
  refine (proj1 (proj2
    (known_succeeds_unknown_fails
       ["EXISTING-001" ++ nl; "NONEXISTENT-999" ++ nl]
       (fresh_mock
          [("EXISTING-001",
            {| Mock.mat_id := "EXISTING-001"; Mock.mat_description := "Exists";
               Mock.mat_on_hand := PyInt 10;
               Mock.mat_last_updated := "2025-01-01T00:00:00" |})])
       "test" "test" "TEST" "EXISTING-001" "NONEXISTENT-999"
       {| Mock.mat_id := "EXISTING-001"; Mock.mat_description := "Exists";
          Mock.mat_on_hand := PyInt 10;
          Mock.mat_last_updated := "2025-01-01T00:00:00" |}
       _ _ _ _ _ _ _ _ _ _ _ _ _ _ _))); try reflexivity.
  - vm_compute. auto.
  - vm_compute. auto.
  - vm_compute. intros x [<-|[<-|[]]]; auto.
Defined.

(** C2 as stated fails: with the mock of the tests the reason recorded for
    the unknown identifier is the store's message, not ["Not found"]. *)
Lemma unknown_identifier_reason_is_the_store_message :
  let out := UpdateInventory.run_updates Mock.jbobj
               ["EXISTING-001" ++ nl; "NONEXISTENT-999" ++ nl]
               (Returned (fresh_mock
                  [("EXISTING-001",
                    {| Mock.mat_id := "EXISTING-001"; Mock.mat_description := "Exists";
                       Mock.mat_on_hand := PyInt 10;
                       Mock.mat_last_updated := "2025-01-01T00:00:00" |})]))
               "test" "test" "TEST" false in
  map UpdateInventory.f_error (UpdateInventory.failed (UpdateInventory.out_results out))
  = ["Material not found: NONEXISTENT-999"]
  /\ ~ In "Not found"
       (map UpdateInventory.f_error (UpdateInventory.failed (UpdateInventory.out_results out)))
  /\ ~ In "not found"
       (map UpdateInventory.f_error (UpdateInventory.failed (UpdateInventory.out_results out))).
Proof.
  cbv zeta.
  assert (H : map UpdateInventory.f_error
                (UpdateInventory.failed (UpdateInventory.out_results
                   (UpdateInventory.run_updates Mock.jbobj
                      ["EXISTING-001" ++ nl; "NONEXISTENT-999" ++ nl]
                      (Returned (fresh_mock
                         [("EXISTING-001",
                           {| Mock.mat_id := "EXISTING-001"; Mock.mat_description := "Exists";
                              Mock.mat_on_hand := PyInt 10;
                              Mock.mat_last_updated := "2025-01-01T00:00:00" |})]))
                      "test" "test" "TEST" false)))
              = ["Material not found: NONEXISTENT-999"]) by (vm_compute; reflexivity).
  rewrite H. repeat split; intros [E|[]]; discriminate E.
Qed.

(** * Further properties of the code *)

(** ** Loading the input *)

Lemma rstrip_idempotent (s : string) : rstrip (rstrip s) = rstrip s.
Proof.
  induction s as [|c s IH]; [reflexivity|].
  cbn [rstrip]. cbv zeta.
  destruct (is_one_space (String c (rstrip s))) eqn:E; [reflexivity|].
  cbn [rstrip]. cbv zeta. now rewrite IH, E.
Qed.

(** What [rstrip] leaves is empty, or the head with what it leaves of the
    tail. *)
Lemma rstrip_shape (s : string) :
  rstrip s = "" \/ exists c t, s = String c t /\ rstrip s = String c (rstrip t).
Proof.
  destruct s as [|c t]; [now left|].
  cbn [rstrip]. cbv zeta.
  destruct (is_one_space (String c (rstrip t))); [now left|].
  right. now exists c, t.
Qed.

Lemma lstrip_no_space (n : nat) (s : string) :
  (String.length s <= n)%nat -> starts_with_space (lstrip s) = false.
Proof.
  revert s; induction n as [|n IH]; intros s Hlen.
  - destruct s; [reflexivity | simpl in Hlen; lia].
  - destruct s as [|a s1]; [reflexivity|].
    cbn [lstrip]. cbn [String.length] in Hlen.
    destruct (is_space a) eqn:Ha; [apply IH; lia|].
    destruct s1 as [|b s2]; [cbn [starts_with_space]; now rewrite Ha|].
    cbn [String.length] in Hlen.
    destruct (is_space2 a b) eqn:Hb; [apply IH; lia|].
    destruct s2 as [|c s3]; [cbn [starts_with_space]; now rewrite Ha, Hb|].
    cbn [String.length] in Hlen.
    destruct (is_space3 a b c) eqn:Hc; [apply IH; lia|].
    cbn [starts_with_space]. now rewrite Ha, Hb, Hc.
Qed.

Lemma lstrip_fixed (s : string) : starts_with_space s = false -> lstrip s = s.
Proof.
  destruct s as [|a [|b [|c s3]]]; cbn [starts_with_space lstrip]; intros H.
  - reflexivity.
  - apply orb_false_iff in H as [-> _]. reflexivity.
  - apply orb_false_iff in H as [-> H]. apply orb_false_iff in H as [-> _].
    reflexivity.
  - apply orb_false_iff in H as [-> H]. apply orb_false_iff in H as [-> ->].
    reflexivity.
Qed.

Lemma rstrip_no_space (s : string) :
  starts_with_space s = false -> starts_with_space (rstrip s) = false.
Proof.
  intros H. destruct (rstrip_shape s) as [->|(a & s1 & -> & ->)]; [reflexivity|].
  cbn [starts_with_space] in H. apply orb_false_iff in H as [Ha H].
  cbn [starts_with_space]. rewrite Ha. cbn [orb].
  destruct (rstrip_shape s1) as [->|(b & s2 & -> & ->)]; [reflexivity|].
  apply orb_false_iff in H as [Hb H]. rewrite Hb. cbn [orb].
  destruct (rstrip_shape s2) as [->|(c & s3 & -> & ->)]; [reflexivity|].
  exact H.
Qed.

(** What [strip] returns has no white space at either end. *)
Lemma strip_clean (s : string) :
  lstrip (strip s) = strip s /\ rstrip (strip s) = strip s.
Proof.
  unfold strip. split.
  - apply lstrip_fixed, rstrip_no_space, (lstrip_no_space (String.length s)). lia.
  - apply rstrip_idempotent.
Qed.

Lemma strip_idempotent (s : string) : strip (strip s) = strip s.
Proof.
  destruct (strip_clean s) as [Hl Hr]. unfold strip at 1. now rewrite Hl, Hr.
Qed.

Lemma load_material_ids_kept (lines : list string) (x : string) :
  In x (UpdateInventory.load_material_ids lines) ->
  nonempty x = true /\ startswith x "#" = false
  /\ strip x = x /\ lstrip x = x /\ rstrip x = x.
Proof.
  induction lines as [|line lines IH]; cbn [UpdateInventory.load_material_ids In];
    [tauto|].
  cbv zeta.
  destruct (nonempty (strip line)) eqn:Hn; cbn [andb]; [|exact IH].
  destruct (startswith (strip line) "#") eqn:Hs; cbn [negb]; [exact IH|].
  intros [<-|H]; [|now apply IH].
  destruct (strip_clean line). repeat split; auto. apply strip_idempotent.
Qed.

Lemma load_material_ids_app (lines more : list string) :
  UpdateInventory.load_material_ids (lines ++ more)
  = (UpdateInventory.load_material_ids lines ++ UpdateInventory.load_material_ids more)%list.
Proof.
  induction lines as [|line lines IH]; [reflexivity|].
  cbn [app UpdateInventory.load_material_ids]. cbv zeta.
  destruct (nonempty (strip line) && negb (startswith (strip line) "#"));
    cbn [app]; now rewrite IH.
Qed.

Lemma load_material_ids_fixed (ids : list string) :
  (forall x, In x ids -> nonempty x = true /\ startswith x "#" = false /\ strip x = x) ->
  UpdateInventory.load_material_ids ids = ids.
Proof.
  induction ids as [|x ids IH]; intros H; [reflexivity|].
  cbn [UpdateInventory.load_material_ids]. cbv zeta.
  destruct (H x (or_introl eq_refl)) as (Hn & Hs & Hx).
  rewrite Hx, Hn, Hs. cbn [andb negb]. f_equal.
  apply IH. intros y Hy. apply H. now right.
Qed.

(** X1.  Every identifier [load_material_ids] returns is not empty, is not
    a comment and has no white space at either end, [str.strip] taking
    every code point of [str.isspace] from both ends; loading the returned
    list again gives it back; loading goes line by line, so the
    identifiers of a file in two parts are those of the parts in order;
    and both scripts load alike. *)
Theorem load_material_ids_clean (lines more : list string) (x : string)
    (Hx : In x (UpdateInventory.load_material_ids lines)) :
  (nonempty x = true /\ startswith x "#" = false
   /\ strip x = x /\ lstrip x = x /\ rstrip x = x)
  /\ UpdateInventory.load_material_ids (UpdateInventory.load_material_ids lines)
     = UpdateInventory.load_material_ids lines
  /\ UpdateInventory.load_material_ids (lines ++ more)
     = (UpdateInventory.load_material_ids lines
        ++ UpdateInventory.load_material_ids more)%list
  /\ XmlGenerator.load_material_ids lines = UpdateInventory.load_material_ids lines.
Proof.
  split; [now apply (load_material_ids_kept lines)|]. split; [|split].
  - apply load_material_ids_fixed. intros y Hy.
    destruct (load_material_ids_kept lines y Hy) as (H1 & H2 & H3 & _). auto.
  - apply load_material_ids_app.
  - clear. induction lines as [|line lines IH]; [reflexivity|].
    cbn [XmlGenerator.load_material_ids UpdateInventory.load_material_ids].
    now rewrite IH.
Qed.

Lemma load_material_ids_clean_witness :
  UpdateInventory.load_material_ids
    ["# used today" ++ nl; nbsp ++ " MAT-001 " ++ wide_space ++ nl; nl; "MAT-002" ++ nl]
  = ["MAT-001"; "MAT-002"]
  /\ strip "MAT-001" = "MAT-001".
Proof.
  split; [vm_compute; reflexivity|].
  apply (load_material_ids_clean
           ["# used today" ++ nl; nbsp ++ " MAT-001 " ++ wide_space ++ nl; nl; "MAT-002" ++ nl]
           [] "MAT-001").
  vm_compute. auto.
Defined.

(** ** The order of processing *)

Lemma ascii_compare_refl (a : ascii) : Ascii.compare a a = Eq.
Proof. unfold Ascii.compare. apply N.compare_refl. Qed.

Lemma ascii_compare_lt_trans (a b c : ascii) :
  Ascii.compare a b = Lt -> Ascii.compare b c = Lt -> Ascii.compare a c = Lt.
Proof.
  unfold Ascii.compare. rewrite !N.compare_lt_iff. apply N.lt_trans.
Qed.

Lemma string_compare_lt_trans (a b c : string) :
  String.compare a b = Lt -> String.compare b c = Lt -> String.compare a c = Lt.
Proof.
  revert b c; induction a as [|x a IH]; intros [|y b] [|z c]; simpl;
    try discriminate; auto.
  destruct (Ascii.compare x y) eqn:Exy; destruct (Ascii.compare y z) eqn:Eyz;
    try discriminate; intros H1 H2.
  - apply Ascii.compare_eq_iff in Exy, Eyz. subst.
    rewrite ascii_compare_refl. now apply (IH b).
  - apply Ascii.compare_eq_iff in Exy. subst. now rewrite Eyz.
  - apply Ascii.compare_eq_iff in Eyz. subst. now rewrite Exy.
  - now rewrite (ascii_compare_lt_trans x y z).
Qed.

Lemma item_lt_asym (a b : string * Z) : item_lt a b = true -> item_lt b a = false.
Proof.
  unfold item_lt. rewrite (String.compare_antisym (fst b) (fst a)).
  destruct (String.compare (fst a) (fst b)) eqn:E; simpl; try discriminate; auto.
  rewrite !Z.ltb_lt, Z.ltb_ge. lia.
Qed.

Lemma insert_item_HdRel (a x : string * Z) (l : list (string * Z)) :
  HdRel (fun u v => item_lt v u = false) a l -> item_lt x a = false ->
  HdRel (fun u v => item_lt v u = false) a (insert_item x l).
Proof.
  intros H Hx. destruct l as [|y l]; simpl.
  - now constructor.
  - destruct (item_lt x y); constructor; auto. now inversion H.
Qed.

Lemma insert_item_Sorted (x : string * Z) (l : list (string * Z)) :
  Sorted (fun u v => item_lt v u = false) l ->
  Sorted (fun u v => item_lt v u = false) (insert_item x l).
Proof.
  induction l as [|y l IH]; intros H; simpl.
  - repeat constructor.
  - inversion H as [|? ? Hs Hh]; subst.
    destruct (item_lt x y) eqn:E.
    + constructor; [exact H|]. constructor. now apply item_lt_asym.
    + constructor; [now apply IH|]. now apply insert_item_HdRel.
Qed.

Lemma sorted_Sorted (l : list (string * Z)) :
  Sorted (fun u v => item_lt v u = false) (sorted l).
Proof.
  unfold sorted.
  assert (H : forall acc, Sorted (fun u v => item_lt v u = false) acc ->
                Sorted (fun u v => item_lt v u = false)
                  (fold_left (fun acc x => insert_item x acc) l acc)).
  { induction l as [|x l IH]; intros acc Ha; simpl; [exact Ha|].
    apply IH. now apply insert_item_Sorted. }
  apply H. constructor.
Qed.

Lemma not_after_key_lt (a b : string * Z) :
  item_lt b a = false -> fst a <> fst b -> key_lt a b.
Proof.
  unfold item_lt, key_lt. rewrite (String.compare_antisym (fst a) (fst b)).
  destruct (String.compare (fst b) (fst a)) eqn:E; simpl; intros H Hne.
  - apply String.compare_eq_iff in E. congruence.
  - discriminate.
  - reflexivity.
Qed.

Lemma Sorted_key_lt (l : list (string * Z)) :
  NoDup (map fst l) -> Sorted (fun u v => item_lt v u = false) l -> StronglySorted key_lt l.
Proof.
  intros Hnd Hs. apply Sorted_StronglySorted.
  - intros a b c. unfold key_lt. apply string_compare_lt_trans.
  - induction l as [|a l IH]; [constructor|].
    inversion Hs as [|? ? Hs' Hh]; subst. inversion Hnd as [|? ? Hout Hnd']; subst.
    constructor; [now apply IH|].
    destruct l as [|b l]; constructor.
    inversion Hh; subst. apply not_after_key_lt; auto.
    intros E. apply Hout. rewrite E. now left.
Qed.

Lemma sorted_count_materials_ascending (ids : list string) :
  StronglySorted key_lt (sorted (UpdateInventory.count_materials ids)).
Proof.
  apply Sorted_key_lt; [|apply sorted_Sorted].
  apply (Permutation_NoDup
           (Permutation_map fst (Permutation_sym (sorted_perm _)))).
  apply NoDup_keys_count_materials.
Qed.

(** The manifest after the loop: one more entry per item, in order. *)
Lemma package_entries (unicode_isalnum : string -> bool) (reason : string)
    (items : list (string * Z)) (p : XmlGenerator.package) :
  XmlGenerator.materials
    (XmlGenerator.pkg_manifest
       (fold_left (XmlGenerator.add_material unicode_isalnum reason) items p))
  = (XmlGenerator.materials (XmlGenerator.pkg_manifest p)
     ++ map (fun item =>
               {| XmlGenerator.material_id := fst item;
                  XmlGenerator.quantity_change := snd item;
                  XmlGenerator.occurrences := Z.abs (snd item);
                  XmlGenerator.query_file :=
                    "query_" ++ XmlGenerator.safe_id unicode_isalnum (fst item) ++ ".xml";
                  XmlGenerator.update_file :=
                    "update_" ++ XmlGenerator.safe_id unicode_isalnum (fst item)
                    ++ ".xml" |}) items)%list.
Proof.
  revert p; induction items as [|[id q] items IH]; intros p; cbn [fold_left map].
  - now rewrite app_nil_r.
  - rewrite IH. unfold XmlGenerator.add_material.
    cbn [XmlGenerator.pkg_manifest XmlGenerator.materials fst snd].
    now rewrite <- app_assoc.
Qed.

(** X2.  The loop of [run_updates] and the loop of
    [generate_update_package] go through the aggregation in strictly
    ascending order of identifier: in [sorted(quantity_changes.items())]
    every item has a smaller identifier than every later item, the items
    are those of the aggregation, and the manifest lists its entries in
    that order. *)
Theorem items_processed_in_ascending_order (unicode_isalnum : string -> bool)
    (reason now : string) (material_ids : list string) :
  let items := sorted (UpdateInventory.count_materials material_ids) in
  StronglySorted key_lt items
  /\ Permutation items (UpdateInventory.count_materials material_ids)
  /\ map XmlGenerator.material_id
       (XmlGenerator.materials
          (XmlGenerator.pkg_manifest
             (XmlGenerator.generate_update_package unicode_isalnum now material_ids
                reason)))
     = map fst items.
Proof.
  cbv zeta. split; [apply sorted_count_materials_ascending|].
  split; [apply sorted_perm|].
  unfold XmlGenerator.generate_update_package. rewrite package_entries.
  cbn [XmlGenerator.pkg_manifest XmlGenerator.materials app].
  rewrite map_map. reflexivity.
Qed.

(** ** The shape of a run *)

Section RunShape.

Import UpdateInventory.

Context {S : Type} (jbobj : Com.com_object S).
Variables (sid reason : string).

Lemma process_item_requests (st : exec) (item : string * Z) :
  exists cs,
    item_requests sid reason item cs
    /\ calls (process_item jbobj sid reason st item) = (calls st ++ cs)%list.
Proof.
  destruct item as [id q]. unfold process_item, request, item_requests.
  cbn [fst snd].
  destruct (Com.ProcessRequest jbobj (jb st) _) as [jb1 [r1|e1]]; cbn.
  2: { eexists; split; [left; reflexivity|reflexivity]. }
  destruct (truthy (parse_error r1)) as [e|]; cbn.
  { eexists; split; [left; reflexivity|reflexivity]. }
  destruct (truthy (parse_last_updated r1)) as [t|]; cbn.
  2: { eexists; split; [left; reflexivity|reflexivity]. }
  destruct (Com.ProcessRequest jbobj jb1 _) as [jb2 [r2|e2]]; cbn.
  2: { eexists; split; [right; exists t; reflexivity|now rewrite <- app_assoc]. }
  destruct (truthy (parse_error r2)) as [e|]; cbn;
    (eexists; split; [right; exists t; reflexivity|now rewrite <- app_assoc]).
Qed.

Lemma process_items_requests (items : list (string * Z)) (st : exec) :
  exists traces,
    Forall2 (item_requests sid reason) items traces
    /\ calls (process_items jbobj sid reason st items) = (calls st ++ concat traces)%list.
Proof.
  unfold process_items.
  revert st; induction items as [|item items IH]; intros st; cbn [fold_left].
  - exists []. split; [constructor|]. now rewrite app_nil_r.
  - destruct (process_item_requests st item) as (cs & Hcs & E1).
    destruct (IH (process_item jbobj sid reason st item)) as (traces & Ht & E2).
    exists (cs :: traces). split; [now constructor|].
    rewrite E2, E1. cbn [concat]. now rewrite <- app_assoc.
Qed.

End RunShape.

(** X3.  A run that opens its session makes these calls and no other, in
    this order: [Dispatch], [CreateSession], then for each item of the
    aggregation in ascending order its query, followed by at most one
    update of the same identifier and quantity, and at the end
    [CloseSession] with the session it opened, once. *)
Theorem established_run_call_sequence
    {S : Type} (jbobj : Com.com_object S) (lines : list string)
    (jb0 jb1 : S) (username password reason session_id : string)
    (Hinput : UpdateInventory.load_material_ids lines <> [])
    (Hsession : Com.CreateSession jbobj jb0 username password ""
                = (jb1, Returned session_id))
    (Hestablished : nonempty session_id = true) :
  let out := UpdateInventory.run_updates jbobj lines (Returned jb0)
               username password reason false in
  let items := sorted (UpdateInventory.count_materials
                         (UpdateInventory.load_material_ids lines)) in
  exists traces,
    Forall2 (item_requests session_id reason) items traces
    /\ UpdateInventory.out_calls out
       = ([CallDispatch; CallCreateSession username password]
          ++ concat traces ++ [CallCloseSession session_id])%list
    /\ count_calls is_close (UpdateInventory.out_calls out) = 1%nat
    /\ (List.length items <= count_calls is_request (UpdateInventory.out_calls out)
        <= 2 * List.length items)%nat.
Proof.
  cbv zeta.
  rewrite (run_updates_established jbobj lines jb0 jb1 username password reason
             session_id Hinput Hsession Hestablished).
  cbv zeta. cbn [UpdateInventory.out_calls]. rewrite calls_close_session.
  destruct (process_items_requests jbobj session_id reason
              (sorted (UpdateInventory.count_materials
                         (UpdateInventory.load_material_ids lines)))
              {| UpdateInventory.jb := jb1;
                 UpdateInventory.calls :=
                   [CallDispatch; CallCreateSession username password];
                 UpdateInventory.res := UpdateInventory.no_results |})
    as (traces & Ht & E).
  exists traces. rewrite E. cbn [UpdateInventory.calls].
  split; [exact Ht|]. split; [now rewrite <- app_assoc|].
  assert (Hcount : count_calls is_close (concat traces) = 0%nat
                   /\ (List.length
                         (sorted (UpdateInventory.count_materials
                                    (UpdateInventory.load_material_ids lines)))
                       <= count_calls is_request (concat traces)
                       <= 2 * List.length
                                (sorted (UpdateInventory.count_materials
                                           (UpdateInventory.load_material_ids lines))))%nat).
  { clear E. induction Ht as [|item cs items traces Hcs Ht IH]; cbn [concat List.length].
    - cbn. lia.
    - rewrite !count_calls_app. destruct IH as [IH1 IH2].
      destruct Hcs as [-> | (t & ->)]; cbn; lia. }
  destruct Hcount as [Hc Hr].
  rewrite !count_calls_app, Hc. cbn. split; [reflexivity|]. lia.
Qed.

Lemma established_run_call_sequence_witness :
  count_calls is_close
    (UpdateInventory.out_calls
       (UpdateInventory.run_updates Mock.jbobj
          ["TEST-MAT-002" ++ nl; "NONEXISTENT-999" ++ nl; "TEST-MAT-002" ++ nl]
          (Returned (fresh_mock (Mock.materials Mock.init)))
          "user" "secret" "ADJUST" false))
  = 1%nat.
Proof.
  destruct (established_run_call_sequence Mock.jbobj
              ["TEST-MAT-002" ++ nl; "NONEXISTENT-999" ++ nl; "TEST-MAT-002" ++ nl]
              (fresh_mock (Mock.materials Mock.init))
              (fst (Mock.CreateSession (fresh_mock (Mock.materials Mock.init))
                      "user" "secret" ""))
              "user" "secret" "ADJUST" "MOCK-SESSION-20260102120000")
    as (traces & _ & _ & H & _).
  - vm_compute. discriminate.
  - vm_compute. reflexivity.
  - reflexivity.
  - exact H.
Defined.

(** ** The mock as a store *)

Lemma dict_get_Some_key {V : Type} (d : dict V) (k : string) (v : V) :
  dict_get d k = Some v -> In k (keys d).
Proof.
  intros H. destruct (in_dec string_dec k (keys d)) as [Hin|Hout]; [exact Hin|].
  apply dict_get_None in Hout. congruence.
Qed.

(** What a request does to the mock. *)
Lemma mock_request_effect (st : Mock.state) (xml_request : string) :
  let st' := fst (Mock.ProcessRequest st xml_request) in
  Mock.request_log (Mock.self st')
  = (Mock.request_log (Mock.self st) ++ [xml_request])%list
  /\ Mock.session_active (Mock.self st') = Mock.session_active (Mock.self st)
  /\ Mock.session_id (Mock.self st') = Mock.session_id (Mock.self st)
  /\ keys (Mock.materials (Mock.self st')) = keys (Mock.materials (Mock.self st))
  /\ Mock.clock st' = Mock.clock st
  /\ Mock.builtin_float st' = Mock.builtin_float st
  /\ ((Mock.materials (Mock.self st') = Mock.materials (Mock.self st)
       /\ Mock.ticks st' = Mock.ticks st)
      \/ exists id q quantity mat on_hand,
           contains "<MaterialQueryRq>" xml_request = false
           /\ contains "<MaterialModRq>" xml_request = true
           /\ re_search (m_tag_in "<MaterialMod>" "<ID>" "</ID>") xml_request = Some id
           /\ re_search (m_tag "<LastUpdated>" "</LastUpdated>") xml_request
              = Some (Mock.mat_last_updated mat)
           /\ re_search (m_tag "<Quantity>" "</Quantity>") xml_request = Some q
           /\ float (Mock.builtin_float st) q = Returned quantity
           /\ dict_get (Mock.materials (Mock.self st)) id = Some mat
           /\ add (Mock.mat_on_hand mat) quantity = Returned on_hand
           /\ Mock.materials (Mock.self st')
              = dict_set (Mock.materials (Mock.self st)) id
                  {| Mock.mat_id := Mock.mat_id mat;
                     Mock.mat_description := Mock.mat_description mat;
                     Mock.mat_on_hand := on_hand;
                     Mock.mat_last_updated :=
                       isoformat (Mock.clock st (Mock.ticks st)) |}
           /\ Mock.ticks st' = Datatypes.S (Mock.ticks st)).
Proof.
  cbv zeta. unfold Mock.ProcessRequest.
  destruct (contains "<MaterialQueryRq>" xml_request) eqn:Eq.
  { unfold Mock._handle_material_query.
    destruct (re_search (m_tag "<ID>" "</ID>") xml_request) as [id|];
      [destruct (dict_get _ id)|]; cbn; repeat split; auto. }
  destruct (contains "<MaterialModRq>" xml_request) eqn:Em;
    [|cbn; repeat split; auto].
  unfold Mock._handle_material_mod.
  destruct (re_search (m_tag_in _ _ _) xml_request) as [id|] eqn:Ei;
    [|cbn; repeat split; auto].
  destruct (re_search (m_tag "<LastUpdated>" _) xml_request) as [submitted|] eqn:Es;
    [|cbn; repeat split; auto].
  destruct (re_search (m_tag "<Quantity>" _) xml_request) as [qs|] eqn:Eqs;
    [|cbn; repeat split; auto].
  cbn [Mock.log_request Mock.builtin_float Mock.self Mock.materials].
  destruct (float (Mock.builtin_float st) qs) as [quantity|e] eqn:Ef;
    [|cbn; repeat split; auto].
  destruct (dict_get (Mock.materials (Mock.self st)) id) as [mat|] eqn:Ek;
    [|cbn; repeat split; auto].
  destruct (String.eqb_spec submitted (Mock.mat_last_updated mat)) as [->|Hne];
    cbn [negb]; [|cbn; repeat split; auto].
  destruct (add (Mock.mat_on_hand mat) quantity) as [on_hand|e] eqn:Ea;
    [|cbn; repeat split; auto].
  cbn. repeat split.
  - apply keys_dict_set_known. now apply (dict_get_Some_key _ _ mat).
  - right. exists id, qs, quantity, mat, on_hand. repeat split; auto.
Qed.


(** Adding the decimal integer [q] to a quantity on hand that is the
    integer [z] gives the integer [z + q], as a float, while the three are
    within [2^53] of zero. *)
Lemma add_exact (n : num) (z q : Z) :
  is_integer n z -> (Z.abs z <= 2 ^ 53)%Z -> (Z.abs q <= 2 ^ 53)%Z ->
  (Z.abs (z + q) <= 2 ^ 53)%Z ->
  add n (nearest (q * float_one) 1) = Returned (PyFloat (float_of_Z (z + q))).
Proof.
  intros [-> | ->] Hz Hq Hs; cbn [add]; rewrite (nearest_exact q Hq).
  - rewrite (float_of_int_exact z Hz). f_equal. f_equal. now apply fadd_exact.
  - f_equal. f_equal. now apply fadd_exact.
Qed.

Lemma adds_integer (n : num) (z : Z) :
  is_integer n z -> (Z.abs z <= 2 ^ 53)%Z -> adds n = true.
Proof.
  intros [-> | ->] Hz; cbn [adds]; [|reflexivity].
  now rewrite (float_of_int_exact z Hz).
Qed.

Lemma nonempty_app_l (a b : string) : nonempty a = true -> nonempty (a ++ b) = true.
Proof. now destruct a. Qed.

Lemma nonempty_app_r (a b : string) : nonempty b = true -> nonempty (a ++ b) = true.
Proof. destruct a; [auto|reflexivity]. Qed.

Lemma nonempty_zfill (w n : nat) : nonempty (zfill w n) = true.
Proof. unfold zfill. apply nonempty_app_r, nonempty_str_int. Qed.

Lemma nolt_isoformat (t : datetime) : nolt (isoformat t) = true.
Proof.
  unfold isoformat. rewrite !nolt_app, !nolt_zfill.
  destruct (Nat.eqb (microsecond t) 0); [reflexivity|].
  now rewrite nolt_app, nolt_zfill.
Qed.

Lemma nonempty_isoformat (t : datetime) : nonempty (isoformat t) = true.
Proof. unfold isoformat. apply nonempty_app_l, nonempty_zfill. Qed.

Section MockUpdate.

Import UpdateInventory.

Variables (st : Mock.state) (sid id reason : string) (quantity : Z) (mat : Mock.material).
Hypothesis Hsid : nolt sid = true.
Hypothesis Hid : nolt id = true.
Hypothesis Hid' : nonempty id = true.
Hypothesis Hreason : nolt reason = true.
Hypothesis Hmat : dict_get (Mock.materials (Mock.self st)) id = Some mat.
Hypothesis Htoken : nolt (Mock.mat_last_updated mat) = true.
Hypothesis Htoken' : nonempty (Mock.mat_last_updated mat) = true.

Variable on_hand : num.
Hypothesis Hadd :
  add (Mock.mat_on_hand mat) (nearest (quantity * float_one) 1) = Returned on_hand.

(** The update that carries the record's token, in full. *)
Lemma mock_update_applied_exact :
  let xml := create_update_xml sid id (Mock.mat_last_updated mat) quantity reason in
  let mat' := {| Mock.mat_id := Mock.mat_id mat;
                 Mock.mat_description := Mock.mat_description mat;
                 Mock.mat_on_hand := on_hand;
                 Mock.mat_last_updated := isoformat (Mock.clock st (Mock.ticks st)) |} in
  Mock.ProcessRequest st xml
  = ({| Mock.self :=
          {| Mock.session_active := Mock.session_active (Mock.self st);
             Mock.session_id := Mock.session_id (Mock.self st);
             Mock.request_log := (Mock.request_log (Mock.self st) ++ [xml])%list;
             Mock.materials := dict_set (Mock.materials (Mock.self st)) id mat' |};
        Mock.clock := Mock.clock st;
        Mock.ticks := Datatypes.S (Mock.ticks st);
        Mock.builtin_float := Mock.builtin_float st |},
     Returned (Mock.mod_response id mat')).
Proof.
  cbv zeta. unfold Mock.ProcessRequest.
  rewrite (update_is_not_query sid id Hsid Hid _ reason quantity Htoken Hreason).
  rewrite (update_is_mod sid id Hsid _ reason quantity).
  unfold Mock._handle_material_mod.
  rewrite (update_id sid id Hsid Hid Hid' _ reason quantity).
  rewrite (update_last_updated sid id Hsid Hid _ reason quantity Htoken Htoken').
  rewrite (update_quantity sid id Hsid Hid _ reason quantity Htoken Hreason).
  rewrite float_str_int.
  cbn [Mock.log_request Mock.self Mock.materials Mock.clock Mock.ticks
       Mock.session_active Mock.session_id Mock.request_log Mock.builtin_float].
  rewrite Hmat, String.eqb_refl. cbn [negb]. rewrite Hadd. reflexivity.
Qed.

End MockUpdate.

(** X5.  An update document is applied at most once: when the mock has
    applied the update that carries the record's token, and the clock gave
    the record another token, the same document sent again is refused
    with the mismatch message and the record keeps the quantity added
    once: the float that [+=] made of the quantity on hand and the
    quantity of the document, which is their sum when the quantity on hand
    is an integer and the three are within [2^53] of zero. *)
Theorem update_document_applies_once
    (st : Mock.state) (sid id reason : string) (quantity : Z) (mat : Mock.material)
    (Hsid : nolt sid = true) (Hid : nolt id = true) (Hid' : nonempty id = true)
    (Hreason : nolt reason = true)
    (Hmat : dict_get (Mock.materials (Mock.self st)) id = Some mat)
    (Htoken : nolt (Mock.mat_last_updated mat) = true)
    (Htoken' : nonempty (Mock.mat_last_updated mat) = true)
    (Hon_hand : adds (Mock.mat_on_hand mat) = true)
    (Hclock : isoformat (Mock.clock st (Mock.ticks st)) <> Mock.mat_last_updated mat) :
  let xml := UpdateInventory.create_update_xml sid id (Mock.mat_last_updated mat)
               quantity reason in
  let first := Mock.ProcessRequest st xml in
  let second := Mock.ProcessRequest (fst first) xml in
  exists mat',
    snd first = Returned (Mock.mod_response id mat')
    /\ add (Mock.mat_on_hand mat) (nearest (quantity * float_one) 1)
       = Returned (Mock.mat_on_hand mat')
    /\ snd second
       = Returned (Mock._error_response
                     (Mock.mismatch_message (isoformat (Mock.clock st (Mock.ticks st)))
                        (Mock.mat_last_updated mat)))
    /\ Mock.materials (Mock.self (fst second)) = Mock.materials (Mock.self (fst first))
    /\ dict_get (Mock.materials (Mock.self (fst second))) id = Some mat'
    /\ (forall z, is_integer (Mock.mat_on_hand mat) z ->
          (Z.abs z <= 2 ^ 53)%Z -> (Z.abs quantity <= 2 ^ 53)%Z ->
          (Z.abs (z + quantity) <= 2 ^ 53)%Z ->
          Mock.mat_on_hand mat' = PyFloat (float_of_Z (z + quantity))).
Proof.
  cbv zeta.
  destruct (add_adds _ (nearest (quantity * float_one) 1) Hon_hand) as [x Hadd].
  rewrite (mock_update_applied_exact st sid id reason quantity mat
             Hsid Hid Hid' Hreason Hmat Htoken Htoken' (PyFloat x) Hadd).
  cbv zeta. cbn [fst snd].
  match goal with
  | |- context [Mock.ProcessRequest ?s1 _] => set (st1 := s1)
  end.
  set (mat' := {| Mock.mat_id := Mock.mat_id mat;
                  Mock.mat_description := Mock.mat_description mat;
                  Mock.mat_on_hand := PyFloat x;
                  Mock.mat_last_updated := isoformat (Mock.clock st (Mock.ticks st)) |}).
  assert (Hmat1 : dict_get (Mock.materials (Mock.self st1)) id = Some mat')
    by apply dict_get_set_same.
  rewrite (mock_update_mismatch st1 sid id Hsid Hid Hid' (Mock.mat_last_updated mat)
             reason quantity Htoken Htoken' Hreason mat' Hmat1)
    by (cbn [Mock.mat_last_updated mat']; congruence).
  cbn [fst snd]. exists mat'.
  split; [reflexivity|]. split; [exact Hadd|]. split; [reflexivity|].
  split; [reflexivity|]. split; [exact Hmat1|].
  intros z Hint Hz Hq Hs. cbn [Mock.mat_on_hand mat'].
  rewrite (add_exact _ z quantity Hint Hz Hq Hs) in Hadd. congruence.
Qed.

Lemma update_document_applies_once_witness :
  snd (Mock.ProcessRequest
         (fst (Mock.ProcessRequest (fresh_mock (Mock.materials Mock.init))
                 (UpdateInventory.create_update_xml "SESSION" "TEST-MAT-001"
                    "2025-06-15T10:30:00" (-3) "ADJUST")))
         (UpdateInventory.create_update_xml "SESSION" "TEST-MAT-001"
            "2025-06-15T10:30:00" (-3) "ADJUST"))
  = Returned (Mock._error_response
                (Mock.mismatch_message "2026-01-02T12:00:00" "2025-06-15T10:30:00"))
  /\ option_map Mock.mat_on_hand
       (dict_get
          (Mock.materials (Mock.self
             (fst (Mock.ProcessRequest
                (fst (Mock.ProcessRequest (fresh_mock (Mock.materials Mock.init))
                        (UpdateInventory.create_update_xml "SESSION" "TEST-MAT-001"
                           "2025-06-15T10:30:00" (-3) "ADJUST")))
                (UpdateInventory.create_update_xml "SESSION" "TEST-MAT-001"
                   "2025-06-15T10:30:00" (-3) "ADJUST")))))
          "TEST-MAT-001")
     = Some (PyFloat (float_of_Z 97)).
Proof.
  destruct (update_document_applies_once (fresh_mock (Mock.materials Mock.init))
       "SESSION" "TEST-MAT-001" "ADJUST" (-3)
       {| Mock.mat_id := "TEST-MAT-001"; Mock.mat_description := "Test Material 1";
          Mock.mat_on_hand := PyInt 100;
          Mock.mat_last_updated := "2025-06-15T10:30:00" |}
       eq_refl eq_refl eq_refl eq_refl eq_refl eq_refl eq_refl eq_refl
       ltac:(vm_compute; discriminate))
    as (mat' & _ & _ & Hsecond & _ & Hget & Hsum).
  cbn [Mock.mat_last_updated Mock.mat_on_hand] in Hsecond, Hget, Hsum.
  split; [exact Hsecond|].
  rewrite Hget. cbn [option_map]. f_equal.
  apply (Hsum 100%Z); [now left| | |]; vm_compute; discriminate.
Defined.

(** ** What a run keeps *)

Section RunInvariant.

Import UpdateInventory.

Context {S : Type} (jbobj : Com.com_object S) (P : S -> Prop).
Hypothesis Hcreate : forall s u p e, P s -> P (fst (Com.CreateSession jbobj s u p e)).
Hypothesis Hrequest : forall s x, P s -> P (fst (Com.ProcessRequest jbobj s x)).
Hypothesis Hclose : forall s sid, P s -> P (fst (Com.CloseSession jbobj s sid)).

Lemma process_item_invariant (sid reason : string) (st : exec) (item : string * Z) :
  P (jb st) -> P (jb (process_item jbobj sid reason st item)).
Proof.
  intros H. destruct item as [id q]. unfold process_item, request.
  pose proof (Hrequest (jb st) (create_query_xml sid id) H) as H1.
  destruct (Com.ProcessRequest jbobj (jb st) _) as [jb1 [r1|e1]]; cbn in *; auto.
  destruct (truthy (parse_error r1)) as [e|]; cbn; auto.
  destruct (truthy (parse_last_updated r1)) as [t|]; cbn; auto.
  pose proof (Hrequest jb1 (create_update_xml sid id t q reason) H1) as H2.
  destruct (Com.ProcessRequest jbobj jb1 _) as [jb2 [r2|e2]]; cbn in *; auto.
  destruct (truthy (parse_error r2)) as [e|]; cbn; auto.
Qed.

Lemma process_items_invariant (sid reason : string) (items : list (string * Z))
    (st : exec) :
  P (jb st) -> P (jb (process_items jbobj sid reason st items)).
Proof.
  unfold process_items. revert st.
  induction items as [|item items IH]; intros st H; cbn [fold_left]; [exact H|].
  now apply IH, process_item_invariant.
Qed.

Lemma jb_close_session (sid : string) (st : exec) :
  jb (close_session jbobj sid st) = fst (Com.CloseSession jbobj (jb st) sid).
Proof. unfold close_session. now destruct (Com.CloseSession jbobj (jb st) sid). Qed.

(** A run touches the external system only through the three calls. *)
Lemma run_updates_invariant (lines : list string) (jb0 : S)
    (username password reason : string) (dry_run : bool) (final : S) :
  P jb0 ->
  out_jb (run_updates jbobj lines (Returned jb0) username password reason dry_run)
  = Some final ->
  P final.
Proof.
  intros H0. unfold run_updates.
  destruct (load_material_ids lines); [discriminate|].
  destruct dry_run; [discriminate|].
  pose proof (Hcreate jb0 username password "" H0) as H1.
  destruct (Com.CreateSession jbobj jb0 username password "") as [jb1 [sid|e]];
    cbn [fst] in H1.
  - destruct (truthy (Some sid)); cbn [out_jb].
    + intros E; inversion E; subst. rewrite jb_close_session.
      apply Hclose, process_items_invariant. exact H1.
    + intros E; inversion E; subst. exact H1.
  - cbn [out_jb]. intros E; inversion E; subst. exact H1.
Qed.

End RunInvariant.

Lemma In_dict_set {V : Type} (d : dict V) (k k' : string) (v v' : V) :
  In (k', v') (dict_set d k v) -> In (k', v') d \/ v' = v.
Proof.
  induction d as [|[k0 v0] d IH]; simpl.
  - intros [E|[]]. inversion E. now right.
  - destruct (String.eqb k0 k); simpl.
    + intros [E|H]; [inversion E; now right|left; now right].
    + intros [E|H]; [left; now left|].
      destruct (IH H); [left; now right|now right].
Qed.

Lemma mock_request_keeps_plain (st : Mock.state) (xml : string) :
  plain_store (Mock.materials (Mock.self st)) ->
  plain_store (Mock.materials (Mock.self (fst (Mock.ProcessRequest st xml)))).
Proof.
  intros H.
  destruct (mock_request_effect st xml) as (_ & _ & _ & _ & _ & _ & [[E _]|Hchg]).
  - now rewrite E.
  - destruct Hchg as (id & q & quantity & mat & on_hand
                      & _ & _ & _ & _ & _ & _ & Hk & _ & E & _).
    rewrite E.
    intros k m Hin. apply In_dict_set in Hin as [Hin| ->]; [now apply (H k)|].
    pose proof (H id mat (dict_get_Some_In _ _ _ Hk)) as Hp.
    unfold plain_record in *.
    cbn [Mock.mat_id Mock.mat_description Mock.mat_last_updated].
    apply andb_true_iff in Hp as [Hp _]. apply andb_true_iff in Hp as [Hp _].
    rewrite Hp, nolt_isoformat, nonempty_isoformat. reflexivity.
Qed.

(** X6.  A run against the mock never adds or removes a record, and
    leaves a database of plain records plain: every record it holds after
    the run has text fields without ['<'] and a token that is not empty, so
    a later run reads its documents as this one did. *)
Theorem run_keeps_the_store_well_formed
    (lines : list string) (m final : Mock.state)
    (username password reason : string) (dry_run : bool)
    (Hplain : plain_store (Mock.materials (Mock.self m)))
    (Hfinal : UpdateInventory.out_jb
                (UpdateInventory.run_updates Mock.jbobj lines (Returned m)
                   username password reason dry_run) = Some final) :
  plain_store (Mock.materials (Mock.self final))
  /\ keys (Mock.materials (Mock.self final)) = keys (Mock.materials (Mock.self m)).
Proof.
  refine (run_updates_invariant Mock.jbobj
            (fun s => plain_store (Mock.materials (Mock.self s))
                      /\ keys (Mock.materials (Mock.self s))
                         = keys (Mock.materials (Mock.self m)))
            _ _ _ lines m username password reason dry_run final (conj Hplain eq_refl)
            Hfinal).
  - intros s u p e [H1 H2]. cbn [Com.CreateSession Mock.jbobj].
    unfold Mock.CreateSession.
    destruct (truthy (Some u)), (truthy (Some p)); cbn; auto.
  - intros s x [H1 H2]. cbn [Com.ProcessRequest Mock.jbobj]. split.
    + now apply mock_request_keeps_plain.
    + destruct (mock_request_effect s x) as (_ & _ & _ & Hk & _). congruence.
  - intros s sid [H1 H2]. cbn. auto.
Qed.

Lemma run_keeps_the_store_well_formed_witness :
  keys (Mock.materials (Mock.self
          (fst (Mock.CloseSession
             (UpdateInventory.jb
                (UpdateInventory.process_items Mock.jbobj "MOCK-SESSION-20260102120000" "ADJUST"
                   {| UpdateInventory.jb :=
                        fst (Mock.CreateSession (fresh_mock (Mock.materials Mock.init))
                               "user" "secret" "");
                      UpdateInventory.calls :=
                        [CallDispatch; CallCreateSession "user" "secret"];
                      UpdateInventory.res := UpdateInventory.no_results |}
                   (sorted (UpdateInventory.count_materials ["TEST-MAT-002"; "TEST-MAT-002"]))))
             "MOCK-SESSION-20260102120000"))))
  = ["TEST-MAT-001"; "TEST-MAT-002"; "TEST-MAT-003"].
Proof.
  refine (proj2 (run_keeps_the_store_well_formed
                   ["TEST-MAT-002" ++ nl; "TEST-MAT-002" ++ nl]
                   (fresh_mock (Mock.materials Mock.init)) _
                   "user" "secret" "ADJUST" false _ _)).
  - intros k mat Hin. vm_compute in Hin.
    destruct Hin as [E|[E|[E|[]]]]; inversion E; reflexivity.
  - vm_compute. reflexivity.
Defined.

(** ** A batch of known identifiers *)

Section AllKnown.

Import UpdateInventory.

Variables (sid reason : string).
Hypothesis Hsid : nolt sid = true.
Hypothesis Hreason : nolt reason = true.

(** An item the store knows, with a plain record and a quantity on hand
    that [+=] adds to: the update is applied to that record. *)
Lemma mock_item_applied (st : @exec Mock.state) (id : string) (q : Z)
    (mat : Mock.material) :
  nolt id = true -> nonempty id = true ->
  dict_get (Mock.materials (Mock.self (jb st))) id = Some mat ->
  plain_record mat = true -> adds (Mock.mat_on_hand mat) = true ->
  let st' := process_item Mock.jbobj sid reason st (id, q) in
  res st' = add_success (res st) id q
  /\ exists mat',
       Mock.materials (Mock.self (jb st'))
       = dict_set (Mock.materials (Mock.self (jb st))) id mat'
       /\ plain_record mat' = true
       /\ add (Mock.mat_on_hand mat) (nearest (q * float_one) 1)
          = Returned (Mock.mat_on_hand mat').
Proof.
  intros Hid Hid' Hk Hp Ha. cbv zeta.
  unfold plain_record in Hp.
  apply andb_true_iff in Hp as [Hp H4]. apply andb_true_iff in Hp as [Hp H3].
  apply andb_true_iff in Hp as [H1 H2].
  unfold process_item, request. cbn [Com.ProcessRequest Mock.jbobj].
  rewrite (mock_query_known (jb st) sid id Hsid Hid Hid' mat Hk).
  cbn [jb calls res]. rewrite parse_error_query_response. cbn [truthy].
  rewrite (parse_last_updated_query_response mat H1 H2 H3 H4), (truthy_nonempty _ H4).
  destruct (add_adds _ (nearest (q * float_one) 1) Ha) as [x Hadd].
  rewrite (mock_update_applied_exact
             (Mock.log_request (jb st) (create_query_xml sid id))
             sid id reason q mat Hsid Hid Hid' Hreason Hk H3 H4 (PyFloat x) Hadd).
  cbv zeta. rewrite parse_error_mod_response. cbn [truthy].
  cbn [res jb record_success Mock.self Mock.materials Mock.log_request].
  split; [reflexivity|]. eexists. split; [reflexivity|]. split; [|exact Hadd].
  unfold plain_record. cbn [Mock.mat_id Mock.mat_description Mock.mat_last_updated].
  now rewrite H1, H2, nolt_isoformat, nonempty_isoformat.
Qed.

Lemma all_known_loop (items : list (string * Z)) (st : @exec Mock.state) :
  NoDup (map fst items) ->
  (forall k q, In (k, q) items ->
     nolt k = true /\ nonempty k = true
     /\ exists mat, dict_get (Mock.materials (Mock.self (jb st))) k = Some mat
                    /\ plain_record mat = true
                    /\ adds (Mock.mat_on_hand mat) = true) ->
  let st' := process_items Mock.jbobj sid reason st items in
  res st' = {| success := (success (res st) ++ map success_of items)%list;
               failed := failed (res st);
               errors := errors (res st) |}
  /\ (forall k q, In (k, q) items ->
        exists mat mat',
          dict_get (Mock.materials (Mock.self (jb st))) k = Some mat
          /\ dict_get (Mock.materials (Mock.self (jb st'))) k = Some mat'
          /\ add (Mock.mat_on_hand mat) (nearest (q * float_one) 1)
             = Returned (Mock.mat_on_hand mat'))
  /\ (forall x, ~ In x (map fst items) ->
        dict_get (Mock.materials (Mock.self (jb st'))) x
        = dict_get (Mock.materials (Mock.self (jb st))) x).
Proof.
  cbv zeta. unfold process_items. revert st.
  induction items as [|[k q] items IH]; intros st Hnd Hall; cbn [fold_left map].
  - rewrite app_nil_r. destruct (res st). repeat split; auto. intros k q [].
  - inversion Hnd as [|? ? Hout Hnd']; subst.
    destruct (Hall k q (or_introl eq_refl)) as (Hk1 & Hk2 & mat & Hk & Hp & Ha).
    destruct (mock_item_applied st k q mat Hk1 Hk2 Hk Hp Ha)
      as (Hr & mat' & Hm & Hp' & Hv).
    set (st1 := process_item Mock.jbobj sid reason st (k, q)) in *.
    assert (Hother : forall x, x <> k ->
                       dict_get (Mock.materials (Mock.self (jb st1))) x
                       = dict_get (Mock.materials (Mock.self (jb st))) x).
    { intros x Hx. rewrite Hm. apply dict_get_set_other. congruence. }
    destruct (IH st1 Hnd') as (IHr & IHin & IHout).
    { intros k' q' Hin.
      destruct (Hall k' q' (or_intror Hin)) as (A & B & m' & C & D).
      repeat split; auto. exists m'. split; [|exact D].
      rewrite Hother; [exact C|].
      intros ->. apply Hout. change k with (fst (k, q')). now apply in_map. }
    split; [|split].
    + rewrite IHr, Hr. cbn [success failed errors add_success].
      now rewrite <- app_assoc.
    + intros k' q' [E|Hin].
      * inversion E; subst. exists mat, mat'. split; [exact Hk|]. split; [|exact Hv].
        rewrite (IHout k' Hout), Hm. apply dict_get_set_same.
      * destruct (IHin k' q' Hin) as (m0 & m1 & A & B & C).
        exists m0, m1. split; [|split; assumption].
        rewrite <- A. symmetry. apply Hother.
        intros ->. apply Hout. change k with (fst (k, q')). now apply in_map.
    + intros x Hx. cbn [In] in Hx.
      rewrite IHout by tauto. apply Hother. intros ->. tauto.
Qed.

End AllKnown.

Lemma total_perm (a b : dict Z) : Permutation a b -> total a = total b.
Proof.
  unfold total. induction 1; simpl; try lia.
Qed.

Lemma total_negated (d : dict Z) :
  total (map (fun item => (fst item, (- snd item)%Z)) d) = (- total d)%Z.
Proof. unfold total. induction d as [|kv d IH]; simpl; [reflexivity|]. rewrite IH. lia. Qed.

Lemma sum_success_of (items : list (string * Z)) (a : Z) :
  fold_left (fun acc e => (acc + UpdateInventory.s_qty e)%Z) (map success_of items) a
  = (a + total items)%Z.
Proof.
  revert a; induction items as [|kv items IH]; intros a; simpl.
  - unfold total; simpl. lia.
  - rewrite IH. unfold total; simpl. lia.
Qed.

(** X7.  When every identifier of the input holds no ['<'] and is known
    to the mock with a plain record whose quantity on hand is a [float] or
    an [int] within the range of the floats, and the cause code holds no
    ['<'], a run with a user name and a password records a success for
    each distinct identifier, in ascending order, and no failure or error;
    the total adjusted is minus the number of input lines kept; and in the
    store after the run each of these records has the float that [+=]
    makes of its quantity on hand and minus the number of occurrences of
    its identifier, which is their difference when the quantity on hand is
    an integer and it and the number of occurrences together stay within
    [2^53]; the records of the other identifiers are as before. *)
Theorem all_known_batch_is_applied
    (lines : list string) (m : Mock.state) (username password reason : string)
    (Hinput : UpdateInventory.load_material_ids lines <> [])
    (Huser : nonempty username = true) (Hpassword : nonempty password = true)
    (Hreason : nolt reason = true)
    (Hknown : forall x, In x (UpdateInventory.load_material_ids lines) ->
                nolt x = true
                /\ exists mat, dict_get (Mock.materials (Mock.self m)) x = Some mat
                               /\ plain_record mat = true
                               /\ adds (Mock.mat_on_hand mat) = true) :
  let ids := UpdateInventory.load_material_ids lines in
  let out := UpdateInventory.run_updates Mock.jbobj lines (Returned m)
               username password reason false in
  UpdateInventory.out_results out
  = {| UpdateInventory.success :=
         map success_of (sorted (UpdateInventory.count_materials ids));
       UpdateInventory.failed := [];
       UpdateInventory.errors := [] |}
  /\ total_adjusted (UpdateInventory.out_results out) = (- Z.of_nat (List.length ids))%Z
  /\ exists final,
       UpdateInventory.out_jb out = Some final
       /\ (forall x, In x ids ->
             exists mat mat',
               dict_get (Mock.materials (Mock.self m)) x = Some mat
               /\ dict_get (Mock.materials (Mock.self final)) x = Some mat'
               /\ add (Mock.mat_on_hand mat)
                    (nearest (- Z.of_nat (count_of ids x) * float_one) 1)
                  = Returned (Mock.mat_on_hand mat')
               /\ (forall z, is_integer (Mock.mat_on_hand mat) z ->
                     (Z.abs z + Z.of_nat (count_of ids x) <= 2 ^ 53)%Z ->
                     Mock.mat_on_hand mat'
                     = PyFloat (float_of_Z (z - Z.of_nat (count_of ids x)))))
       /\ (forall x, ~ In x ids ->
             dict_get (Mock.materials (Mock.self final)) x
             = dict_get (Mock.materials (Mock.self m)) x).
Proof.
  cbv zeta.
  destruct (mock_create_session m username password Huser Hpassword)
    as (m1 & sid & Hs & Hsid & Hsid' & Hm1).
  rewrite (run_updates_established Mock.jbobj lines m m1 username password reason sid
             Hinput Hs Hsid').
  cbv zeta. cbn [UpdateInventory.out_results UpdateInventory.out_jb].
  rewrite res_close_session, jb_close_session.
  set (ids := UpdateInventory.load_material_ids lines) in *.
  set (d := UpdateInventory.count_materials ids).
  set (st0 := {| UpdateInventory.jb := m1;
                 UpdateInventory.calls :=
                   [CallDispatch; CallCreateSession username password];
                 UpdateInventory.res := UpdateInventory.no_results |}).
  assert (Hitems : forall k q, In (k, q) (sorted d) ->
                     In k ids /\ q = (- Z.of_nat (count_of ids k))%Z).
  { intros k q Hin. apply (Permutation_in _ (sorted_perm d)) in Hin.
    apply (dict_get_In d k q (NoDup_keys_count_materials ids)) in Hin.
    now apply dict_get_count_materials_Some. }
  destruct (all_known_loop sid reason Hsid Hreason (sorted d) st0)
    as (Hres & Hin & Hout).
  { apply (Permutation_NoDup (Permutation_map fst (Permutation_sym (sorted_perm d)))).
    apply NoDup_keys_count_materials. }
  { intros k q Hkq. destruct (Hitems k q Hkq) as [Hk _].
    destruct (Hknown k Hk) as (A & mat & B & C & D).
    split; [exact A|]. split; [exact (load_material_ids_nonempty lines k Hk)|].
    exists mat. split; [|split; [exact C|exact D]].
    cbn [UpdateInventory.jb st0]. now rewrite Hm1. }
  rewrite Hres. cbn [UpdateInventory.res st0 UpdateInventory.success
                     UpdateInventory.failed UpdateInventory.errors
                     UpdateInventory.no_results app].
  split; [reflexivity|]. split.
  - unfold total_adjusted. cbn [UpdateInventory.success].
    rewrite sum_success_of, (total_perm _ _ (sorted_perm d)).
    unfold d. rewrite count_materials_map, total_negated.
    destruct (Counter_spec ids) as (_ & _ & _ & Ht). rewrite Ht. lia.
  - eexists. split; [reflexivity|].
    cbn [Com.CloseSession Mock.jbobj Mock.CloseSession fst Mock.self Mock.materials].
    split.
    + intros x Hx.
      assert (Hq : In (x, (- Z.of_nat (count_of ids x))%Z) (sorted d)).
      { apply (Permutation_in _ (Permutation_sym (sorted_perm d))), dict_get_Some_In.
        now apply dict_get_count_materials_In. }
      destruct (Hin _ _ Hq) as (mat & mat' & A & B & C).
      exists mat, mat'. cbn [UpdateInventory.jb st0] in A. rewrite Hm1 in A.
      split; [exact A|]. split; [exact B|]. split; [exact C|].
      intros z Hz Hsmall.
      rewrite (add_exact _ z (- Z.of_nat (count_of ids x)) Hz) in C by lia.
      rewrite <- Z.add_opp_r. congruence.
    + intros x Hx. rewrite Hout.
      * cbn [UpdateInventory.jb st0]. now rewrite Hm1.
      * intros Hk. apply in_map_iff in Hk as ([k q] & E & Hkq).
        cbn [fst] in E. subst k. now apply Hx, (Hitems x q).
Qed.

Lemma all_known_batch_is_applied_witness :
  total_adjusted
    (UpdateInventory.out_results
       (UpdateInventory.run_updates Mock.jbobj
          ["TEST-MAT-001" ++ nl; "TEST-MAT-001" ++ nl; "TEST-MAT-002" ++ nl]
          (Returned (fresh_mock (Mock.materials Mock.init)))
          "test_user" "test_pass" "TEST" false))
  = (-3)%Z.
Proof.
  refine (proj1 (proj2
    (all_known_batch_is_applied
       ["TEST-MAT-001" ++ nl; "TEST-MAT-001" ++ nl; "TEST-MAT-002" ++ nl]
       (fresh_mock (Mock.materials Mock.init)) "test_user" "test_pass" "TEST"
       _ _ _ _ _))); try reflexivity.
  - vm_compute. discriminate.
  - intros x Hx. vm_compute in Hx.
    destruct Hx as [<-|[<-|[<-|[]]]]; (split; [reflexivity|]);
      eexists; (split; [vm_compute; reflexivity|split; reflexivity]).
Defined.

(** ** A session that cannot be opened *)

(** X8.  When the COM object cannot be created, or [CreateSession] raises
    or returns an empty session, a run with identifiers to process records
    exactly one error and no outcome, sends no request, and does not call
    [CloseSession]. *)
Theorem session_failure_processes_nothing
    {S : Type} (jbobj : Com.com_object S) (lines : list string)
    (dispatch : call_result S) (username password reason : string)
    (Hinput : UpdateInventory.load_material_ids lines <> [])
    (Hfail : match dispatch with
             | Raised _ => True
             | Returned jb0 =>
                 match snd (Com.CreateSession jbobj jb0 username password "") with
                 | Raised _ => True
                 | Returned sid => nonempty sid = false
                 end
             end) :
  let out := UpdateInventory.run_updates jbobj lines dispatch username password reason
               false in
  UpdateInventory.success (UpdateInventory.out_results out) = []
  /\ UpdateInventory.failed (UpdateInventory.out_results out) = []
  /\ (exists e, UpdateInventory.errors (UpdateInventory.out_results out) = [e])
  /\ count_calls is_request (UpdateInventory.out_calls out) = 0%nat
  /\ count_calls is_close (UpdateInventory.out_calls out) = 0%nat.
Proof.
  cbv zeta. unfold UpdateInventory.run_updates.
  destruct (UpdateInventory.load_material_ids lines); [contradiction|].
  destruct dispatch as [jb0|e].
  2: { cbn. repeat split; auto. now eexists. }
  destruct (Com.CreateSession jbobj jb0 username password "") as [jb1 [sid|e]].
  2: { cbn. repeat split; auto. now eexists. }
  cbn [snd] in Hfail. cbn [truthy]. rewrite Hfail.
  cbn. repeat split; auto. now eexists.
Qed.

Lemma session_failure_processes_nothing_witness :
  UpdateInventory.failed
    (UpdateInventory.out_results
       (UpdateInventory.run_updates Mock.jbobj ["TEST-MAT-001" ++ nl]
          (Returned (fresh_mock (Mock.materials Mock.init))) "user" "" "ADJUST" false))
  = [].
Proof.
  refine (proj1 (proj2
    (session_failure_processes_nothing Mock.jbobj ["TEST-MAT-001" ++ nl]
       (Returned (fresh_mock (Mock.materials Mock.init))) "user" "" "ADJUST" _ _))).
  - vm_compute. discriminate.
  - reflexivity.
Defined.

(** ** Reading responses *)

(** X9.  A token [parse_last_updated] returns is not empty, holds no
    ['<'], and stands in the response as the element
    [<LastUpdated>token</LastUpdated>]; a response without the opening tag
    gives no token. *)
Theorem parse_last_updated_sound (response token : string)
    (Hparsed : UpdateInventory.parse_last_updated response = Some token) :
  nonempty token = true /\ nolt token = true
  /\ infix_of (field "LastUpdated" token) response
  /\ (forall other, contains "<LastUpdated>" other = false ->
        UpdateInventory.parse_last_updated other = None).
Proof.
  unfold UpdateInventory.parse_last_updated in *.
  destruct (re_search_some _ _ _ Hparsed) as (pre & t & -> & Ht).
  destruct (m_tag_sound _ _ _ _ Ht) as (rest & -> & Hg & Hn).
  repeat split; auto.
  - exists pre, rest. unfold field. cbn [append]. now rewrite !append_assoc.
  - intros other H. exact (re_search_absent _ _ _ (anchored_m_tag _ _) H).
Qed.

Lemma parse_last_updated_sound_witness :
  nonempty "2025-06-15T10:30:00" = true.
Proof.
  apply (parse_last_updated_sound
           (Mock.query_response
              {| Mock.mat_id := "TEST-MAT-001"; Mock.mat_description := "Test Material 1";
                 Mock.mat_on_hand := PyInt 100;
                 Mock.mat_last_updated := "2025-06-15T10:30:00" |})
           "2025-06-15T10:30:00").
  vm_compute. reflexivity.
Defined.

Lemma parse_error_nonempty (response e : string) :
  UpdateInventory.parse_error response = Some e -> nonempty e = true.
Proof.
  unfold UpdateInventory.parse_error, UpdateInventory.first_group.
  destruct (contains "<StatusCode>0</StatusCode>" response); [discriminate|].
  destruct (re_search (m_tag "<StatusMessage>" _) response) as [g|] eqn:E1.
  { intros H; inversion H; subst. now destruct (search_tag_group _ _ _ _ E1). }
  destruct (re_search (m_tag "<ErrorMessage>" _) response) as [g|] eqn:E2.
  { intros H; inversion H; subst. now destruct (search_tag_group _ _ _ _ E2). }
  destruct (re_search (m_tag_not0 _ _) response); [|discriminate].
  intros H; inversion H. reflexivity.
Qed.

(** A search that found nothing in [pre] finds nothing that starts in
    [pre] when an element follows: the tags hold ['<'] at their start
    only, so no match runs from [pre] into what follows. *)
Lemma strip_prefix_extend_nolt (p s rest : string) :
  nolt p = true -> startswith rest "<" = true ->
  strip_prefix p s = None -> strip_prefix p (s ++ rest) = None.
Proof.
  intros Hp Hr. revert s; induction p as [|a p IH]; intros s H; [discriminate|].
  cbn [nolt] in Hp. apply andb_true_iff in Hp as [Ha Hp].
  destruct s as [|b s].
  - cbn [append]. destruct rest as [|x rest]; [discriminate|].
    unfold startswith in Hr. cbn [strip_prefix] in Hr.
    destruct (Ascii.eqb_spec "<"%char x) as [<-|]; [|discriminate].
    cbn [strip_prefix]. unfold is_lt in Ha.
    destruct (Ascii.eqb a "<"); [discriminate|reflexivity].
  - cbn [append strip_prefix] in *.
    destruct (Ascii.eqb a b); [now apply IH|reflexivity].
Qed.

Lemma strip_prefix_extend (p s rest : string) :
  nolt (drop 1 p) = true -> nonempty s = true -> startswith rest "<" = true ->
  strip_prefix p s = None -> strip_prefix p (s ++ rest) = None.
Proof.
  intros Hp Hs Hr H. destruct p as [|a p]; [discriminate|].
  destruct s as [|b s]; [discriminate|].
  cbn [drop] in Hp. cbn [append strip_prefix] in *.
  destruct (Ascii.eqb a b); [now apply strip_prefix_extend_nolt|reflexivity].
Qed.

Lemma span_not_lt_extend (body rest : string) :
  startswith rest "<" = true ->
  span_not_lt (body ++ rest)
  = (fst (span_not_lt body), snd (span_not_lt body) ++ rest).
Proof.
  intros Hr. induction body as [|c body IH].
  - cbn [append span_not_lt fst snd]. destruct rest as [|x rest]; [discriminate|].
    unfold startswith in Hr. cbn [strip_prefix] in Hr.
    destruct (Ascii.eqb_spec "<"%char x) as [<-|]; [reflexivity|discriminate].
  - cbn [append span_not_lt]. destruct (is_lt c); [reflexivity|].
    rewrite IH. now destruct (span_not_lt body).
Qed.

Lemma m_tag_extend (open close s rest : string) :
  nolt (drop 1 open) = true -> nolt (drop 1 close) = true ->
  nonempty s = true -> startswith rest "<" = true -> may_start close rest = false ->
  m_tag open close s = None -> m_tag open close (s ++ rest) = None.
Proof.
  intros Ho Hc Hs Hr Hm. unfold m_tag.
  destruct (strip_prefix open s) as [body|] eqn:Eo.
  - rewrite (strip_prefix_sound _ _ _ Eo), append_assoc, strip_prefix_app.
    rewrite (span_not_lt_extend body rest Hr).
    destruct (span_not_lt body) as [g r]. cbn [fst snd].
    destruct (nonempty g); [|reflexivity].
    destruct (strip_prefix close r) eqn:Ec; [discriminate|]. intros _.
    destruct r as [|x r].
    + cbn [append]. rewrite <- (append_nil_r rest).
      now rewrite (may_start_false close rest "" Hm).
    + now rewrite (strip_prefix_extend close (String x r) rest Hc eq_refl Hr Ec).
  - intros _. now rewrite (strip_prefix_extend open s rest Ho Hs Hr Eo).
Qed.

Lemma re_search_extend (open close pre rest : string) :
  nolt (drop 1 open) = true -> nolt (drop 1 close) = true ->
  startswith rest "<" = true -> may_start close rest = false ->
  re_search (m_tag open close) pre = None ->
  re_search (m_tag open close) (pre ++ rest) = re_search (m_tag open close) rest.
Proof.
  intros Ho Hc Hr Hm. induction pre as [|c pre IH]; [reflexivity|].
  cbn [re_search]. destruct (m_tag open close (String c pre)) eqn:E; [discriminate|].
  intros H. change (String c pre ++ rest) with (String c (pre ++ rest)).
  cbn [re_search].
  change (String c (pre ++ rest)) with (String c pre ++ rest).
  rewrite (m_tag_extend open close (String c pre) rest Ho Hc eq_refl Hr Hm E).
  now apply IH.
Qed.

(** X10.  In a response without a zero status element, the first
    [StatusMessage] element with a text that is not empty decides the
    error: its text is reported, whatever stands before it, be it
    [StatusMessage] elements that are empty or not closed, and whatever
    [ErrorMessage] or [StatusCode] elements the response holds.  And an
    error [parse_error] reports is never the empty string, so that the
    test [if error:] of the executor misses none. *)
Theorem parse_error_prefers_status_message (pre message post : string)
    (Hnozero : contains "<StatusCode>0</StatusCode>"
                 (pre ++ field "StatusMessage" message ++ post) = false)
    (Hfirst : re_search (m_tag "<StatusMessage>" "</StatusMessage>") pre = None)
    (Hmessage : nolt message = true) (Hnonempty : nonempty message = true) :
  UpdateInventory.parse_error (pre ++ field "StatusMessage" message ++ post)
  = Some message
  /\ (forall response e,
        UpdateInventory.parse_error response = Some e ->
        truthy (UpdateInventory.parse_error response) = Some e).
Proof.
  split.
  - unfold UpdateInventory.parse_error, UpdateInventory.first_group.
    rewrite Hnozero.
    replace (field "StatusMessage" message ++ post)
      with ("<StatusMessage>" ++ message ++ "</StatusMessage>" ++ post)
      by (unfold field; cbn [append]; now rewrite !append_assoc).
    rewrite (re_search_extend "<StatusMessage>" "</StatusMessage>" pre
               ("<StatusMessage>" ++ message ++ "</StatusMessage>" ++ post)
               eq_refl eq_refl eq_refl eq_refl Hfirst).
    now rewrite search_tag_here.
  - intros response e H. rewrite H. cbn [truthy].
    now rewrite (parse_error_nonempty _ _ H).
Qed.

Lemma parse_error_prefers_status_message_witness :
  UpdateInventory.parse_error
    ("<StatusCode>2</StatusCode><StatusMessage></StatusMessage>"
     ++ field "StatusMessage" "Locked" ++ "<ErrorMessage>other</ErrorMessage>")
  = Some "Locked".
Proof.
  apply (parse_error_prefers_status_message
           "<StatusCode>2</StatusCode><StatusMessage></StatusMessage>" "Locked"
           "<ErrorMessage>other</ErrorMessage>"); reflexivity.
Defined.

(** ** The audit package *)

Section PackageFold.

Import XmlGenerator.

Variable unicode_isalnum : string -> bool.
Variable reason : string.

Lemma package_header (items : list (string * Z)) (p : package) :
  let m := pkg_manifest (fold_left (add_material unicode_isalnum reason) items p) in
  generated_at m = generated_at (pkg_manifest p)
  /\ reason_id m = reason_id (pkg_manifest p)
  /\ total_materials m = total_materials (pkg_manifest p)
  /\ total_pieces m = total_pieces (pkg_manifest p)
  /\ input_ids m = input_ids (pkg_manifest p).
Proof.
  cbv zeta. revert p; induction items as [|[id q] items IH]; intros p;
    cbn [fold_left]; [auto|].
  destruct (IH (add_material unicode_isalnum reason p (id, q))) as (A & B & C & D & E).
  now rewrite A, B, C, D, E.
Qed.

End PackageFold.

Lemma sum_occurrences (d : dict Z) (a : Z) :
  fold_left (fun acc kv => (acc + Z.abs (snd kv))%Z) d a
  = (a + fold_right (fun kv acc => (Z.abs (snd kv) + acc)%Z) 0%Z d)%Z.
Proof.
  revert a; induction d as [|kv d IH]; intros a; simpl; [lia|]. rewrite IH. lia.
Qed.

Lemma sum_abs_perm (a b : dict Z) :
  Permutation a b -> XmlGenerator.sum_abs a = XmlGenerator.sum_abs b.
Proof.
  unfold XmlGenerator.sum_abs. rewrite !sum_occurrences.
  induction 1; simpl; lia.
Qed.

(** X11.  [xml_generator.main] exits with 1 and generates nothing when the
    input file is missing or holds no identifier.  Otherwise it exits with
    0 and the package is consistent with the input: the manifest keeps the
    loaded identifiers, the cause code and the time; [total_materials] is
    the number of entries, [total_pieces] the number of identifiers loaded
    and the sum of the entries' occurrences; each entry has the
    occurrences of its identifier and their negative as quantity change;
    and two files are written per entry. *)
Theorem generator_main_package
    (unicode_isalnum : string -> bool)
    (fs : string -> option (list string)) (now : string) (a : XmlGenerator.args) :
  match XmlGenerator.main unicode_isalnum fs now a with
  | (status, None) =>
      status = 1%Z
      /\ (fs (XmlGenerator.arg_input a) = None
          \/ exists lines, fs (XmlGenerator.arg_input a) = Some lines
                           /\ XmlGenerator.load_material_ids lines = [])
  | (status, Some pkg) =>
      status = 0%Z
      /\ exists lines,
           fs (XmlGenerator.arg_input a) = Some lines
           /\ let ids := XmlGenerator.load_material_ids lines in
              let m := XmlGenerator.pkg_manifest pkg in
              ids <> []
              /\ XmlGenerator.input_ids m = ids
              /\ XmlGenerator.reason_id m = XmlGenerator.arg_reason a
              /\ XmlGenerator.generated_at m = now
              /\ XmlGenerator.total_materials m = List.length (XmlGenerator.materials m)
              /\ XmlGenerator.total_pieces m = Z.of_nat (List.length ids)
              /\ fold_right (fun e acc => (XmlGenerator.occurrences e + acc)%Z) 0%Z
                   (XmlGenerator.materials m)
                 = XmlGenerator.total_pieces m
              /\ Forall (fun e =>
                           XmlGenerator.occurrences e
                           = Z.of_nat (count_of ids (XmlGenerator.material_id e))
                           /\ XmlGenerator.quantity_change e
                              = (- XmlGenerator.occurrences e)%Z)
                        (XmlGenerator.materials m)
              /\ List.length (XmlGenerator.pkg_written pkg)
                 = (2 * XmlGenerator.total_materials m)%nat
  end.
Proof.
  unfold XmlGenerator.main.
  destruct (fs (XmlGenerator.arg_input a)) as [lines|]; [|split; auto].
  destruct (XmlGenerator.load_material_ids lines) as [|x l] eqn:El.
  { split; [reflexivity|]. right. now exists lines. }
  split; [reflexivity|]. exists lines. split; [reflexivity|]. cbv zeta.
  rewrite El. set (ids := x :: l).
  unfold XmlGenerator.generate_update_package.
  set (d := XmlGenerator.count_materials ids).
  match goal with
  | |- context [fold_left _ _ ?p0] => set (p := p0)
  end.
  destruct (package_header unicode_isalnum (XmlGenerator.arg_reason a) (sorted d) p)
    as (A & B & C & D & E).
  rewrite A, B, C, D, E, package_entries, written_files.
  cbn [XmlGenerator.pkg_manifest XmlGenerator.pkg_written p XmlGenerator.input_ids
       XmlGenerator.reason_id XmlGenerator.generated_at XmlGenerator.total_materials
       XmlGenerator.total_pieces XmlGenerator.materials app].
  assert (Hpieces : XmlGenerator.sum_abs d = Z.of_nat (List.length ids))
    by apply sum_abs_count_materials.
  assert (Hlen : List.length (sorted d) = List.length d)
    by apply Permutation_length, sorted_perm.
  repeat split; auto.
  - discriminate.
  - now rewrite length_map, Hlen.
  - rewrite <- (sum_abs_perm _ _ (sorted_perm d)).
    unfold XmlGenerator.sum_abs. rewrite sum_occurrences.
    generalize (sorted d). clear. intros it.
    induction it as [|kv it IH]; cbn [map fold_right XmlGenerator.occurrences];
      [reflexivity|].
    rewrite IH. lia.
  - apply Forall_forall. intros e He. apply in_map_iff in He as ([k q] & <- & Hkq).
    cbn [XmlGenerator.occurrences XmlGenerator.quantity_change
         XmlGenerator.material_id fst snd].
    apply (Permutation_in _ (sorted_perm d)) in Hkq.
    apply (dict_get_In d k q (NoDup_keys_count_materials ids)) in Hkq.
    apply dict_get_count_materials_Some in Hkq as [_ ->]. lia.
  - rewrite <- Hlen. generalize (sorted d). clear. intros it.
    induction it as [|kv it IH]; cbn [flat_map List.length app files_of];
      [reflexivity|].
    rewrite IH. lia.
Qed.

(** ** File names *)

Lemma all_chars_app (p : ascii -> bool) (a b : string) :
  all_chars p (a ++ b) = all_chars p a && all_chars p b.
Proof.
  induction a as [|c a IH]; cbn [append all_chars]; [reflexivity|].
  now rewrite IH, andb_assoc.
Qed.

Lemma concat_cons (x : string) (l : list string) :
  String.concat "" (x :: l) = x ++ String.concat "" l.
Proof. destruct l; cbn [String.concat]; [now rewrite append_nil_r|reflexivity]. Qed.

Lemma ascii_safe_concat (l : list string) :
  Forall (fun c => ascii_safe c = true) l -> ascii_safe (String.concat "" l) = true.
Proof.
  induction 1 as [|c l Hc Hl IH]; [reflexivity|].
  rewrite concat_cons. unfold ascii_safe in *. now rewrite all_chars_app, Hc, IH.
Qed.

(** A character of one byte is kept when it is a letter, a digit, ['-']
    or ['_'] within ASCII, or alphanumeric outside; otherwise it becomes
    ['_']. *)
Lemma safe_byte (unicode_isalnum : string -> bool) (a : ascii) :
  ascii_safe (if XmlGenerator.isalnum unicode_isalnum (String a "")
                 || contains (String a "") "-_"
              then String a "" else "_") = true.
Proof.
  destruct a as [[] [] [] [] [] [] [] []];
    cbn [XmlGenerator.isalnum]; try reflexivity;
    destruct (unicode_isalnum _); reflexivity.
Qed.

(** A character of several bytes holds no ASCII byte. *)
Lemma safe_bytes (unicode_isalnum : string -> bool) (c : string) :
  all_chars (fun b => (128 <=? nat_of_ascii b)%nat) c = true ->
  ascii_safe (if XmlGenerator.isalnum unicode_isalnum c || contains c "-_"
              then c else "_") = true.
Proof.
  intros H. destruct (_ || _); [|reflexivity].
  unfold ascii_safe. induction c as [|b c IH]; [reflexivity|].
  cbn [all_chars] in *. apply andb_true_iff in H as [-> H]. now apply IH.
Qed.

Lemma lead_not_ascii (a : ascii) :
  utf8_width a <> 1%nat -> (128 <=? nat_of_ascii a)%nat = true.
Proof.
  unfold utf8_width. intros H.
  destruct (Nat.ltb_spec (nat_of_ascii a) 192); [congruence|].
  apply Nat.leb_le. lia.
Qed.

Lemma continues_not_ascii (b : ascii) :
  continues b = true -> (128 <=? nat_of_ascii b)%nat = true.
Proof. unfold continues. intros H. now apply andb_true_iff in H as [H _]. Qed.

Lemma safe_chars (unicode_isalnum : string -> bool) (n : nat) (s : string) :
  (String.length s <= n)%nat ->
  Forall (fun c => ascii_safe c = true)
    (map (fun c => if XmlGenerator.isalnum unicode_isalnum c || contains c "-_"
                   then c else "_") (chars s)).
Proof.
  revert s; induction n as [|n IH]; intros s Hlen.
  - destruct s; [constructor | simpl in Hlen; lia].
  - destruct s as [|a s1]; [constructor|].
    cbn [String.length] in Hlen.
    assert (Hone : Forall (fun c => ascii_safe c = true)
                     (map (fun c => if XmlGenerator.isalnum unicode_isalnum c
                                       || contains c "-_" then c else "_")
                          (String a "" :: chars s1))).
    { cbn [map]. constructor; [apply safe_byte | apply IH; lia]. }
    cbn [chars].
    destruct (utf8_width a) as [|[|[|[|[|w]]]]] eqn:Hw; try exact Hone.
    + destruct s1 as [|b s2]; [exact Hone|].
      destruct (continues b) eqn:Hb; [|exact Hone].
      cbn [map]. cbn [String.length] in Hlen. constructor; [|apply IH; lia].
      apply safe_bytes. cbn [all_chars].
      rewrite lead_not_ascii, (continues_not_ascii b Hb) by congruence. reflexivity.
    + destruct s1 as [|b [|c s3]]; try exact Hone.
      destruct (continues b) eqn:Hb; [|exact Hone].
      destruct (continues c) eqn:Hc; [|exact Hone].
      cbn [andb map]. cbn [String.length] in Hlen. constructor; [|apply IH; lia].
      apply safe_bytes. cbn [all_chars].
      rewrite lead_not_ascii, (continues_not_ascii b Hb), (continues_not_ascii c Hc)
        by congruence.
      reflexivity.
    + destruct s1 as [|b [|c [|d s4]]]; try exact Hone.
      destruct (continues b) eqn:Hb; [|exact Hone].
      destruct (continues c) eqn:Hc; [|exact Hone].
      destruct (continues d) eqn:Hd; [|exact Hone].
      cbn [andb map]. cbn [String.length] in Hlen. constructor; [|apply IH; lia].
      apply safe_bytes. cbn [all_chars].
      rewrite lead_not_ascii, (continues_not_ascii b Hb), (continues_not_ascii c Hc),
        (continues_not_ascii d Hd) by congruence.
      reflexivity.
Qed.

Lemma safe_id_ascii_safe (unicode_isalnum : string -> bool) (material_id : string) :
  ascii_safe (XmlGenerator.safe_id unicode_isalnum material_id) = true.
Proof.
  unfold XmlGenerator.safe_id.
  apply ascii_safe_concat, (safe_chars _ (String.length material_id)). lia.
Qed.

Lemma is_safe_char_width (a : ascii) : is_safe_char a = true -> utf8_width a = 1%nat.
Proof. destruct a as [[] [] [] [] [] [] [] []]; try discriminate; reflexivity. Qed.

Lemma is_safe_char_kept (unicode_isalnum : string -> bool) (a : ascii) :
  is_safe_char a = true ->
  XmlGenerator.isalnum unicode_isalnum (String a "") || contains (String a "") "-_" = true.
Proof. destruct a as [[] [] [] [] [] [] [] []]; try discriminate; reflexivity. Qed.

Lemma safe_id_fixed (unicode_isalnum : string -> bool) (s : string) :
  all_chars is_safe_char s = true -> XmlGenerator.safe_id unicode_isalnum s = s.
Proof.
  unfold XmlGenerator.safe_id. induction s as [|a s IH]; [reflexivity|].
  cbn [all_chars]. intros H. apply andb_true_iff in H as [Ha Hs].
  cbn [chars]. rewrite (is_safe_char_width a Ha). cbn [map].
  rewrite concat_cons, (IH Hs), (is_safe_char_kept _ a Ha). reflexivity.
Qed.

Lemma all_chars_excludes (p : ascii -> bool) (c : ascii) (s : string) :
  all_chars p s = true -> p c = false -> contains (String c "") s = false.
Proof.
  intros Hs Hc. induction s as [|x s IH]; [reflexivity|].
  cbn [all_chars] in Hs. apply andb_true_iff in Hs as [Hx Hs].
  unfold contains in *. cbn [re_search strip_prefix].
  destruct (Ascii.eqb_spec c x) as [->|Hne]; [congruence|]. now apply IH.
Qed.

(** X12.  In the file name part [generate_update_package] makes of an
    identifier, every ASCII character is a letter, a digit, ['-'] or
    ['_']: the part holds no ['/'], no ['\'], no ['.'] and no [':'],
    whatever the identifier and whatever [str.isalnum] keeps outside
    ASCII.  An identifier made of such ASCII characters only is its own
    file name part. *)
Theorem safe_id_is_a_safe_name (unicode_isalnum : string -> bool) (material_id : string) :
  ascii_safe (XmlGenerator.safe_id unicode_isalnum material_id) = true
  /\ contains "/" (XmlGenerator.safe_id unicode_isalnum material_id) = false
  /\ contains "\" (XmlGenerator.safe_id unicode_isalnum material_id) = false
  /\ contains "." (XmlGenerator.safe_id unicode_isalnum material_id) = false
  /\ contains ":" (XmlGenerator.safe_id unicode_isalnum material_id) = false
  /\ (all_chars is_safe_char material_id = true ->
      XmlGenerator.safe_id unicode_isalnum material_id = material_id).
Proof.
  pose proof (safe_id_ascii_safe unicode_isalnum material_id) as H.
  split; [exact H|].
  repeat split; try (now apply (all_chars_excludes _ _ _ H)).
  apply safe_id_fixed.
Qed.

Lemma safe_id_is_a_safe_name_witness :
  XmlGenerator.safe_id ascii_only "MAT-001_a" = "MAT-001_a".
Proof.
  apply (safe_id_is_a_safe_name ascii_only "MAT-001_a"). reflexivity.
Defined.

(** ** The documents of the one-command variant, read by the mock *)

(** X13.  The mock routes the documents of [update_inventory.py] to the
    right handler and finds in them what was written: in the query the
    identifier; in the update the identifier, the token and, as quantity,
    the decimal integer that was written, which [float] reads as the
    nearest float: the integer itself while it is within [2^53] of zero.
    This holds for a session, an identifier, a token and a cause code
    without ['<'], the identifier and the token not empty. *)
Theorem one_command_documents_are_read_back
    (sid id token reason : string) (quantity : Z)
    (Hsid : nolt sid = true) (Hid : nolt id = true) (Hid' : nonempty id = true)
    (Htoken : nolt token = true) (Htoken' : nonempty token = true)
    (Hreason : nolt reason = true) :
  let query := UpdateInventory.create_query_xml sid id in
  let update := UpdateInventory.create_update_xml sid id token quantity reason in
  (contains "<MaterialQueryRq>" query = true
   /\ re_search (m_tag "<ID>" "</ID>") query = Some id)
  /\ (contains "<MaterialQueryRq>" update = false
      /\ contains "<MaterialModRq>" update = true
      /\ read_update update = Some (id, str_int quantity)
      /\ re_search (m_tag "<LastUpdated>" "</LastUpdated>") update = Some token)
  /\ (forall builtin,
        float builtin (str_int quantity) = Returned (nearest (quantity * float_one) 1))
  /\ ((Z.abs quantity <= 2 ^ 53)%Z ->
      nearest (quantity * float_one) 1 = float_of_Z quantity).
Proof.
  cbv zeta. split; [split|split; [|split]].
  - unfold UpdateInventory.create_query_xml. skip_pieces. now rewrite contains_here.
  - unfold UpdateInventory.create_query_xml. skip_pieces. now rewrite search_tag_here.
  - split; [now apply update_is_not_query|]. split; [now apply update_is_mod|].
    split; [|now apply update_last_updated].
    unfold read_update.
    rewrite (update_id sid id Hsid Hid Hid' token reason quantity).
    now rewrite (update_quantity sid id Hsid Hid token reason quantity Htoken Hreason).
  - intros builtin. apply float_str_int.
  - apply nearest_exact.
Qed.

Lemma one_command_documents_are_read_back_witness :
  read_update (UpdateInventory.create_update_xml "MOCK-SESSION-20260102120000"
                 "TEST-MAT-001" "2025-06-15T10:30:00" (-3) "ADJUST")
  = Some ("TEST-MAT-001", "-3").
Proof.
  refine (proj1 (proj2 (proj2 (proj1 (proj2
    (one_command_documents_are_read_back "MOCK-SESSION-20260102120000" "TEST-MAT-001"
       "2025-06-15T10:30:00" "ADJUST" (-3) _ _ _ _ _ _)))))); reflexivity.
Defined.

(** Beyond [2^53] the quantity the mock reads is not the one written:
    [2^53 + 1] is read as [2^53]. *)
Remark quantity_beyond_2_53_is_rounded (builtin : string -> call_result pyfloat) :
  float builtin (str_int (2 ^ 53 + 1)) = Returned (float_of_Z (2 ^ 53)).
Proof. rewrite float_str_int. vm_compute. reflexivity. Qed.

(** ** The records of a run, in order *)

(** X14.  Whatever the external system answers, the loop leaves for each
    item one record that carries the item's identifier and delta: a
    success, or a failure with a reason.  The successes and the failures
    are each appended in the order of the items, behind the records that
    were there, which are not changed; no error is added. *)
Theorem records_follow_the_items
    {S : Type} (jbobj : Com.com_object S) (sid reason : string)
    (items : list (string * Z)) (st : UpdateInventory.exec) :
  let st' := UpdateInventory.process_items jbobj sid reason st items in
  exists verdicts,
    List.length verdicts = List.length items
    /\ UpdateInventory.success (UpdateInventory.res st')
       = (UpdateInventory.success (UpdateInventory.res st)
          ++ successes_of items verdicts)%list
    /\ UpdateInventory.failed (UpdateInventory.res st')
       = (UpdateInventory.failed (UpdateInventory.res st)
          ++ failures_of items verdicts)%list
    /\ UpdateInventory.errors (UpdateInventory.res st')
       = UpdateInventory.errors (UpdateInventory.res st).
Proof.
  cbv zeta. unfold UpdateInventory.process_items. revert st.
  induction items as [|[id q] items IH]; intros st; cbn [fold_left].
  - exists []. cbn. now rewrite !app_nil_r.
  - destruct (IH (UpdateInventory.process_item jbobj sid reason st (id, q)))
      as (vs & Hl & Hs & Hf & He).
    destruct (process_item_records jbobj sid reason st id q)
      as (He1 & [[Hs1 Hf1]|(e & Hf1 & Hs1)]).
    + exists (None :: vs). cbn [List.length]. split; [now rewrite Hl|].
      rewrite Hs, Hf, He, Hs1, Hf1, He1.
      unfold successes_of, failures_of. cbn [combine flat_map snd fst app].
      rewrite <- app_assoc. repeat split.
    + exists (Some e :: vs). cbn [List.length]. split; [now rewrite Hl|].
      rewrite Hs, Hf, He, Hs1, Hf1, He1.
      unfold successes_of, failures_of. cbn [combine flat_map snd fst app].
      rewrite <- app_assoc. repeat split.
Qed.

(** ** The session of the mock *)

Lemma mock_process_items_session (sid reason : string) (items : list (string * Z))
    (st : @UpdateInventory.exec Mock.state) :
  Mock.session_active (Mock.self (UpdateInventory.jb
     (UpdateInventory.process_items Mock.jbobj sid reason st items)))
  = Mock.session_active (Mock.self (UpdateInventory.jb st))
  /\ Mock.session_id (Mock.self (UpdateInventory.jb
       (UpdateInventory.process_items Mock.jbobj sid reason st items)))
     = Mock.session_id (Mock.self (UpdateInventory.jb st)).
Proof.
  apply (process_items_invariant Mock.jbobj
           (fun s => Mock.session_active (Mock.self s)
                     = Mock.session_active (Mock.self (UpdateInventory.jb st))
                     /\ Mock.session_id (Mock.self s)
                        = Mock.session_id (Mock.self (UpdateInventory.jb st)))).
  - intros s x [H1 H2]. cbn [Com.ProcessRequest Mock.jbobj].
    destruct (mock_request_effect s x) as (_ & A & B & _). split; congruence.
  - now split.
Qed.

(** X15.  The session of the mock is open exactly while the loop runs: a
    run that starts on a mock without a session has it active, under the
    identifier [CreateSession] returned, when the loop ends, and leaves
    the mock without a session; with an empty user name or password the
    mock never has a session. *)
Theorem mock_session_is_scoped
    (lines : list string) (m final : Mock.state) (username password reason : string)
    (Hidle : Mock.session_active (Mock.self m) = false
             /\ Mock.session_id (Mock.self m) = None)
    (Hfinal : UpdateInventory.out_jb
                (UpdateInventory.run_updates Mock.jbobj lines (Returned m)
                   username password reason false) = Some final) :
  (Mock.session_active (Mock.self final) = false
   /\ Mock.session_id (Mock.self final) = None)
  /\ (nonempty username = true -> nonempty password = true ->
      exists m1 sid,
        Mock.CreateSession m username password "" = (m1, Returned sid)
        /\ let st := UpdateInventory.process_items Mock.jbobj sid reason
                       {| UpdateInventory.jb := m1;
                          UpdateInventory.calls :=
                            [CallDispatch; CallCreateSession username password];
                          UpdateInventory.res := UpdateInventory.no_results |}
                       (sorted (UpdateInventory.count_materials
                                  (UpdateInventory.load_material_ids lines))) in
           Mock.session_active (Mock.self (UpdateInventory.jb st)) = true
           /\ Mock.session_id (Mock.self (UpdateInventory.jb st)) = Some sid
           /\ final = fst (Mock.CloseSession (UpdateInventory.jb st) sid)).
Proof.
  destruct Hidle as [Ha Hi].
  assert (Hinput : UpdateInventory.load_material_ids lines <> []).
  { intros E. unfold UpdateInventory.run_updates in Hfinal. rewrite E in Hfinal.
    discriminate. }
  destruct (nonempty username) eqn:Hu; [destruct (nonempty password) eqn:Hp|].
  - destruct (mock_create_session m username password Hu Hp)
      as (m1 & sid & Hs & Hsid & Hsid' & Hm1).
    rewrite (run_updates_established Mock.jbobj lines m m1 username password reason sid
               Hinput Hs Hsid') in Hfinal.
    cbv zeta in Hfinal. cbn [UpdateInventory.out_jb] in Hfinal.
    rewrite jb_close_session in Hfinal. inversion Hfinal as [Hf]. clear Hfinal.
    split; [split; reflexivity|]. intros _ _. exists m1, sid.
    split; [exact Hs|]. cbv zeta.
    destruct (mock_process_items_session sid reason
                (sorted (UpdateInventory.count_materials
                           (UpdateInventory.load_material_ids lines)))
                {| UpdateInventory.jb := m1;
                   UpdateInventory.calls :=
                     [CallDispatch; CallCreateSession username password];
                   UpdateInventory.res := UpdateInventory.no_results |}) as [A B].
    rewrite A, B. cbn [UpdateInventory.jb].
    unfold Mock.CreateSession in Hs.
    rewrite (truthy_nonempty _ Hu), (truthy_nonempty _ Hp) in Hs.
    inversion Hs; subst. cbn. auto.
  - unfold UpdateInventory.run_updates in Hfinal.
    destruct (UpdateInventory.load_material_ids lines); [contradiction|].
    cbn [Com.CreateSession Mock.jbobj] in Hfinal. unfold Mock.CreateSession in Hfinal.
    rewrite (truthy_nonempty _ Hu) in Hfinal. cbn [truthy] in Hfinal.
    rewrite Hp in Hfinal. cbn in Hfinal. inversion Hfinal; subst.
    split; [now split|]. discriminate.
  - unfold UpdateInventory.run_updates in Hfinal.
    destruct (UpdateInventory.load_material_ids lines); [contradiction|].
    cbn [Com.CreateSession Mock.jbobj] in Hfinal. unfold Mock.CreateSession in Hfinal.
    cbn [truthy] in Hfinal. rewrite Hu in Hfinal. cbn in Hfinal.
    inversion Hfinal; subst. split; [now split|]. discriminate.
Qed.

Lemma mock_session_is_scoped_witness :
  Mock.session_active
    (Mock.self
       (fst (Mock.CloseSession
          (UpdateInventory.jb
             (UpdateInventory.process_items Mock.jbobj "MOCK-SESSION-20260102120000" "ADJUST"
                {| UpdateInventory.jb :=
                     fst (Mock.CreateSession (fresh_mock (Mock.materials Mock.init))
                            "user" "secret" "");
                   UpdateInventory.calls :=
                     [CallDispatch; CallCreateSession "user" "secret"];
                   UpdateInventory.res := UpdateInventory.no_results |}
                (sorted (UpdateInventory.count_materials ["TEST-MAT-003"]))))
          "MOCK-SESSION-20260102120000")))
  = false.
Proof.
  refine (proj1 (proj1
    (mock_session_is_scoped ["TEST-MAT-003" ++ nl]
       (fresh_mock (Mock.materials Mock.init)) _ "user" "secret" "ADJUST" _ _))).
  - split; reflexivity.
  - vm_compute. reflexivity.
Defined.
